(** * claude-session-index: indexer, context extractor and topic-capture hook

    A shallow embedding of [session_index/indexer.py], [session_index/analyzer.py]
    and [session_index/topic_capture.py], and the properties of the
    specification checked against it.

    Conventions of the embedding.
    - A Python [str] is a Rocq [string]; a character is one [ascii].  For text
      whose code points are below 128 this is exact ([len], slicing, [lower]).
    - Every Python value that originates in a transcript is a [json] value; the
      operations that Python checks dynamically ([.get] on a non-dict, [len] of
      a number, [' '.join] over non-strings, ...) return [None] where Python
      raises.
    - Files, the SQLite store, the capture-state file and the clock are explicit
      state that the functions thread. *)

From Stdlib Require Import ZArith Lia Ascii String.
From stdpp Require Import base option list strings gmap.

Open Scope string_scope.
Open Scope list_scope.
Open Scope nat_scope.

(* ===================================================================== *)
(** ** Python strings *)
(* ===================================================================== *)

Module Py.

Definition dquote : ascii := Ascii.ascii_of_nat 34.
Definition newline : ascii := Ascii.ascii_of_nat 10.
Definition backslash : ascii := Ascii.ascii_of_nat 92.
Definition backtick : ascii := Ascii.ascii_of_nat 96.

(** Transcript lines are written below with ['] standing for the double
    quote: [jl "{'type':'user'}"] is the text [{"type":"user"}]. *)
Fixpoint jl (s : string) : string :=
  match s with
  | EmptyString => EmptyString
  | String c r => String (if Ascii.eqb c "'" then dquote else c) (jl r)
  end.

Definition code (c : ascii) : nat := Ascii.nat_of_ascii c.

(** [str.isspace] on one character (ASCII range). *)
Definition isspace (c : ascii) : bool :=
  let n := code c in
  ((9 <=? n) && (n <=? 13)) || ((28 <=? n) && (n <=? 32)).

Definition is_upper (c : ascii) : bool := let n := code c in (65 <=? n) && (n <=? 90).
Definition is_lower (c : ascii) : bool := let n := code c in (97 <=? n) && (n <=? 122).
Definition is_digit (c : ascii) : bool := let n := code c in (48 <=? n) && (n <=? 57).

(** A regular-expression word character, [\w]. *)
Definition is_word (c : ascii) : bool :=
  is_upper c || is_lower c || is_digit c || Ascii.eqb c "_".

Definition lower_char (c : ascii) : ascii :=
  if is_upper c then Ascii.ascii_of_nat (code c + 32) else c.
Definition upper_char (c : ascii) : ascii :=
  if is_lower c then Ascii.ascii_of_nat (code c - 32) else c.

(** [s.lower()] *)
Fixpoint lower (s : string) : string :=
  match s with
  | EmptyString => EmptyString
  | String c r => String (lower_char c) (lower r)
  end.

(** [len(s)] *)
Definition len (s : string) : Z := Z.of_nat (String.length s).

(** [s.startswith(p)] *)
Definition startswith (p s : string) : bool := String.prefix p s.

(** [s[n:]] and [s[:n]] for [n >= 0]. *)
Fixpoint drop (n : nat) (s : string) : string :=
  match n, s with
  | O, _ => s
  | S _, EmptyString => EmptyString
  | S m, String _ r => drop m r
  end.

Fixpoint take (n : nat) (s : string) : string :=
  match n, s with
  | O, _ => EmptyString
  | S _, EmptyString => EmptyString
  | S m, String c r => String c (take m r)
  end.

(** The text that follows the first occurrence of [needle] in [s]
    together with the text before it, or [None] when there is none. *)
Fixpoint partition (needle s : string) : option (string * string) :=
  if String.prefix needle s then Some (EmptyString, drop (String.length needle) s)
  else match s with
       | EmptyString => None
       | String c r =>
           match partition needle r with
           | Some (before, after) => Some (String c before, after)
           | None => None
           end
       end.

(** [needle in s] *)
Definition contains (needle s : string) : bool :=
  match partition needle s with Some _ => true | None => false end.

(** [s.split(sep)] for a non-empty separator. The recursion is on [fuel];
    [split] below supplies more than any text needs. *)
Fixpoint split_fuel (fuel : nat) (sep s : string) : list string :=
  match fuel with
  | O => [s]
  | S f =>
      match partition sep s with
      | Some (before, after) => before :: split_fuel f sep after
      | None => [s]
      end
  end.

Definition split (sep s : string) : list string :=
  split_fuel (S (String.length s)) sep s.

(** [sep.join(parts)] *)
Definition join (sep : string) (parts : list string) : string :=
  String.concat sep parts.

(** [s.replace(old, new)] for a non-empty [old]. *)
Definition replace (old new s : string) : string := join new (split old s).

(** [s.lstrip()], [s.rstrip()], [s.strip()], and [s.strip(chars)]. *)
Fixpoint lstrip_by (p : ascii -> bool) (s : string) : string :=
  match s with
  | EmptyString => EmptyString
  | String c r => if p c then lstrip_by p r else s
  end.

Definition rstrip_by (p : ascii -> bool) (s : string) : string :=
  String.rev (lstrip_by p (String.rev s)).

Definition strip_by (p : ascii -> bool) (s : string) : string :=
  rstrip_by p (lstrip_by p s).

Definition strip : string -> string := strip_by isspace.

Fixpoint mem_char (c : ascii) (chars : string) : bool :=
  match chars with
  | EmptyString => false
  | String d r => Ascii.eqb c d || mem_char c r
  end.

Definition strip_chars (chars : string) : string -> string :=
  strip_by (fun c => mem_char c chars).

(** [s.split()]: the maximal runs of non-whitespace characters. *)
Fixpoint split_ws_go (cur : string) (s : string) : list string :=
  match s with
  | EmptyString => if String.eqb cur "" then [] else [String.rev cur]
  | String c r =>
      if isspace c
      then (if String.eqb cur "" then split_ws_go "" r
            else String.rev cur :: split_ws_go "" r)
      else split_ws_go (String c cur) r
  end.

Definition split_ws (s : string) : list string := split_ws_go "" s.

(** [s.split('\n')[0]] *)
Fixpoint first_line (s : string) : string :=
  match s with
  | EmptyString => EmptyString
  | String c r => if Ascii.eqb c newline then EmptyString else String c (first_line r)
  end.

(** Decimal rendering of an integer, as [str(n)] and f-strings give it. *)
Fixpoint digits_fuel (fuel : nat) (n : Z) (acc : string) : string :=
  match fuel with
  | O => acc
  | S f =>
      let d := Ascii.ascii_of_nat (48 + Z.to_nat (n mod 10)) in
      if (n <? 10)%Z then String d acc else digits_fuel f (n / 10)%Z (String d acc)
  end.

Definition str_of_Z (n : Z) : string :=
  if (n <? 0)%Z then String "-" (digits_fuel (S (Z.to_nat (Z.log2 (- n)))) (- n) "")
  else digits_fuel (S (Z.to_nat (Z.log2 n))) n "".

End Py.

(* ===================================================================== *)
(** ** JSON values and [json.loads] *)
(* ===================================================================== *)

(** The values [json.loads] produces.  An integer literal is a Python [int];
    a literal with a fraction or an exponent (and [NaN], [Infinity]) is a
    Python [float], kept as its lexeme: no property below computes with
    floats.  A [dict] keeps its keys in insertion order, each key once. *)
#[warnings="-register-all"]
Inductive json : Type :=
  | JNull
  | JBool (b : bool)
  | JInt (n : Z)
  | JFloat (lexeme : string)
  | JStr (s : string)
  | JArr (items : list json)
  | JObj (fields : list (string * json)).

Module Json.

(** [d[k] = v] *)
Fixpoint dict_set (k : string) (v : json) (d : list (string * json)) : list (string * json) :=
  match d with
  | [] => [(k, v)]
  | (k', v') :: r => if String.eqb k k' then (k, v) :: r else (k', v') :: dict_set k v r
  end.

(** [d.get(k)], [None] when the key is absent *)
Fixpoint dict_lookup (k : string) (d : list (string * json)) : option json :=
  match d with
  | [] => None
  | (k', v) :: r => if String.eqb k k' then Some v else dict_lookup k r
  end.

(** [d.pop(k, None)] *)
Fixpoint dict_remove (k : string) (d : list (string * json)) : list (string * json) :=
  match d with
  | [] => []
  | (k', v) :: r => if String.eqb k k' then dict_remove k r else (k', v) :: dict_remove k r
  end.

Definition is_json_ws (c : ascii) : bool :=
  let n := Py.code c in (n =? 32) || (n =? 9) || (n =? 10) || (n =? 13).

Fixpoint skip_ws (s : string) : string :=
  match s with
  | EmptyString => EmptyString
  | String c r => if is_json_ws c then skip_ws r else s
  end.

Definition hex_val (c : ascii) : option nat :=
  let n := Py.code c in
  if Py.is_digit c then Some (n - 48)
  else if (97 <=? n) && (n <=? 102) then Some (n - 87)
  else if (65 <=? n) && (n <=? 70) then Some (n - 55)
  else None.

(** The UTF-8 bytes of a code point of the basic plane, most significant
    first; [prepend_utf8 n acc] puts them, reversed, in front of [acc]. *)
Definition prepend_utf8 (n : nat) (acc : string) : string :=
  let b := Ascii.ascii_of_nat in
  if n <? 128 then String (b n) acc
  else if n <? 2048 then String (b (128 + n mod 64)) (String (b (192 + n / 64)) acc)
  else String (b (128 + n mod 64))
         (String (b (128 + (n / 64) mod 64)) (String (b (224 + n / 4096)) acc)).

(** The characters of a string literal after its opening quote, up to the
    closing quote; [acc] holds the decoded text so far, reversed. *)
Fixpoint scanstring (s : string) (acc : string) : option (string * string) :=
  match s with
  | EmptyString => None
  | String c r =>
      if Ascii.eqb c Py.dquote then Some (String.rev acc, r)
      else if Ascii.eqb c Py.backslash then
        match r with
        | EmptyString => None
        | String e r' =>
            let simple (d : nat) := scanstring r' (String (Ascii.ascii_of_nat d) acc) in
            if Ascii.eqb e Py.dquote then simple 34
            else if Ascii.eqb e Py.backslash then simple 92
            else if Ascii.eqb e "/" then simple 47
            else if Ascii.eqb e "b" then simple 8
            else if Ascii.eqb e "f" then simple 12
            else if Ascii.eqb e "n" then simple 10
            else if Ascii.eqb e "r" then simple 13
            else if Ascii.eqb e "t" then simple 9
            else if Ascii.eqb e "u" then
              match r' with
              | String h1 (String h2 (String h3 (String h4 r''))) =>
                  match hex_val h1, hex_val h2, hex_val h3, hex_val h4 with
                  | Some a, Some b, Some c', Some d =>
                      scanstring r'' (prepend_utf8 (((a * 16 + b) * 16 + c') * 16 + d) acc)
                  | _, _, _, _ => None
                  end
              | _ => None
              end
            else None
        end
      else if Py.code c <? 32 then None
      else scanstring r (String c acc)
  end.

Fixpoint take_digits (s : string) : string * string :=
  match s with
  | EmptyString => (EmptyString, EmptyString)
  | String c r =>
      if Py.is_digit c then let '(d, rest) := take_digits r in (String c d, rest)
      else (EmptyString, s)
  end.

Fixpoint Z_of_digits (acc : Z) (s : string) : Z :=
  match s with
  | EmptyString => acc
  | String c r => Z_of_digits (10 * acc + Z.of_nat (Py.code c - 48))%Z r
  end.

(** A number: an optional minus sign; [0] or a non-zero digit followed by
    digits; optionally a point and digits; optionally [e] or [E], a sign and
    digits.  A fraction or exponent with no digit is not part of the number. *)
Definition scan_number (s : string) : option (json * string) :=
  let '(sign, s1) :=
    match s with
    | String "-" r => ("-", r)
    | _ => ("", s)
    end in
  let '(int_digits, s2) :=
    match s1 with
    | String "0" r => ("0", r)
    | _ => take_digits s1
    end in
  if String.eqb int_digits "" then None else
  let '(frac, s3) :=
    match s2 with
    | String "." r =>
        let '(d, rest) := take_digits r in
        if String.eqb d "" then ("", s2) else (String "." d, rest)
    | _ => ("", s2)
    end in
  let '(expo, s4) :=
    match s3 with
    | String e r =>
        if Ascii.eqb e "e" || Ascii.eqb e "E" then
          let '(sg, r1) :=
            match r with
            | String "+" r1 => ("+", r1)
            | String "-" r1 => ("-", r1)
            | _ => ("", r)
            end in
          let '(d, rest) := take_digits r1 in
          if String.eqb d "" then ("", s3) else (String e (sg +:+ d), rest)
        else ("", s3)
    | EmptyString => ("", s3)
    end in
  if String.eqb frac "" && String.eqb expo ""
  then Some (JInt (if String.eqb sign "-" then - Z_of_digits 0 int_digits
                   else Z_of_digits 0 int_digits)%Z, s4)
  else Some (JFloat (sign +:+ int_digits +:+ frac +:+ expo), s4).

Definition scan_constant (s : string) : option (json * string) :=
  let lit (w : string) (v : json) :=
    if String.prefix w s then Some (v, Py.drop (String.length w) s) else None in
  match lit "null" JNull with Some r => Some r | None =>
  match lit "true" (JBool true) with Some r => Some r | None =>
  match lit "false" (JBool false) with Some r => Some r | None =>
  match lit "NaN" (JFloat "NaN") with Some r => Some r | None =>
  match lit "Infinity" (JFloat "Infinity") with Some r => Some r | None =>
  match lit "-Infinity" (JFloat "-Infinity") with Some r => Some r | None =>
  scan_number s
  end end end end end end.

(** The recursive-descent scanner.  [fuel] bounds the number of nested calls;
    [loads] supplies three per character, and a call chain visits each
    position of the text at most three times. *)
Fixpoint scan_once (fuel : nat) (s : string) : option (json * string) :=
  match fuel with
  | O => None
  | S f =>
      match s with
      | EmptyString => None
      | String c r =>
          if Ascii.eqb c "{" then
            match skip_ws r with
            | String "}" r2 => Some (JObj [], r2)
            | r1 => scan_members f r1 []
            end
          else if Ascii.eqb c "[" then
            match skip_ws r with
            | String "]" r2 => Some (JArr [], r2)
            | r1 => scan_elements f r1 []
            end
          else if Ascii.eqb c Py.dquote then
            match scanstring r "" with
            | Some (t, r1) => Some (JStr t, r1)
            | None => None
            end
          else scan_constant s
      end
  end
with scan_elements (fuel : nat) (s : string) (acc : list json) : option (json * string) :=
  match fuel with
  | O => None
  | S f =>
      match scan_once f s with
      | None => None
      | Some (v, r) =>
          match skip_ws r with
          | String "," r2 => scan_elements f (skip_ws r2) (v :: acc)
          | String "]" r2 => Some (JArr (rev (v :: acc)), r2)
          | _ => None
          end
      end
  end
with scan_members (fuel : nat) (s : string) (acc : list (string * json)) : option (json * string) :=
  match fuel with
  | O => None
  | S f =>
      match s with
      | EmptyString => None
      | String c r =>
          if Ascii.eqb c Py.dquote then
            match scanstring r "" with
            | None => None
            | Some (k, r1) =>
                match skip_ws r1 with
                | String ":" r2 =>
                    match scan_once f (skip_ws r2) with
                    | None => None
                    | Some (v, r3) =>
                        match skip_ws r3 with
                        | String "," r4 => scan_members f (skip_ws r4) (dict_set k v acc)
                        | String "}" r4 => Some (JObj (dict_set k v acc), r4)
                        | _ => None
                        end
                    end
                | _ => None
                end
            end
          else None
      end
  end.

(** [json.loads(s)]; [None] is [json.JSONDecodeError]. *)
Definition loads (s : string) : option json :=
  match scan_once (3 * String.length s + 3) (skip_ws s) with
  | Some (v, r) => if String.eqb (skip_ws r) "" then Some v else None
  | None => None
  end.

End Json.

(* ===================================================================== *)
(** ** Python's dynamic operations on transcript values *)
(* ===================================================================== *)

Module Dyn.

(** The outcome of code that runs outside every [try]: a value, or an
    exception that reaches the caller. *)
Inductive result (A : Type) : Type :=
  | Return (a : A)
  | Raise.
Arguments Return {A} a.
Arguments Raise {A}.

Definition bind {A B : Type} (r : result A) (k : A -> result B) : result B :=
  match r with
  | Return a => k a
  | Raise => Raise
  end.

(** Inside a [try] block an exception is [None]; [or_raise] lets it escape. *)
Definition or_raise {A : Type} (o : option A) : result A :=
  match o with
  | Some a => Return a
  | None => Raise
  end.

(** A float lexeme denotes zero when its mantissa has digits, all of them 0. *)
Fixpoint mantissa_digits (s : string) : string :=
  match s with
  | EmptyString => EmptyString
  | String c r =>
      if Ascii.eqb c "e" || Ascii.eqb c "E" then EmptyString
      else if Py.is_digit c then String c (mantissa_digits r)
      else mantissa_digits r
  end.

Definition float_is_zero (lexeme : string) : bool :=
  let d := mantissa_digits lexeme in
  negb (String.eqb d "") && String.eqb (Py.lstrip_by (fun c => Ascii.eqb c "0") d) "".

(** [bool(v)] *)
Definition truthy (v : json) : bool :=
  match v with
  | JNull => false
  | JBool b => b
  | JInt n => negb (n =? 0)%Z
  | JFloat l => negb (float_is_zero l)
  | JStr s => negb (String.eqb s "")
  | JArr l => match l with [] => false | _ => true end
  | JObj d => match d with [] => false | _ => true end
  end.

(** [a or b] *)
Definition por (a b : json) : json := if truthy a then a else b.

(** [v.get(k, dflt)]: only a dict has [get]. *)
Definition get (v : json) (k : string) (dflt : json) : option json :=
  match v with
  | JObj d => Some (default dflt (Json.dict_lookup k d))
  | _ => None
  end.

(** [v == 'literal'] *)
Definition str_eq (v : json) (s : string) : bool :=
  match v with
  | JStr t => String.eqb t s
  | _ => false
  end.

(** [len(v)] *)
Definition py_len (v : json) : option Z :=
  match v with
  | JStr s => Some (Py.len s)
  | JArr l => Some (Z.of_nat (length l))
  | JObj d => Some (Z.of_nat (length d))
  | _ => None
  end.

(** [v[:n]] *)
Definition slice_to (n : nat) (v : json) : option json :=
  match v with
  | JStr s => Some (JStr (Py.take n s))
  | JArr l => Some (JArr (take n l))
  | _ => None
  end.

(** The strings of a list whose every element is a [str]. *)
Fixpoint all_str (l : list json) : option (list string) :=
  match l with
  | [] => Some []
  | JStr s :: r =>
      match all_str r with
      | Some t => Some (s :: t)
      | None => None
      end
  | _ :: _ => None
  end.

(** [sep.join(parts)]: a [TypeError] when a part is not a [str]. *)
Definition join (sep : string) (parts : list json) : option string :=
  match all_str parts with
  | Some l => Some (Py.join sep l)
  | None => None
  end.

(** [[item.get('text', '') for item in content
      if isinstance(item, dict) and item.get('type') == 'text']] *)
Fixpoint text_parts (content : list json) : list json :=
  match content with
  | [] => []
  | JObj d :: r =>
      if str_eq (default JNull (Json.dict_lookup "type" d)) "text"
      then default (JStr "") (Json.dict_lookup "text" d) :: text_parts r
      else text_parts r
  | _ :: r => text_parts r
  end.

(** Keys of a Python dict: the hashable values.  [True] and [1] are the same
    key; two floats are the same key when their lexemes agree. *)
Definition hashable (v : json) : bool :=
  match v with
  | JArr _ | JObj _ => false
  | _ => true
  end.

Definition key_eq (a b : json) : bool :=
  match a, b with
  | JNull, JNull => true
  | JBool x, JBool y => Bool.eqb x y
  | JBool x, JInt n | JInt n, JBool x => (n =? (if x then 1 else 0))%Z
  | JInt n, JInt m => (n =? m)%Z
  | JFloat x, JFloat y => String.eqb x y
  | JStr s, JStr t => String.eqb s t
  | _, _ => false
  end.

(** [d[k] = d.get(k, 0) + 1] on an insertion-ordered dict of counters. *)
Fixpoint bump (k : json) (d : list (json * Z)) : list (json * Z) :=
  match d with
  | [] => [(k, 1%Z)]
  | (k', n) :: r => if key_eq k k' then (k', (n + 1)%Z) :: r else (k', n) :: bump k r
  end.

Definition count_up (k : json) (d : list (json * Z)) : option (list (json * Z)) :=
  if hashable k then Some (bump k d) else None.

End Dyn.

(* ===================================================================== *)
(** ** [datetime.fromisoformat] and the difference of two datetimes *)
(* ===================================================================== *)

Module Datetime.

Open Scope Z_scope.

(** A parsed datetime: its wall-clock reading in microseconds counted from
    1970-01-01T00:00:00, and its UTC offset in microseconds when it has one. *)
Record datetime : Type := {
  wall : Z;
  utcoffset : option Z;
}.

Definition digit_val (c : ascii) : option Z :=
  if Py.is_digit c then Some (Z.of_nat (Py.code c) - 48) else None.

Definition two_digits (s : string) : option (Z * string) :=
  match s with
  | String a (String b r) =>
      match digit_val a, digit_val b with
      | Some x, Some y => Some (10 * x + y, r)
      | _, _ => None
      end
  | _ => None
  end.

Definition expect (c : ascii) (s : string) : option string :=
  match s with
  | String d r => if Ascii.eqb c d then Some r else None
  | EmptyString => None
  end.

Definition is_leap (y : Z) : bool :=
  ((y mod 4 =? 0) && negb (y mod 100 =? 0)) || (y mod 400 =? 0).

Definition days_in_month (y m : Z) : Z :=
  if m =? 2 then (if is_leap y then 29 else 28)
  else if (m =? 4) || (m =? 6) || (m =? 9) || (m =? 11) then 30 else 31.

(** Days from 1970-01-01 to the given civil date. *)
Definition days_from_civil (y m d : Z) : Z :=
  let y' := if m <=? 2 then y - 1 else y in
  let era := y' / 400 in
  let yoe := y' - era * 400 in
  let mp := if 2 <? m then m - 3 else m + 9 in
  let doy := (153 * mp + 2) / 5 + d - 1 in
  let doe := yoe * 365 + yoe / 4 - yoe / 100 + doy in
  era * 146097 + doe - 719468.

(** A fraction of three or of six digits, in microseconds. *)
Definition fraction (s : string) : option (Z * string) :=
  match two_digits s with
  | Some (ab, String c r) =>
      match digit_val c with
      | Some x =>
          let ms := 10 * ab + x in
          match two_digits r with
          | Some (de, String f r') =>
              match digit_val f with
              | Some y => Some (1000 * ms + 10 * de + y, r')
              | None => None
              end
          | Some (_, EmptyString) => None
          | None =>
              match r with
              | String g _ => if Py.is_digit g then None else Some (1000 * ms, r)
              | EmptyString => Some (1000 * ms, r)
              end
          end
      | None => None
      end
  | _ => None
  end.

(** [HH[:MM[:SS[.fff[fff]]]]], in microseconds, and the text after it. *)
Definition time_of_day (s : string) : option (Z * string) :=
  match two_digits s with
  | None => None
  | Some (hh, r1) =>
      if 24 <=? hh then None else
      match expect ":" r1 with
      | None => Some (hh * 3600000000, r1)
      | Some r2 =>
          match two_digits r2 with
          | None => None
          | Some (mm, r3) =>
              if 60 <=? mm then None else
              match expect ":" r3 with
              | None => Some (hh * 3600000000 + mm * 60000000, r3)
              | Some r4 =>
                  match two_digits r4 with
                  | None => None
                  | Some (ss, r5) =>
                      if 60 <=? ss then None else
                      let base := hh * 3600000000 + mm * 60000000 + ss * 1000000 in
                      match expect "." r5 with
                      | None => Some (base, r5)
                      | Some r6 =>
                          match fraction r6 with
                          | Some (us, r7) => Some (base + us, r7)
                          | None => None
                          end
                      end
                  end
              end
          end
      end
  end.

(** The UTC offset [+HH:MM] or [-HH:MM] that ends the text, if any. *)
Definition offset (s : string) : option (option Z) :=
  match s with
  | EmptyString => Some None
  | String sg r =>
      if Ascii.eqb sg "+" || Ascii.eqb sg "-" then
        match two_digits r with
        | Some (hh, r1) =>
            match expect ":" r1 with
            | Some r2 =>
                match two_digits r2 with
                | Some (mm, EmptyString) =>
                    if (24 <=? hh) || (60 <=? mm) then None else
                    let v := hh * 3600000000 + mm * 60000000 in
                    Some (Some (if Ascii.eqb sg "-" then - v else v))
                | _ => None
                end
            | None => None
            end
        | None => None
        end
      else None
  end.

(** [datetime.fromisoformat(s)] for the texts [datetime.isoformat] emits:
    [YYYY-MM-DD], then optionally one separator character, a time of day and
    a UTC offset.  [None] is [ValueError]. *)
Definition fromisoformat (s : string) : option datetime :=
  match two_digits s with
  | None => None
  | Some (cc, r0) =>
  match two_digits r0 with
  | None => None
  | Some (yy, r1) =>
  match expect "-" r1 with
  | None => None
  | Some r2 =>
  match two_digits r2 with
  | None => None
  | Some (m, r3) =>
  match expect "-" r3 with
  | None => None
  | Some r4 =>
  match two_digits r4 with
  | None => None
  | Some (d, r5) =>
      let y := 100 * cc + yy in
      if (y <? 1) || (m <? 1) || (12 <? m) || (d <? 1) || (days_in_month y m <? d)
      then None else
      let day := days_from_civil y m d * 86400000000 in
      match r5 with
      | EmptyString => Some {| wall := day; utcoffset := None |}
      | String _ r6 =>
          match time_of_day r6 with
          | None => None
          | Some (t, r7) =>
              match offset r7 with
              | Some off => Some {| wall := day + t; utcoffset := off |}
              | None => None
              end
          end
      end
  end end end end end end.

(** [int((e - s).total_seconds() / 60)]; [None] is the [TypeError] of
    subtracting an offset-naive and an offset-aware datetime. *)
Definition minutes_between (s e : datetime) : option Z :=
  match utcoffset s, utcoffset e with
  | None, None => Some (Z.quot (wall e - wall s) 60000000)
  | Some os, Some oe => Some (Z.quot ((wall e - oe) - (wall s - os)) 60000000)
  | _, _ => None
  end.

End Datetime.

(* ===================================================================== *)
(** ** The file system, as the indexer and the hook see it *)
(* ===================================================================== *)

Module Fs.

(** A transcript file: the lines that iterating over the open file yields
    ([None] when [open] raises), and what [stat] reports.  The modification
    time is kept as the text an f-string renders it to. *)
Record file : Type := {
  content : option (list string);
  st_size : Z;
  st_mtime : string;
}.

(** An entry of the projects directory with the [*.jsonl] files in it, by
    stem, in the order [glob] yields them. *)
Record directory : Type := {
  dir_name : string;
  is_dir : bool;
  files : list (string * file);
}.

(** A path [<projects>/<parent>/<stem>.jsonl] together with the file it
    points at ([None] when nothing exists there). *)
Record path : Type := {
  parent : string;
  stem : string;
  target : option file;
}.

(** [project_dir.glob("*.jsonl")] *)
Definition glob (d : directory) : list path :=
  map (fun '(s, f) => {| parent := dir_name d; stem := s; target := Some f |}) (files d).

(** [candidate = project_dir / f"{session_id}.jsonl"], when it exists. *)
Fixpoint candidate (d : directory) (session_id : string) (fs : list (string * file)) : option path :=
  match fs with
  | [] => None
  | (s, f) :: r =>
      if String.eqb s session_id
      then Some {| parent := dir_name d; stem := s; target := Some f |}
      else candidate d session_id r
  end.

(** The loop of [find_session_file] and [_find_session_file] over
    [projects_dir.iterdir()]. *)
Fixpoint find_in (dirs : list directory) (session_id : string) : option path :=
  match dirs with
  | [] => None
  | d :: r =>
      if negb (is_dir d) then find_in r session_id
      else match candidate d session_id (files d) with
           | Some p => Some p
           | None => find_in r session_id
           end
  end.

(** [str(session_path)] under the projects directory [root]. *)
Definition path_str (root : string) (p : path) : string :=
  root +:+ "/" +:+ parent p +:+ "/" +:+ stem p +:+ ".jsonl".

End Fs.

(* ===================================================================== *)
(** ** indexer.py: the transcript parser *)
(* ===================================================================== *)

(** [hashlib.md5(...).hexdigest()], kept symbolic: a digest is written as
    the message it was computed from. *)
Inductive digest : Type :=
  | md5 (message : string).

Definition digest_eqb (a b : digest) : bool :=
  match a, b with
  | md5 x, md5 y => String.eqb x y
  end.

(** What [config] resolves for a [SessionIndexer]: [self.clients],
    [self.project_name_map] and the projects directory's own path. *)
Record config : Type := {
  clients : list string;
  project_name_map : list (string * string);
  projects_root : string;
}.

(** One element of [data['topics']]. *)
Record topic_entry : Type := {
  te_topic : json;
  te_source : string;
  te_captured_at : json;
  te_exchange_number : option Z;
}.

(** The dict [_parse_session] returns. *)
Record session_data : Type := {
  d_session_id : string;
  d_project : string;
  d_project_name : string;
  d_title : json;
  d_title_display : json;
  d_tags : json;
  d_client : json;
  d_file_path : string;
  d_file_size : Z;
  d_exchange_count : Z;
  d_start_time : json;
  d_end_time : json;
  d_duration_minutes : option Z;
  d_model : json;
  d_has_compaction : bool;
  d_file_hash : digest;
  d_tools : list (json * Z);
  d_agents : list (json * Z);
  d_fts_content : string;
  d_topics : list topic_entry;
}.

Module Parser.

Import Dyn.

(** The local variables of [_parse_session] that the loop updates; [JNull]
    is Python's [None]. *)
Record locals : Type := {
  user_prompts : list json;
  tools : list (json * Z);
  agents : list (json * Z);
  exchange_count : Z;
  start_time : json;
  end_time : json;
  model : json;
  has_compaction : bool;
  title : json;
  title_display : json;
  tags_str : json;
  summaries : list json;
}.

Definition initial : locals := {|
  user_prompts := []; tools := []; agents := []; exchange_count := 0;
  start_time := JNull; end_time := JNull; model := JNull; has_compaction := false;
  title := JNull; title_display := JNull; tags_str := JNull; summaries := [];
|}.

(** "Track timestamps" *)
Definition track_timestamps (timestamp : json) (a : locals) : locals :=
  if truthy timestamp then
    {| user_prompts := user_prompts a; tools := tools a; agents := agents a;
       exchange_count := exchange_count a;
       start_time := match start_time a with JNull => timestamp | t => t end;
       end_time := timestamp;
       model := model a; has_compaction := has_compaction a; title := title a;
       title_display := title_display a; tags_str := tags_str a;
       summaries := summaries a |}
  else a.

(** "Custom title (latest wins)": [parts[0]], [parts[-1]] of the split at
    six dots. *)
Definition custom_title (entry : json) (a : locals) : option locals :=
  customTitle ← get entry "customTitle" (JStr "");
  match customTitle with
  | JStr t =>
      let with_title (ti tg : json) :=
        {| user_prompts := user_prompts a; tools := tools a; agents := agents a;
           exchange_count := exchange_count a; start_time := start_time a;
           end_time := end_time a; model := model a;
           has_compaction := has_compaction a; title := ti;
           title_display := JStr t; tags_str := tg; summaries := summaries a |} in
      if Py.startswith ">>>" t then
        let parts := Py.split "......" t in
        let name_part := Py.strip (Py.replace ">>>" "" (default "" (head parts))) in
        if (1 <? length parts)%nat then
          let tag_part :=
            Py.strip (Py.strip_chars "[]<>" (Py.strip (default "" (last parts)))) in
          Some (with_title (JStr name_part)
                  (if String.eqb tag_part "" then tags_str a else JStr tag_part))
        else Some (with_title (JStr name_part) (tags_str a))
      else Some (with_title (title a) (tags_str a))
  | _ => None
  end.

(** "Compaction summaries": the value appended to [summaries], if any. *)
Definition summary_candidate (entry : json) : option (option json) :=
  summary_text ← get entry "summary" (JStr "");
  if truthy summary_text then
    match summary_text with
    | JStr t =>
        if Py.startswith "{" (Py.strip t) then
          match Json.loads t with
          | Some parsed =>
              match get parsed "title" (JStr ""), get parsed "summary" (JStr "") with
              | Some ti, Some su => Some (Some (por ti (por su summary_text)))
              | _, _ => Some (Some summary_text)
              end
          | None => Some (Some summary_text)
          end
        else Some (Some summary_text)
    | _ => None
    end
  else Some None.

Definition compaction (entry : json) (a : locals) : option locals :=
  c ← summary_candidate entry;
  Some {| user_prompts := user_prompts a; tools := tools a; agents := agents a;
          exchange_count := exchange_count a; start_time := start_time a;
          end_time := end_time a; model := model a; has_compaction := true;
          title := title a; title_display := title_display a;
          tags_str := tags_str a;
          summaries := match c with
                       | Some s => summaries a ++ [s]
                       | None => summaries a
                       end |}.

(** "Count exchanges" *)
Definition count_exchange (entry_type : json) (a : locals) : locals :=
  if str_eq entry_type "user" || str_eq entry_type "assistant" then
    {| user_prompts := user_prompts a; tools := tools a; agents := agents a;
       exchange_count := exchange_count a + 1; start_time := start_time a;
       end_time := end_time a; model := model a;
       has_compaction := has_compaction a; title := title a;
       title_display := title_display a; tags_str := tags_str a;
       summaries := summaries a |}
  else a.

(** "Extract model" *)
Definition extract_model (entry_type entry : json) (a : locals) : option locals :=
  if str_eq entry_type "assistant" && negb (truthy (model a)) then
    message ← get entry "message" (JObj []);
    m ← get message "model" (JStr "");
    Some {| user_prompts := user_prompts a; tools := tools a; agents := agents a;
            exchange_count := exchange_count a; start_time := start_time a;
            end_time := end_time a; model := m;
            has_compaction := has_compaction a; title := title a;
            title_display := title_display a; tags_str := tags_str a;
            summaries := summaries a |}
  else Some a.

(** "Extract user messages" *)
Definition extract_user_message (entry_type entry : json) (a : locals) : option locals :=
  if str_eq entry_type "user" then
    message ← get entry "message" (JObj []);
    content ← get message "content" (JStr "");
    content ← match content with
              | JArr items => JStr <$> join " " (text_parts items)
              | _ => Some content
              end;
    if truthy content then
      n ← py_len content;
      if (10 <? n)%Z then
        Some {| user_prompts := user_prompts a ++ [content]; tools := tools a;
                agents := agents a; exchange_count := exchange_count a;
                start_time := start_time a; end_time := end_time a;
                model := model a; has_compaction := has_compaction a;
                title := title a; title_display := title_display a;
                tags_str := tags_str a; summaries := summaries a |}
      else Some a
    else Some a
  else Some a.

(** "Extract tool usage": one block of an assistant message. *)
Definition tool_block (item : json) (ta : list (json * Z) * list (json * Z))
  : option (list (json * Z) * list (json * Z)) :=
  match item with
  | JObj d =>
      if str_eq (default JNull (Json.dict_lookup "type" d)) "tool_use" then
        let tool := default (JStr "") (Json.dict_lookup "name" d) in
        tools' ← count_up tool (fst ta);
        if str_eq tool "Task" then
          input ← get (default (JObj []) (Json.dict_lookup "input" d)) "subagent_type" (JStr "");
          if truthy input then
            agents' ← count_up input (snd ta);
            Some (tools', agents')
          else Some (tools', snd ta)
        else Some (tools', snd ta)
      else Some ta
  | _ => Some ta
  end.

Fixpoint tool_blocks (items : list json) (ta : list (json * Z) * list (json * Z))
  : option (list (json * Z) * list (json * Z)) :=
  match items with
  | [] => Some ta
  | item :: r => ta' ← tool_block item ta; tool_blocks r ta'
  end.

Definition extract_tools (entry_type entry : json) (a : locals) : option locals :=
  if str_eq entry_type "assistant" then
    message ← get entry "message" (JObj []);
    msg_content ← get message "content" (JArr []);
    match msg_content with
    | JArr items =>
        ta ← tool_blocks items (tools a, agents a);
        Some {| user_prompts := user_prompts a; tools := fst ta; agents := snd ta;
                exchange_count := exchange_count a; start_time := start_time a;
                end_time := end_time a; model := model a;
                has_compaction := has_compaction a; title := title a;
                title_display := title_display a; tags_str := tags_str a;
                summaries := summaries a |}
    | _ => Some a
    end
  else Some a.

(** The body of the loop for a line that [json.loads] accepted.  [None]: an
    exception, which the enclosing [try] of [_parse_session] catches. *)
Definition parse_entry (entry : json) (a : locals) : option locals :=
  entry_type ← get entry "type" JNull;
  timestamp ← get entry "timestamp" JNull;
  let a := track_timestamps timestamp a in
  a ← (if str_eq entry_type "custom-title" then custom_title entry a else Some a);
  a ← (if str_eq entry_type "summary" then compaction entry a else Some a);
  let a := count_exchange entry_type a in
  a ← extract_model entry_type entry a;
  a ← extract_user_message entry_type entry a;
  extract_tools entry_type entry a.

(** [for line in f]: a line that is not JSON is skipped. *)
Fixpoint parse_lines (lines : list string) (a : locals) : option locals :=
  match lines with
  | [] => Some a
  | line :: r =>
      match Json.loads line with
      | None => parse_lines r a
      | Some entry => a' ← parse_entry entry a; parse_lines r a'
      end
  end.

End Parser.

(** The wall clock: [datetime.now().isoformat()] returns the reading at the
    current tick, and time moves on. *)
Record clock : Type := {
  elapsed : nat;
  isoformat_at : nat -> string;
}.

Definition now (k : clock) : string * clock :=
  (isoformat_at k (elapsed k), {| elapsed := S (elapsed k); isoformat_at := isoformat_at k |}).

Module Indexer.

Import Dyn.

(** [_file_hash]: "quick hash based on size + mtime". *)
Definition _file_hash (f : Fs.file) : digest :=
  md5 (Py.str_of_Z (Fs.st_size f) +:+ ":" +:+ Fs.st_mtime f).

Definition _SKIP_TITLE_PREFIXES : list string :=
  ["#"; "You are"; "Caveat:"; "Explore the"].

(** The loop of [_pick_title_from_prompts]; [JNull] is [return None]. *)
Fixpoint pick_title (prompts : list json) : result json :=
  match prompts with
  | [] => Return JNull
  | JStr prompt :: r =>
      let first_line := Py.strip (Py.first_line (Py.strip prompt)) in
      if (Py.len first_line <=? 10)%Z then pick_title r
      else if existsb (fun p => Py.startswith p first_line) _SKIP_TITLE_PREFIXES
      then pick_title r
      else if (80 <? Py.len first_line)%Z
      then Return (JStr (Py.take 77 first_line +:+ "..."))
      else Return (JStr first_line)
  | _ :: _ => Raise
  end.

Definition _pick_title_from_prompts (user_prompts : list json) : result json :=
  pick_title (take 5 user_prompts).

(** "Auto-generate title if none was set explicitly": the final [title] and
    [title_display]. *)
Definition auto_title (a : Parser.locals) : result (json * json) :=
  if negb (truthy (Parser.title_display a)) then
    match Parser.summaries a with
    | s0 :: _ =>
        bind (or_raise (slice_to 80 s0)) (fun short =>
        bind (or_raise (py_len s0)) (fun n =>
        if (80 <? n)%Z then
          match s0 with
          | JStr s => Return (JStr (Py.take 77 s +:+ "..."), JStr (Py.take 77 s +:+ "..."))
          | _ => Raise
          end
        else Return (short, short)))
    | [] =>
        match Parser.user_prompts a with
        | _ :: _ =>
            bind (_pick_title_from_prompts (Parser.user_prompts a)) (fun picked =>
            Return (if truthy picked then picked else Parser.title a, picked))
        | [] => Return (Parser.title a, Parser.title_display a)
        end
    end
  else Return (Parser.title a, Parser.title_display a).

(** "Detect client from user prompts": the first configured client whose
    lower-cased name occurs in the text. *)
Definition first_client (cs : list string) (text : string) : option string :=
  find (fun c => Py.contains (Py.lower c) text) cs.

Definition project_name_of (cfg : config) (project_dir : string) : string :=
  match find (fun kv => String.eqb (fst kv) project_dir) (project_name_map cfg) with
  | Some kv => snd kv
  | None => project_dir
  end.

Definition detect_client (cfg : config) (project_dir : string) (a : Parser.locals)
  : result json :=
  match clients cfg with
  | [] => Return JNull
  | cs =>
      bind (or_raise (join " " (take 10 (Parser.user_prompts a)))) (fun all_text =>
      let client :=
        match first_client cs (Py.lower all_text) with
        | Some c => JStr c
        | None => JNull
        end in
      if truthy client then Return client
      else match first_client cs (Py.lower (project_name_of cfg project_dir)) with
           | Some c => Return (JStr c)
           | None => Return client
           end)
  end.

(** "Calculate duration"; every exception is swallowed by the bare [except]. *)
Definition duration_of (start_time end_time : json) : option Z :=
  if truthy start_time && truthy end_time then
    match start_time, end_time with
    | JStr s, JStr e =>
        match Datetime.fromisoformat (Py.replace "Z" "+00:00" s),
              Datetime.fromisoformat (Py.replace "Z" "+00:00" e) with
        | Some ds, Some de => Datetime.minutes_between ds de
        | _, _ => None
        end
    | _, _ => None
    end
  else None.

(** "Build FTS content from user prompts" *)
Definition fts_content_of (user_prompts : list json) : result string :=
  bind (or_raise (join (String Py.newline "") (take 50 user_prompts))) (fun text =>
  Return (if (100000 <? Py.len text)%Z then Py.take (Z.to_nat 100000) text else text)).

(** "Add summaries as bonus topic data" *)
Fixpoint topic_entries (summaries : list json) (end_time : json) (k : clock)
  : result (list topic_entry) * clock :=
  match summaries with
  | [] => (Return [], k)
  | summary :: r =>
      match slice_to 120 summary with
      | None => (Raise, k)
      | Some topic =>
          let '(captured_at, k1) :=
            if truthy end_time then (end_time, k)
            else let '(t, k1) := now k in (JStr t, k1) in
          let '(rest, k2) := topic_entries r end_time k1 in
          (bind rest (fun l =>
             Return ({| te_topic := topic; te_source := "compaction_summary";
                        te_captured_at := captured_at;
                        te_exchange_number := None |} :: l)), k2)
      end
  end.

(** What follows the loop of [_parse_session], outside its [try]. *)
Definition finish (cfg : config) (p : Fs.path) (a : Parser.locals) (k : clock)
  : result session_data * clock :=
  match auto_title a with
  | Raise => (Raise, k)
  | Return (title, title_display) =>
  match detect_client cfg (Fs.parent p) a with
  | Raise => (Raise, k)
  | Return client =>
  match fts_content_of (Parser.user_prompts a) with
  | Raise => (Raise, k)
  | Return fts_content =>
  match topic_entries (Parser.summaries a) (Parser.end_time a) k with
  | (Raise, k1) => (Raise, k1)
  | (Return topics, k1) =>
  match Fs.target p with
  | None => (Raise, k1)
  | Some f =>
      (Return {|
         d_session_id := Fs.stem p;
         d_project := Fs.parent p;
         d_project_name := project_name_of cfg (Fs.parent p);
         d_title := title;
         d_title_display := title_display;
         d_tags := Parser.tags_str a;
         d_client := client;
         d_file_path := Fs.path_str (projects_root cfg) p;
         d_file_size := Fs.st_size f;
         d_exchange_count := Parser.exchange_count a;
         d_start_time := Parser.start_time a;
         d_end_time := Parser.end_time a;
         d_duration_minutes := duration_of (Parser.start_time a) (Parser.end_time a);
         d_model := Parser.model a;
         d_has_compaction := Parser.has_compaction a;
         d_file_hash := _file_hash f;
         d_tools := Parser.tools a;
         d_agents := Parser.agents a;
         d_fts_content := fts_content;
         d_topics := topics;
       |}, k1)
  end end end end end.

(** [_parse_session]: [Return None] is the [return None] of the handler
    that catches every exception of the loop; [Raise] is an exception of the
    code after it. *)
Definition _parse_session (cfg : config) (p : Fs.path) (k : clock)
  : result (option session_data) * clock :=
  match Fs.target p with
  | None => (Return None, k)
  | Some f =>
      match Fs.content f with
      | None => (Return None, k)
      | Some lines =>
          match Parser.parse_lines lines Parser.initial with
          | None => (Return None, k)
          | Some a =>
              let '(r, k1) := finish cfg p a k in
              (bind r (fun d => Return (Some d)), k1)
          end
      end
  end.

End Indexer.

(* ===================================================================== *)
(** ** The SQLite store *)
(* ===================================================================== *)

(** A row of [sessions], without its key [session_id].  SQLite's column
    affinity is not modelled: a column holds the value that was bound. *)
Record session_row : Type := {
  r_project : string;
  r_project_name : string;
  r_title : json;
  r_title_display : json;
  r_tags : json;
  r_client : json;
  r_file_path : string;
  r_file_size : Z;
  r_exchange_count : Z;
  r_start_time : json;
  r_end_time : json;
  r_duration_minutes : option Z;
  r_model : json;
  r_has_compaction : Z;
  r_indexed_at : string;
  r_last_modified : string;
  r_file_hash : digest;
}.

(** A row of [session_topics]. *)
Record topic_row : Type := {
  t_id : Z;
  t_session_id : string;
  t_topic : json;
  t_captured_at : json;
  t_exchange_number : option Z;
  t_source : string;
}.

(** A row of [session_tools] or of [session_agents]. *)
Record usage_row : Type := {
  u_session_id : string;
  u_name : json;
  u_count : Z;
}.

(** The database file.  [has_schema] is false until [_create_schema] has
    run on it ("DB might not exist yet if backfill hasn't run"). *)
Record db : Type := {
  has_schema : bool;
  sessions : gmap string session_row;
  session_topics : list topic_row;
  topic_seq : Z;
  session_tools : list usage_row;
  session_agents : list usage_row;
  session_content : list (string * string);
}.

Module Sql.

(** A value that [sqlite3] can bind to a parameter: no list, no dict, and
    an [int] only when it fits 64 bits. *)
Definition bindable (v : json) : bool :=
  match v with
  | JArr _ | JObj _ => false
  | JInt n => ((- 9223372036854775808 <=? n) && (n <=? 9223372036854775807))%Z
  | _ => true
  end.

(** The comparison [column = ?]; NULL equals nothing. *)
Definition sql_eq (a b : json) : bool :=
  match a with
  | JNull => false
  | _ => Dyn.key_eq a b
  end.

Definition empty : db := {|
  has_schema := false; sessions := ∅; session_topics := []; topic_seq := 0;
  session_tools := []; session_agents := []; session_content := [];
|}.

(** [_create_schema]: [CREATE TABLE IF NOT EXISTS ...]. *)
Definition create_schema (d : db) : db :=
  {| has_schema := true; sessions := sessions d; session_topics := session_topics d;
     topic_seq := topic_seq d; session_tools := session_tools d;
     session_agents := session_agents d; session_content := session_content d |}.

(** The row [INSERT INTO sessions ... VALUES (...)] inserts for [data] at
    the time [now]. *)
Definition inserted_row (now : string) (data : session_data) : session_row := {|
  r_project := d_project data;
  r_project_name := d_project_name data;
  r_title := d_title data;
  r_title_display := d_title_display data;
  r_tags := d_tags data;
  r_client := d_client data;
  r_file_path := d_file_path data;
  r_file_size := d_file_size data;
  r_exchange_count := d_exchange_count data;
  r_start_time := d_start_time data;
  r_end_time := d_end_time data;
  r_duration_minutes := d_duration_minutes data;
  r_model := d_model data;
  r_has_compaction := if d_has_compaction data then 1 else 0;
  r_indexed_at := now;
  r_last_modified := now;
  r_file_hash := d_file_hash data;
|}.

(** [ON CONFLICT(session_id) DO UPDATE SET title=excluded.title, ...]:
    the columns named in the statement take the new row's values. *)
Definition updated_row (old excluded : session_row) : session_row := {|
  r_project := r_project old;
  r_project_name := r_project_name old;
  r_title := r_title excluded;
  r_title_display := r_title_display excluded;
  r_tags := r_tags excluded;
  r_client := r_client excluded;
  r_file_path := r_file_path old;
  r_file_size := r_file_size excluded;
  r_exchange_count := r_exchange_count excluded;
  r_start_time := r_start_time old;
  r_end_time := r_end_time excluded;
  r_duration_minutes := r_duration_minutes excluded;
  r_model := r_model excluded;
  r_has_compaction := r_has_compaction excluded;
  r_indexed_at := r_indexed_at excluded;
  r_last_modified := r_last_modified excluded;
  r_file_hash := r_file_hash excluded;
|}.

Definition with_sessions (s : gmap string session_row) (d : db) : db :=
  {| has_schema := has_schema d; sessions := s; session_topics := session_topics d;
     topic_seq := topic_seq d; session_tools := session_tools d;
     session_agents := session_agents d; session_content := session_content d |}.

Definition with_tools (t : list usage_row) (d : db) : db :=
  {| has_schema := has_schema d; sessions := sessions d;
     session_topics := session_topics d; topic_seq := topic_seq d;
     session_tools := t; session_agents := session_agents d;
     session_content := session_content d |}.

Definition with_agents (t : list usage_row) (d : db) : db :=
  {| has_schema := has_schema d; sessions := sessions d;
     session_topics := session_topics d; topic_seq := topic_seq d;
     session_tools := session_tools d; session_agents := t;
     session_content := session_content d |}.

Definition with_content (t : list (string * string)) (d : db) : db :=
  {| has_schema := has_schema d; sessions := sessions d;
     session_topics := session_topics d; topic_seq := topic_seq d;
     session_tools := session_tools d; session_agents := session_agents d;
     session_content := t |}.

(** Each statement is a partial function on the database: [None] is the
    exception [sqlite3] raises (a parameter it cannot bind, a violated
    constraint), and the failed statement changes nothing. *)

(** [INSERT INTO sessions (...) VALUES (...) ON CONFLICT(session_id) DO UPDATE SET ...] *)
Definition insert_session (now : string) (data : session_data) (d : db) : option db :=
  if forallb bindable
       [d_title data; d_title_display data; d_tags data; d_client data;
        d_start_time data; d_end_time data; d_model data]
  then
    let new := inserted_row now data in
    Some (with_sessions
            (<[d_session_id data :=
                 match sessions d !! d_session_id data with
                 | Some old => updated_row old new
                 | None => new
                 end]> (sessions d)) d)
  else None.

(** [DELETE FROM session_tools WHERE session_id=?] and its siblings *)
Definition other_session (sid : string) (u : usage_row) : bool :=
  negb (String.eqb (u_session_id u) sid).

Definition delete_tools (sid : string) (d : db) : option db :=
  Some (with_tools (List.filter (other_session sid) (session_tools d)) d).

Definition delete_agents (sid : string) (d : db) : option db :=
  Some (with_agents (List.filter (other_session sid) (session_agents d)) d).

Definition delete_content (sid : string) (d : db) : option db :=
  Some (with_content
          (List.filter (fun r => negb (String.eqb (fst r) sid)) (session_content d)) d).

(** A usage row may be inserted when its name binds, is not NULL, and the
    primary key (session_id, name) is free. *)
Definition usage_ok (sid : string) (name : json) (rows : list usage_row) : bool :=
  bindable name && negb (Dyn.key_eq name JNull)
  && negb (existsb (fun u => String.eqb (u_session_id u) sid && sql_eq (u_name u) name) rows).

(** [INSERT INTO session_tools (session_id, tool_name, use_count) VALUES (?, ?, ?)] *)
Definition insert_tool (sid : string) (tool : json) (count : Z) (d : db) : option db :=
  if usage_ok sid tool (session_tools d)
  then Some (with_tools
               (session_tools d ++ [{| u_session_id := sid; u_name := tool; u_count := count |}]) d)
  else None.

(** [INSERT INTO session_agents (session_id, agent_name, invocation_count) VALUES (?, ?, ?)] *)
Definition insert_agent (sid : string) (agent : json) (count : Z) (d : db) : option db :=
  if usage_ok sid agent (session_agents d)
  then Some (with_agents
               (session_agents d ++ [{| u_session_id := sid; u_name := agent; u_count := count |}]) d)
  else None.

(** [INSERT INTO session_content (session_id, content) VALUES (?, ?)] *)
Definition insert_content (sid : string) (text : string) (d : db) : option db :=
  Some (with_content (session_content d ++ [(sid, text)]) d).

(** [SELECT id FROM session_topics WHERE session_id=? AND topic=? AND source=?],
    [fetchone()] *)
Definition same_triple (sid : string) (topic : json) (source : string) (t : topic_row) : bool :=
  String.eqb (t_session_id t) sid && sql_eq (t_topic t) topic
  && String.eqb (t_source t) source.

Definition select_topic (sid : string) (topic : json) (source : string) (d : db)
  : option (option Z) :=
  if bindable topic
  then Some (t_id <$> find (same_triple sid topic source) (session_topics d))
  else None.

(** [INSERT INTO session_topics (session_id, topic, captured_at,
    exchange_number, source) VALUES (?, ?, ?, ?, ?)]; the id is the next of
    the AUTOINCREMENT sequence. *)
Definition insert_topic (sid : string) (topic captured_at : json)
    (exchange_number : option Z) (source : string) (d : db) : option db :=
  if bindable topic && bindable captured_at
     && negb (Dyn.key_eq topic JNull) && negb (Dyn.key_eq captured_at JNull)
  then
    let id := (topic_seq d + 1)%Z in
    Some {| has_schema := has_schema d; sessions := sessions d;
            session_topics :=
              session_topics d ++
              [{| t_id := id; t_session_id := sid; t_topic := topic;
                  t_captured_at := captured_at;
                  t_exchange_number := exchange_number; t_source := source |}];
            topic_seq := id; session_tools := session_tools d;
            session_agents := session_agents d;
            session_content := session_content d |}
  else None.

(** [SELECT file_hash FROM sessions WHERE session_id=?], [fetchone()] *)
Definition select_file_hash (sid : string) (d : db) : option digest :=
  r_file_hash <$> sessions d !! sid.

(** A connection of the [sqlite3] module in its default mode.  The first
    data-modifying statement opens a transaction: [pending] is the database
    as that transaction sees it, [committed] what every other reader sees.
    [faults] is the environment: statement number [n] on this database
    fails for a reason of its own (disk full, lock timeout) when [faults n]. *)
Record conn : Type := {
  committed : db;
  pending : option db;
  executed : nat;
  faults : nat -> bool;
}.

(** The database the connection reads. *)
Definition current (c : conn) : db := default (committed c) (pending c).

(** A computation on a connection that may raise. *)
Definition exec (A : Type) : Type := conn -> option A * conn.

Definition ret {A : Type} (a : A) : exec A := fun c => (Some a, c).

Definition seq {A B : Type} (m : exec A) (k : A -> exec B) : exec B :=
  fun c =>
    match m c with
    | (Some a, c') => k a c'
    | (None, c') => (None, c')
    end.

(** [conn.execute] of a statement that modifies data. *)
Definition execute (stmt : db -> option db) : exec unit :=
  fun c =>
    let cur := current c in
    let after (p : db) :=
      {| committed := committed c; pending := Some p;
         executed := S (executed c); faults := faults c |} in
    if faults c (executed c) || negb (has_schema cur) then (None, after cur)
    else match stmt cur with
         | Some p => (Some tt, after p)
         | None => (None, after cur)
         end.

(** [conn.execute] of a SELECT: it opens no transaction. *)
Definition query {A : Type} (q : db -> option A) : exec A :=
  fun c =>
    let c' := {| committed := committed c; pending := pending c;
                 executed := S (executed c); faults := faults c |} in
    if faults c (executed c) || negb (has_schema (current c)) then (None, c')
    else (q (current c), c').

(** [conn.commit()] *)
Definition commit : exec unit :=
  fun c =>
    if faults c (executed c)
    then (None, {| committed := committed c; pending := pending c;
                   executed := S (executed c); faults := faults c |})
    else (Some tt, {| committed := current c; pending := None;
                      executed := S (executed c); faults := faults c |}).

(** [conn.rollback()] *)
Definition rollback (c : conn) : conn :=
  {| committed := committed c; pending := None;
     executed := executed c; faults := faults c |}.

End Sql.

(* ===================================================================== *)
(** ** indexer.py: upsert, single-session indexing and the batch modes *)
(* ===================================================================== *)

(** The dict [backfill_all] returns. *)
Record backfill_stats : Type := {
  total : Z;
  indexed : Z;
  skipped : Z;
  errors : Z;
}.

(** The dict [index_incremental] returns. *)
Record incremental_stats : Type := {
  checked : Z;
  i_indexed : Z;
  unchanged : Z;
  i_errors : Z;
}.

Module Store.

Import Dyn Sql.

(** [for x in l: body(x)] *)
Fixpoint for_each {A : Type} (l : list A) (body : A -> exec unit) : exec unit :=
  match l with
  | [] => ret tt
  | x :: r => seq (body x) (fun _ => for_each r body)
  end.

(** "Add topics from compaction summaries (don't delete existing
    hook-captured topics)": the body of the loop for one topic. *)
Definition add_topic_if_new (sid : string) (topic : topic_entry) : exec unit :=
  seq (query (select_topic sid (te_topic topic) (te_source topic))) (fun existing =>
  match existing with
  | Some _ => ret tt
  | None =>
      execute (insert_topic sid (te_topic topic) (te_captured_at topic)
                 (te_exchange_number topic) (te_source topic))
  end).

(** "Upsert tools" *)
Definition upsert_tools (data : session_data) : exec unit :=
  let sid := d_session_id data in
  seq (execute (delete_tools sid)) (fun _ =>
  for_each (d_tools data) (fun tc => execute (insert_tool sid (fst tc) (snd tc)))).

(** "Upsert agents" *)
Definition upsert_agents (data : session_data) : exec unit :=
  let sid := d_session_id data in
  seq (execute (delete_agents sid)) (fun _ =>
  for_each (d_agents data) (fun ac => execute (insert_agent sid (fst ac) (snd ac)))).

(** "Upsert FTS content" *)
Definition upsert_content (data : session_data) : exec unit :=
  let sid := d_session_id data in
  seq (execute (delete_content sid)) (fun _ =>
  if String.eqb (d_fts_content data) "" then ret tt
  else execute (insert_content sid (d_fts_content data))).

(** "Add topics from compaction summaries" *)
Definition add_topics (data : session_data) : exec unit :=
  for_each (d_topics data) (add_topic_if_new (d_session_id data)).

(** The statements of [_upsert_session] from [try:] up to the commit. *)
Definition upsert_body (now : string) (data : session_data) : exec unit :=
  seq (execute (insert_session now data)) (fun _ =>
  seq (upsert_tools data) (fun _ =>
  seq (upsert_agents data) (fun _ =>
  seq (upsert_content data) (fun _ =>
  add_topics data)))).

(** ... and [self.conn.commit()]. *)
Definition upsert_statements (now : string) (data : session_data) : exec unit :=
  seq (upsert_body now data) (fun _ => commit).

(** [_upsert_session]: "Insert or update a session in the DB." *)
Definition _upsert_session (data : session_data) (k : clock) (c : conn)
  : bool * clock * conn :=
  let '(t, k1) := now k in
  match upsert_statements t data c with
  | (Some _, c') => (true, k1, c')
  | (None, c') => (false, k1, rollback c')
  end.

(** [_find_session_file]; the projects directory is [None] when it does
    not exist, and [iterdir] raises. *)
Definition _find_session_file (projects : option (list Fs.directory)) (session_id : string)
  : result (option Fs.path) :=
  match projects with
  | None => Raise
  | Some dirs => Return (Fs.find_in dirs session_id)
  end.

(** [index_session]: "Index a single session. Provide either session_id or
    file_path." *)
Definition index_session (cfg : config) (projects : option (list Fs.directory))
    (session_id : option string) (file_path : option Fs.path) (k : clock) (c : conn)
  : result bool * clock * conn :=
  let located :=
    match file_path with
    | Some p => Return (Some p)
    | None =>
        match session_id with
        | Some sid =>
            if String.eqb sid "" then Return None
            else _find_session_file projects sid
        | None => Return None
        end
    end in
  match located with
  | Raise => (Raise, k, c)
  | Return None => (Return false, k, c)
  | Return (Some p) =>
      match Fs.target p with
      | None => (Return false, k, c)
      | Some _ =>
          match Indexer._parse_session cfg p k with
          | (Raise, k1) => (Raise, k1, c)
          | (Return None, k1) => (Return false, k1, c)
          | (Return (Some data), k1) =>
              let '(ok, k2, c') := _upsert_session data k1 c in
              (Return ok, k2, c')
          end
      end
  end.

(** The files both batch modes walk: every [*.jsonl] of every directory
    under the projects directory. *)
Definition session_files (dirs : list Fs.directory) : list Fs.path :=
  flat_map Fs.glob (List.filter Fs.is_dir dirs).

(** How the body of either batch loop ends for one file. *)
Inductive verdict : Type :=
  | Unchanged
  | Indexed
  | Failed.

(** The body shared by the loops of [backfill_all] and [index_incremental]:
    "Skip if already indexed with same hash", else parse and upsert. *)
Definition visit (cfg : config) (p : Fs.path) (k : clock) (c : conn)
  : result verdict * clock * conn :=
  match Fs.target p with
  | None => (Raise, k, c)
  | Some f =>
      let current_hash := Indexer._file_hash f in
      match query (fun d => Some (select_file_hash (Fs.stem p) d)) c with
      | (None, c1) => (Raise, k, c1)
      | (Some existing, c1) =>
          if match existing with
             | Some h => digest_eqb h current_hash
             | None => false
             end
          then (Return Unchanged, k, c1)
          else
            match Indexer._parse_session cfg p k with
            | (Raise, k1) => (Raise, k1, c1)
            | (Return None, k1) => (Return Failed, k1, c1)
            | (Return (Some data), k1) =>
                let '(ok, k2, c2) := _upsert_session data k1 c1 in
                (Return (if ok then Indexed else Failed), k2, c2)
            end
      end
  end.

Definition count_backfill (v : verdict) (s : backfill_stats) : backfill_stats :=
  match v with
  | Unchanged => {| total := total s; indexed := indexed s;
                    skipped := skipped s + 1; errors := errors s |}
  | Indexed => {| total := total s; indexed := indexed s + 1;
                  skipped := skipped s; errors := errors s |}
  | Failed => {| total := total s; indexed := indexed s;
                 skipped := skipped s; errors := errors s + 1 |}
  end.

Fixpoint backfill_loop (cfg : config) (paths : list Fs.path) (s : backfill_stats)
    (k : clock) (c : conn) : result backfill_stats * clock * conn :=
  match paths with
  | [] => (Return s, k, c)
  | p :: r =>
      match visit cfg p k c with
      | (Raise, k1, c1) => (Raise, k1, c1)
      | (Return v, k1, c1) => backfill_loop cfg r (count_backfill v s) k1 c1
      end
  end.

(** [backfill_all]: "Index all existing sessions. Returns stats dict." *)
Definition backfill_all (cfg : config) (projects : option (list Fs.directory))
    (k : clock) (c : conn) : result backfill_stats * clock * conn :=
  match projects with
  | None => (Raise, k, c)
  | Some dirs =>
      let paths := session_files dirs in
      backfill_loop cfg paths
        {| total := Z.of_nat (length paths); indexed := 0; skipped := 0; errors := 0 |} k c
  end.

Definition count_incremental (v : verdict) (s : incremental_stats) : incremental_stats :=
  match v with
  | Unchanged => {| checked := checked s; i_indexed := i_indexed s;
                    unchanged := unchanged s + 1; i_errors := i_errors s |}
  | Indexed => {| checked := checked s; i_indexed := i_indexed s + 1;
                  unchanged := unchanged s; i_errors := i_errors s |}
  | Failed => {| checked := checked s; i_indexed := i_indexed s;
                 unchanged := unchanged s; i_errors := i_errors s + 1 |}
  end.

Definition check_one (s : incremental_stats) : incremental_stats :=
  {| checked := checked s + 1; i_indexed := i_indexed s;
     unchanged := unchanged s; i_errors := i_errors s |}.

Fixpoint incremental_loop (cfg : config) (paths : list Fs.path) (s : incremental_stats)
    (k : clock) (c : conn) : result incremental_stats * clock * conn :=
  match paths with
  | [] => (Return s, k, c)
  | p :: r =>
      match visit cfg p k c with
      | (Raise, k1, c1) => (Raise, k1, c1)
      | (Return v, k1, c1) =>
          incremental_loop cfg r (count_incremental v (check_one s)) k1 c1
      end
  end.

(** [index_incremental]: "Index new or modified sessions since last run." *)
Definition index_incremental (cfg : config) (projects : option (list Fs.directory))
    (k : clock) (c : conn) : result incremental_stats * clock * conn :=
  match projects with
  | None => (Raise, k, c)
  | Some dirs =>
      incremental_loop cfg (session_files dirs)
        {| checked := 0; i_indexed := 0; unchanged := 0; i_errors := 0 |} k c
  end.

(** [SessionIndexer.connect]: open the database and ensure the schema
    exists; [_create_schema] commits. *)
Definition connect (c : conn) : conn :=
  {| committed := create_schema (committed c); pending := None;
     executed := executed c; faults := faults c |}.

(** [add_topic]: "Add a topic entry for a session." *)
Definition add_topic (session_id topic source : string) (exchange_number : option Z)
    (k : clock) (c : conn) : result unit * clock * conn :=
  let '(t, k1) := now k in
  match seq (execute (insert_topic session_id (JStr topic) (JStr t) exchange_number source))
            (fun _ => commit) c with
  | (Some _, c') => (Return tt, k1, c')
  | (None, c') => (Raise, k1, c')
  end.

End Store.

(* ===================================================================== *)
(** ** The four steps of the upsert, as the specification lists them *)
(* ===================================================================== *)

(** Each step as a partial function on the database: what its statements
    do, one after the other, when the environment causes no failure.  These
    follow the specification's list ("1. Insert-or-update the SessionRecord
    row ... 4. For each topic candidate ..."); the theorems below compare
    [_upsert_session] with them. *)
Module Steps.

Import Sql.

Fixpoint insert_each (ins : json -> Z -> db -> option db) (l : list (json * Z)) (d : db)
  : option db :=
  match l with
  | [] => Some d
  | (name, count) :: r => d' ← ins name count d; insert_each ins r d'
  end.

(** Step 1: insert or update the session row. *)
Definition session_step (now : string) (data : session_data) (d : db) : option db :=
  insert_session now data d.

(** Step 2: delete and reinsert the tool and agent rows. *)
Definition usage_step (data : session_data) (d : db) : option db :=
  let sid := d_session_id data in
  d1 ← delete_tools sid d;
  d2 ← insert_each (insert_tool sid) (d_tools data) d1;
  d3 ← delete_agents sid d2;
  insert_each (insert_agent sid) (d_agents data) d3.

(** Step 3: delete and reinsert the content document. *)
Definition content_step (data : session_data) (d : db) : option db :=
  let sid := d_session_id data in
  d1 ← delete_content sid d;
  if String.eqb (d_fts_content data) "" then Some d1
  else insert_content sid (d_fts_content data) d1.

(** Step 4: insert each topic candidate whose triple is not stored yet. *)
Definition topic_step (sid : string) (topic : topic_entry) (d : db) : option db :=
  existing ← select_topic sid (te_topic topic) (te_source topic) d;
  match existing with
  | Some _ => Some d
  | None =>
      insert_topic sid (te_topic topic) (te_captured_at topic)
        (te_exchange_number topic) (te_source topic) d
  end.

Fixpoint topic_steps (sid : string) (topics : list topic_entry) (d : db) : option db :=
  match topics with
  | [] => Some d
  | t :: r => d' ← topic_step sid t d; topic_steps sid r d'
  end.

Definition topics_step (data : session_data) (d : db) : option db :=
  topic_steps (d_session_id data) (d_topics data) d.

(** All four, in order. *)
Definition all_four (now : string) (data : session_data) (d : db) : option db :=
  d1 ← session_step now data d;
  d2 ← usage_step data d1;
  d3 ← content_step data d2;
  topics_step data d3.

End Steps.

(* ===================================================================== *)
(** ** analyzer.py: exchange pairing and query filtering *)
(* ===================================================================== *)

(** One element of [entries] in [extract_exchanges]: a user or assistant
    record with its readable text. *)
Record entry : Type := {
  e_type : string;
  e_text : string;
  e_timestamp : json;
}.

(** One element of [exchanges]. *)
Record exchange : Type := {
  user : string;
  assistant : string;
  timestamp : json;
}.

Module Analyzer.

(** "Collect all assistant messages until next user message": the texts
    collected and the entries from index [j] on. *)
Fixpoint assistant_run (es : list entry) : list string * list entry :=
  match es with
  | e :: r =>
      if String.eqb (e_type e) "assistant"
      then let '(parts, rest) := assistant_run r in (e_text e :: parts, rest)
      else ([], es)
  | [] => ([], [])
  end.

(** "Pair consecutive user → assistant messages": the [while i < len(entries)]
    loop; each iteration consumes at least one entry, so [fuel] may be the
    number of entries. *)
Fixpoint pair_loop (fuel : nat) (es : list entry) : list exchange :=
  match fuel, es with
  | S f, e :: r =>
      if String.eqb (e_type e) "user" then
        let '(assistant_parts, rest) := assistant_run r in
        {| user := e_text e;
           assistant := Py.join (String Py.newline "") assistant_parts;
           timestamp := e_timestamp e |} :: pair_loop f rest
      else pair_loop f r
  | _, _ => []
  end.

Definition pair_exchanges (es : list entry) : list exchange :=
  pair_loop (length es) es.

(** "Truncate long messages" *)
Definition truncate (max_chars : nat) (s : string) : string :=
  if (Z.of_nat max_chars <? Py.len s)%Z then Py.take max_chars s +:+ "..." else s.

Definition truncate_exchange (max_chars : nat) (ex : exchange) : exchange :=
  {| user := truncate max_chars (user ex);
     assistant := truncate max_chars (assistant ex);
     timestamp := timestamp ex |}.

Section Filtering.

(** The regular-expression engine: [re.compile(query, re.IGNORECASE)]
    returns a compiled pattern or raises [re.error] ([None]), and
    [pattern.search(text)] finds a match or not. *)
Variable pattern : Type.
Variable re_compile : string -> option pattern.
Variable re_search : pattern -> string -> bool.

(** Stage 1, the list comprehension under [try]. *)
Definition regex_matches (p : pattern) (exchanges : list exchange) : list exchange :=
  List.filter (fun ex => re_search p (user ex) || re_search p (assistant ex)) exchanges.

(** Stage 2: [q in ex["user"].lower() or q in ex["assistant"].lower()]. *)
Definition substring_matches (query : string) (exchanges : list exchange) : list exchange :=
  let q := Py.lower query in
  List.filter (fun ex => Py.contains q (Py.lower (user ex))
                         || Py.contains q (Py.lower (assistant ex))) exchanges.

(** Stage 3: [words = [w.lower() for w in query.split() if len(w) > 2]]. *)
Definition query_words (query : string) : list string :=
  map Py.lower (List.filter (fun w => (2 <? Py.len w)%Z) (Py.split_ws query)).

Definition word_matches (words : list string) (exchanges : list exchange) : list exchange :=
  List.filter (fun ex => existsb (fun w => Py.contains w (Py.lower (user ex))
                                           || Py.contains w (Py.lower (assistant ex))) words)
    exchanges.

(** [not matched], for [matched] that is [None] or a list. *)
Definition not_matched (matched : option (list exchange)) : bool :=
  match matched with
  | None | Some [] => true
  | Some (_ :: _) => false
  end.

(** "Filter by query if provided": the body of [if query:], statement by
    statement, ending in [exchanges = matched or []]. *)
Definition filter_by_query (query : string) (exchanges : list exchange) : list exchange :=
  let matched : option (list exchange) := None in
  let matched :=
    match re_compile query with
    | Some p => Some (regex_matches p exchanges)
    | None => matched
    end in
  let matched :=
    if not_matched matched then Some (substring_matches query exchanges) else matched in
  let matched :=
    if not_matched matched then
      let words := query_words query in
      match words with
      | _ :: _ => Some (word_matches words exchanges)
      | [] => matched
      end
    else matched in
  if not_matched matched then [] else default [] matched.

(** [extract_exchanges] from the ordered entries on: pairing, filtering,
    truncation, and the cut at [limit]. *)
Definition extract_exchanges (entries : list entry) (query : option string)
    (limit max_chars : nat) : list exchange :=
  let exchanges := pair_exchanges entries in
  let exchanges :=
    match query with
    | Some q => if String.eqb q "" then exchanges else filter_by_query q exchanges
    | None => exchanges
    end in
  take limit (map (truncate_exchange max_chars) exchanges).

(** The filtering as the specification words it: an ordered list of
    matcher strategies, each tried only if the previous one produced no
    match; the result of the first that matches something, else nothing. *)
Definition spec_stages (query : string) (exchanges : list exchange) : list (list exchange) :=
  [ match re_compile query with
    | Some p => regex_matches p exchanges
    | None => []
    end;
    substring_matches query exchanges;
    word_matches (query_words query) exchanges ].

Fixpoint first_nonempty {A : Type} (stages : list (list A)) : list A :=
  match stages with
  | [] => []
  | [] :: r => first_nonempty r
  | (x :: l) :: _ => x :: l
  end.

Definition spec_filter (query : string) (exchanges : list exchange) : list exchange :=
  first_nonempty (spec_stages query exchanges).

End Filtering.

End Analyzer.

(* ===================================================================== *)
(** ** topic_capture.py: reading the transcript and extracting a topic *)
(* ===================================================================== *)

Module Topic.

Import Dyn.

(** "Capture topic every N exchanges" *)
Definition TOPIC_INTERVAL : Z := 10.

(** The two literal texts [get_exchange_count] looks for in a line. *)
Definition user_marker_compact : string := Py.jl "'type':'user'".
Definition user_marker_spaced : string := Py.jl "'type': 'user'".

Definition counts_as_user (line : string) : bool :=
  Py.contains user_marker_compact line || Py.contains user_marker_spaced line.

(** [get_exchange_count]: "Count user messages in session JSONL".  A path
    that is [None] or does not exist, and a file that cannot be opened,
    count 0. *)
Definition get_exchange_count (session_path : option Fs.path) : Z :=
  match session_path with
  | None => 0
  | Some p =>
      match Fs.target p with
      | None => 0
      | Some f =>
          match Fs.content f with
          | None => 0
          | Some lines => Z.of_nat (length (List.filter counts_as_user lines))
          end
      end
  end.

(** The regular expressions of [SKIP_PATTERNS], compiled with
    [re.IGNORECASE], each written out as the test [p.search(content)]. *)
Definition istartswith (literal s : string) : bool :=
  Py.startswith (Py.lower literal) (Py.lower s).

(** [^(yes|no|...)\b]: the text starts with the word, and the word ends there. *)
Definition starts_with_word (w s : string) : bool :=
  istartswith w s
  && match Py.drop (String.length w) s with
     | EmptyString => true
     | String c _ => negb (Py.is_word c)
     end.

Definition filler_words : list string :=
  ["yes"; "no"; "ok"; "sure"; "thanks"; "thank you"; "yep"; "nope"; "cool";
   "great"; "good"; "fine"; "hmm"; "ah"; "oh"].

Definition SKIP_RE : list (string -> bool) :=
  [ (fun s => existsb (fun w => starts_with_word w s) filler_words);
    (fun s => String.eqb s "/" || String.eqb s (String "/" (String Py.newline "")));
    istartswith "<system-reminder>";
    istartswith "<task-notification>";
    istartswith "This session has ended";
    istartswith "[Request interrupted";
    istartswith "Please curate the memories";
    istartswith "implement the following plan" ].

(** The last 200000 characters of the file, as [readlines] splits them:
    the first line may be cut. *)
Fixpoint skip_chars (n : Z) (lines : list string) : list string :=
  match lines with
  | [] => []
  | l :: r =>
      if (n <=? 0)%Z then lines
      else if (n <? Py.len l)%Z then Py.drop (Z.to_nat n) l :: r
      else skip_chars (n - Py.len l) r
  end.

Definition tail_lines (lines : list string) : list string :=
  let file_size := fold_right (fun l n => (Py.len l + n)%Z) 0%Z lines in
  let read_size := Z.min file_size 200000 in
  skip_chars (Z.max 0 (file_size - read_size)) lines.

(** What one line contributes in [extract_recent_user_messages]. *)
Inductive line_kind : Type :=
  | Skip
  | Message (content : string)
  | Error.

Definition classify (line : string) : line_kind :=
  match Json.loads line with
  | None => Skip
  | Some entry =>
      match get entry "type" JNull with
      | None => Error
      | Some ty =>
          if negb (str_eq ty "user") then Skip else
          match get entry "message" (JObj []) with
          | None => Error
          | Some message =>
              match get message "content" (JStr "") with
              | None => Error
              | Some content =>
                  let joined :=
                    match content with
                    | JArr items => JStr <$> join " " (text_parts items)
                    | _ => Some content
                    end in
                  match joined with
                  | None => Error
                  | Some content =>
                      if negb (truthy content) then Skip else
                      match py_len content with
                      | None => Error
                      | Some n =>
                          if (n <? 15)%Z then Skip else
                          match content with
                          | JStr s => if existsb (fun p => p s) SKIP_RE then Skip else Message s
                          | _ => Error
                          end
                      end
                  end
              end
          end
      end
  end.

(** The loop over [reversed(lines)]; [messages] is most recent first. An
    exception ends the loop with what was collected. *)
Fixpoint recent_loop (reversed_lines : list string) (count : nat) (messages : list string)
  : list string :=
  match reversed_lines with
  | [] => messages
  | line :: r =>
      match classify line with
      | Skip => recent_loop r count messages
      | Error => messages
      | Message content =>
          let messages := messages ++ [content] in
          if (count <=? length messages)%nat then messages else recent_loop r count messages
      end
  end.

(** [extract_recent_user_messages]: "Extract last N user messages from
    JSONL", in chronological order. *)
Definition extract_recent_user_messages (session_path : Fs.path) (count : nat) : list string :=
  match Fs.target session_path with
  | None => []
  | Some f =>
      match Fs.content f with
      | None => []
      | Some lines => rev (recent_loop (rev (tail_lines lines)) count [])
      end
  end.

(** [re.sub(open .*? close, '', msg, flags=re.DOTALL)] for literal
    delimiters: each leftmost opening delimiter that has a closing one after
    it is removed together with everything up to the nearest closing one. *)
Fixpoint remove_delimited (fuel : nat) (opening closing s : string) : string :=
  match fuel, s with
  | S f, String c r =>
      if Py.startswith opening s then
        match Py.partition closing (Py.drop (String.length opening) s) with
        | Some (_, after) => remove_delimited f opening closing after
        | None => String c (remove_delimited f opening closing r)
        end
      else String c (remove_delimited f opening closing r)
  | _, _ => s
  end.

(** The longest prefix without the character [stop], and what follows. *)
Fixpoint run_until (stop : ascii) (s : string) : string * string :=
  match s with
  | EmptyString => (EmptyString, EmptyString)
  | String c r =>
      if Ascii.eqb c stop then (EmptyString, s)
      else let '(run, rest) := run_until stop r in (String c run, rest)
  end.

(** A backquote, one or more characters that are not backquotes, a
    backquote: the text after such a match at the head of [s]. *)
Definition inline_code_at (s : string) : option string :=
  match s with
  | String c r =>
      if Ascii.eqb c Py.backtick then
        match run_until Py.backtick r with
        | (String _ _, String _ after) => Some after
        | _ => None
        end
      else None
  | EmptyString => None
  end.

Fixpoint remove_inline_code (fuel : nat) (s : string) : string :=
  match fuel, s with
  | S f, String c r =>
      match inline_code_at s with
      | Some after => remove_inline_code f after
      | None => String c (remove_inline_code f r)
      end
  | _, _ => s
  end.

(** A markdown link [[text](target)] at the head of [s]: its text and what
    follows the link. *)
Definition link_at (s : string) : option (string * string) :=
  match s with
  | String "[" r =>
      match run_until "]" r with
      | (String a text, String _ (String "(" r2)) =>
          match run_until ")" r2 with
          | (String _ _, String _ after) => Some (String a text, after)
          | _ => None
          end
      | _ => None
      end
  | _ => None
  end.

Fixpoint replace_links (fuel : nat) (s : string) : string :=
  match fuel, s with
  | S f, String c r =>
      match link_at s with
      | Some (text, after) => text +:+ replace_links f after
      | None => String c (replace_links f r)
      end
  | _, _ => s
  end.

(** [re.sub(r'[#*_~]+', '', msg)] *)
Fixpoint remove_formatting (s : string) : string :=
  match s with
  | EmptyString => EmptyString
  | String c r =>
      if Py.mem_char c "#*_~" then remove_formatting r else String c (remove_formatting r)
  end.

(** [re.split(separator \s+, msg)[0]]: the text before the first separator
    that whitespace follows. [sep_at] recognises a separator at the head of
    the text and returns what follows it. *)
Fixpoint before_separator (sep_at : string -> option string) (s : string) : string :=
  match s with
  | EmptyString => EmptyString
  | String c r =>
      match sep_at s with
      | Some (String w _) =>
          if Py.isspace w then EmptyString else String c (before_separator sep_at r)
      | _ => String c (before_separator sep_at r)
      end
  end.

(** [[.!?]] *)
Definition sentence_end (s : string) : option string :=
  match s with
  | String c r => if Py.mem_char c ".!?" then Some r else None
  | EmptyString => None
  end.

(** [[,;:—–\-]]: the two dashes are three bytes each in UTF-8. *)
Definition em_dash : string :=
  String (Ascii.ascii_of_nat 226) (String (Ascii.ascii_of_nat 128) (String (Ascii.ascii_of_nat 148) "")).
Definition en_dash : string :=
  String (Ascii.ascii_of_nat 226) (String (Ascii.ascii_of_nat 128) (String (Ascii.ascii_of_nat 147) "")).

Definition clause_end (s : string) : option string :=
  match s with
  | String c r =>
      if Py.mem_char c ",;:-" then Some r
      else if Py.startswith em_dash s || Py.startswith en_dash s then Some (Py.drop 3 s)
      else None
  | EmptyString => None
  end.

(** The cleaning steps of [extract_topic], from "Strip system reminder
    content" to "Clean whitespace". *)
Definition clean (msg : string) : string :=
  let n := String.length msg in
  let msg := remove_delimited n "<system-reminder>" "</system-reminder>" msg in
  let msg := remove_delimited n "```" "```" msg in
  let msg := remove_inline_code n msg in
  let msg := replace_links n msg in
  let msg := remove_formatting msg in
  Py.strip (Py.join " " (Py.split_ws msg)).

(** "Extract first sentence/clause", "Final truncation", "Capitalize first
    letter". *)
Definition headline (msg : string) : string :=
  let topic := Py.strip (before_separator sentence_end msg) in
  let topic :=
    if (60 <? Py.len topic)%Z then Py.strip (before_separator clause_end topic) else topic in
  let topic :=
    if (60 <? Py.len topic)%Z then Py.take 57 topic +:+ "..." else topic in
  match topic with
  | EmptyString => topic
  | String c r => String (Py.upper_char c) r
  end.

(** [extract_topic] on the messages most recent first: "Fall back to
    second most recent" is the recursive call. *)
Fixpoint extract_topic_from (most_recent_first : list string) : option string :=
  match most_recent_first with
  | [] => None
  | msg :: older =>
      let msg := clean msg in
      if (Py.len msg <? 10)%Z then extract_topic_from older
      else Some (headline msg)
  end.

(** [extract_topic]: "Extract a concise topic from recent user messages." *)
Definition extract_topic (messages : list string) : option string :=
  extract_topic_from (rev messages).

End Topic.

(* ===================================================================== *)
(** ** topic_capture.py: the hook's state and its handlers *)
(* ===================================================================== *)

(** The capture-state file: absent, present but unreadable or not JSON, or
    holding a JSON value.  [json.dumps] followed by [json.loads] is taken to
    return the value written. *)
Inductive state_file : Type :=
  | Absent
  | Unreadable
  | Holds (v : json).

(** Everything outside the hook's process that it reads or writes. *)
Record world : Type := {
  projects : option (list Fs.directory);
  capture_state : state_file;
  state_writable : bool;
  topic_files : gmap string string;
  topics_writable : bool;
  store : Sql.conn;
  time : clock;
  settings : config;
}.

(** What the host passes to one run of the hook: the [session_id] of the
    JSON payload on standard input (empty when there is none), the
    environment, and the command line after the script's name. *)
Record invocation : Type := {
  stdin_session_id : string;
  env_session_id : option string;
  argv : list string;
  env_hook_event : option string;
}.

(** How a run of the hook ends: it returns (or calls [sys.exit(0)]), or an
    exception leaves [main] and the interpreter exits with a traceback. *)
Inductive outcome : Type :=
  | Exits (w : world)
  | Uncaught (w : world).

Definition final (o : outcome) : world :=
  match o with
  | Exits w | Uncaught w => w
  end.

Definition raised (o : outcome) : bool :=
  match o with
  | Exits _ => false
  | Uncaught _ => true
  end.

Module Hook.

Import Dyn.

Definition with_store (c : Sql.conn) (k : clock) (w : world) : world :=
  {| projects := projects w; capture_state := capture_state w;
     state_writable := state_writable w; topic_files := topic_files w;
     topics_writable := topics_writable w; store := c; time := k;
     settings := settings w |}.

(** [get_session_id]: "Get session ID from stdin JSON (reliable) or env var
    (fallback)." *)
Definition get_session_id (i : invocation) : string :=
  if negb (String.eqb (stdin_session_id i) "") then stdin_session_id i
  else default "unknown" (env_session_id i).

(** [get_hook_event]: "Determine which hook event triggered us." *)
Definition get_hook_event (i : invocation) : string :=
  match argv i with
  | a :: _ => a
  | [] => default "unknown" (env_hook_event i)
  end.

(** [load_state] *)
Definition load_state (w : world) : json :=
  match capture_state w with
  | Holds v => v
  | Absent | Unreadable => JObj []
  end.

(** [save_state]; [None] is the [OSError] of a failed [mkdir] or write. *)
Definition save_state (state : json) (w : world) : option world :=
  if state_writable w then
    Some {| projects := projects w; capture_state := Holds state;
            state_writable := state_writable w; topic_files := topic_files w;
            topics_writable := topics_writable w; store := store w;
            time := time w; settings := settings w |}
  else None.

(** [find_session_file]: [iterdir] raises when the projects directory does
    not exist. *)
Definition find_session_file (w : world) (session_id : string) : option (option Fs.path) :=
  match projects w with
  | None => None
  | Some dirs => Some (Fs.find_in dirs session_id)
  end.

(** [write_topic_file]: "Write topic to the statusLine-readable file."
    [None] is the [OSError] of a failed [mkdir] or write. *)
Definition write_topic_file (session_id topic : string) (w : world) : option world :=
  if topics_writable w then
    Some {| projects := projects w; capture_state := capture_state w;
            state_writable := state_writable w;
            topic_files := <[session_id := topic]> (topic_files w);
            topics_writable := topics_writable w; store := store w;
            time := time w; settings := settings w |}
  else None.

(** [write_topic_db]: "Write topic to the sessions database."  Every
    exception is caught: "DB might not exist yet if backfill hasn't run". *)
Definition write_topic_db (session_id topic source : string) (exchange_number : Z)
    (w : world) : world :=
  let '(t, k1) := now (time w) in
  match Sql.seq (Sql.execute (Sql.insert_topic session_id (JStr topic) (JStr t)
                                (Some exchange_number) source))
                (fun _ => Sql.commit) (store w) with
  | (Some _, c) => with_store c k1 w
  | (None, c) => with_store (Sql.rollback c) k1 w
  end.

(** The call [indexer.index_session(file_path=str(session_path))] on a
    fresh [SessionIndexer] that has connected. *)
Definition reindex (session_path : Fs.path) (w : world) : result bool * clock * Sql.conn :=
  Store.index_session (settings w) (projects w) None (Some session_path)
    (time w) (Store.connect (store w)).

(** [trigger_full_index]: "Trigger a full session index update."  Every
    exception of the indexer is caught, and its result is dropped. *)
Definition trigger_full_index (session_path : Fs.path) (w : world) : world :=
  let '(_, k1, c) := reindex session_path w in
  with_store c k1 w.

(** The number a cursor holds, for the subtraction
    [exchange_count - last_capture]; [None] is its [TypeError].  A cursor
    that is a float is not modelled: the hook writes integers only. *)
Definition as_int (v : json) : option Z :=
  match v with
  | JInt n => Some n
  | JBool b => Some (if b then 1 else 0)%Z
  | _ => None
  end.

(** [state[session_id] = {'last_capture_at': exchange_count}] *)
Definition set_cursor (session_id : string) (exchange_count : Z) (state : json) : option json :=
  match state with
  | JObj d => Some (JObj (Json.dict_set session_id
                            (JObj [("last_capture_at", JInt exchange_count)]) d))
  | _ => None
  end.

(** [state.pop(session_id, None)] *)
Definition pop_cursor (session_id : string) (state : json) : option json :=
  match state with
  | JObj d => Some (JObj (Json.dict_remove session_id d))
  | _ => None
  end.

(** A topic that passes [if not topic: return]. *)
Definition usable (topic : option string) : option string :=
  match topic with
  | Some t => if String.eqb t "" then None else Some t
  | None => None
  end.

Definition or_uncaught (w : world) (o : option outcome) : outcome :=
  default (Uncaught w) o.

(** [handle_user_prompt_submit]: "Handle UserPromptSubmit — periodic topic
    capture."  [interval] is [TOPIC_INTERVAL]. *)
Definition handle_user_prompt_submit_every (interval : Z) (session_id : string) (w : world)
  : outcome :=
  or_uncaught w (
    found ← find_session_file w session_id;
    match found with
    | None => Some (Exits w)
    | Some session_path =>
        let exchange_count := Topic.get_exchange_count (Some session_path) in
        let state := load_state w in
        session_state ← get state session_id (JObj [("last_capture_at", JInt 0)]);
        last ← get session_state "last_capture_at" (JInt 0);
        if (exchange_count <? interval)%Z then Some (Exits w) else
        last_capture ← as_int last;
        if (exchange_count - last_capture <? interval)%Z then Some (Exits w) else
        let messages := Topic.extract_recent_user_messages session_path 3 in
        match usable (Topic.extract_topic messages) with
        | None => Some (Exits w)
        | Some topic =>
            match write_topic_file session_id topic w with
            | None => Some (Uncaught w)
            | Some w1 =>
                let w2 := write_topic_db session_id topic "hook_periodic" exchange_count w1 in
                Some (or_uncaught w2 (
                  state' ← set_cursor session_id exchange_count state;
                  w3 ← save_state state' w2;
                  Some (Exits w3)))
            end
        end
    end).

Definition handle_user_prompt_submit : string -> world -> outcome :=
  handle_user_prompt_submit_every Topic.TOPIC_INTERVAL.

(** [handle_pre_compact]: "Handle PreCompact — always capture". *)
Definition handle_pre_compact (session_id : string) (w : world) : outcome :=
  or_uncaught w (
    found ← find_session_file w session_id;
    match found with
    | None => Some (Exits w)
    | Some session_path =>
        let messages := Topic.extract_recent_user_messages session_path 5 in
        match usable (Topic.extract_topic messages) with
        | None => Some (Exits w)
        | Some topic =>
            let exchange_count := Topic.get_exchange_count (Some session_path) in
            match write_topic_file session_id topic w with
            | None => Some (Uncaught w)
            | Some w1 =>
                Some (Exits (write_topic_db session_id topic "hook_precompact" exchange_count w1))
            end
        end
    end).

(** "Capture final topic"; [None] is the exception of a failed
    side-channel write. *)
Definition final_topic (session_id : string) (session_path : Fs.path) (w : world)
  : option world :=
  let messages := Topic.extract_recent_user_messages session_path 5 in
  match usable (Topic.extract_topic messages) with
  | None => Some w
  | Some topic =>
      let exchange_count := Topic.get_exchange_count (Some session_path) in
      w1 ← write_topic_file session_id topic w;
      Some (write_topic_db session_id topic "hook_session_end" exchange_count w1)
  end.

(** "Clean up state for this session" *)
Definition clean_up (session_id : string) (w : world) : option world :=
  state ← pop_cursor session_id (load_state w);
  save_state state w.

(** [handle_session_end]: "Handle SessionEnd — final topic + full index
    update." *)
Definition handle_session_end (session_id : string) (w : world) : outcome :=
  or_uncaught w (
    found ← find_session_file w session_id;
    match found with
    | None => Some (Exits w)
    | Some session_path =>
        match final_topic session_id session_path w with
        | None => Some (Uncaught w)
        | Some w1 =>
            let w2 := trigger_full_index session_path w1 in
            match clean_up session_id w2 with
            | Some w3 => Some (Exits w3)
            | None => Some (Uncaught w2)
            end
        end
    end).

(** [main] *)
Definition main (i : invocation) (w : world) : outcome :=
  let session_id := get_session_id i in
  if String.eqb session_id "unknown" then Exits w
  else
    let hook_event := get_hook_event i in
    if String.eqb hook_event "UserPromptSubmit" then handle_user_prompt_submit session_id w
    else if String.eqb hook_event "PreCompact" then handle_pre_compact session_id w
    else if String.eqb hook_event "SessionEnd" then handle_session_end session_id w
    else Exits w.

End Hook.

(* ===================================================================== *)
(** ** What the statements below observe *)
(* ===================================================================== *)

(** The number of topic rows holding the triple (session, topic text, source). *)
Definition triple_count (sid text source : string) (d : db) : nat :=
  length (List.filter (Sql.same_triple sid (JStr text) source) (session_topics d)).

(** Everything the store holds for one session. *)
Record session_view : Type := {
  v_row : option session_row;
  v_topics : list topic_row;
  v_tools : list usage_row;
  v_agents : list usage_row;
  v_content : list (string * string);
}.

Definition rows_of (sid : string) (d : db) : session_view := {|
  v_row := sessions d !! sid;
  v_topics := List.filter (fun t => String.eqb (t_session_id t) sid) (session_topics d);
  v_tools := List.filter (fun u => String.eqb (u_session_id u) sid) (session_tools d);
  v_agents := List.filter (fun u => String.eqb (u_session_id u) sid) (session_agents d);
  v_content := List.filter (fun r => String.eqb (fst r) sid) (session_content d);
|}.

(** A connection on which no statement fails for a reason of its own, and
    whose database has its tables. *)
Definition working (c : Sql.conn) : Prop :=
  (forall n, Sql.faults c n = false) /\ has_schema (Sql.current c) = true.

(** Names that can be inserted one after the other under the primary key
    (session, name): each binds, none is NULL, no two are equal. *)
Fixpoint names_ok (l : list (json * Z)) : bool :=
  match l with
  | [] => true
  | (n, _) :: r =>
      Sql.bindable n && negb (Dyn.key_eq n JNull)
      && forallb (fun x => negb (Sql.sql_eq n (fst x))) r
      && names_ok r
  end.

Definition topic_ok (t : topic_entry) : bool :=
  Sql.bindable (te_topic t) && Sql.bindable (te_captured_at t)
  && negb (Dyn.key_eq (te_topic t) JNull) && negb (Dyn.key_eq (te_captured_at t) JNull).

(** Data that [sqlite3] accepts in every statement of the upsert. *)
Definition storable (data : session_data) : bool :=
  forallb Sql.bindable
    [d_title data; d_title_display data; d_tags data; d_client data;
     d_start_time data; d_end_time data; d_model data]
  && names_ok (d_tools data) && names_ok (d_agents data)
  && forallb topic_ok (d_topics data).

(** A line that is a record of the given type: it parses to a JSON object
    whose ["type"] is that string. *)
Definition is_turn (kind : string) (line : string) : bool :=
  match Json.loads line with
  | Some (JObj d) => Dyn.str_eq (default JNull (Json.dict_lookup "type" d)) kind
  | _ => false
  end.

(** The number of user-turn records, and of assistant-turn records, of a
    transcript. *)
Definition user_turns (lines : list string) : Z :=
  Z.of_nat (length (List.filter (is_turn "user") lines)).

Definition assistant_turns (lines : list string) : Z :=
  Z.of_nat (length (List.filter (is_turn "assistant") lines)).

(** The capture cursor the state file holds for a session, if any. *)
Definition cursor (session_id : string) (w : world) : option json :=
  match capture_state w with
  | Holds (JObj d) => Json.dict_lookup session_id d
  | _ => None
  end.

(** The exchange number at which capture last fired for a session, read
    the way [handle_user_prompt_submit] reads it; 0 when there is none. *)
Definition last_capture_at (session_id : string) (w : world) : Z :=
  match Dyn.get (Hook.load_state w) session_id (JObj [("last_capture_at", JInt 0)]) with
  | Some session_state =>
      match Dyn.get session_state "last_capture_at" (JInt 0) with
      | Some v => default 0%Z (Hook.as_int v)
      | None => 0
      end
  | None => 0
  end.

(** The host calls the prompt-submitted hook once per user turn; each call
    finds the projects directory as it is at that moment. *)
Definition with_projects (p : option (list Fs.directory)) (w : world) : world :=
  {| projects := p; capture_state := capture_state w;
     state_writable := state_writable w; topic_files := topic_files w;
     topics_writable := topics_writable w; store := store w; time := time w;
     settings := settings w |}.

(** A periodic capture fired during a call when the session's cursor moved. *)
Definition fired (session_id : string) (before after : world) : bool :=
  negb (last_capture_at session_id after =? last_capture_at session_id before)%Z.

(** One call of the handler per snapshot of the projects directory, and
    for each call whether a capture fired. *)
Fixpoint prompts (interval : Z) (session_id : string)
    (snapshots : list (option (list Fs.directory))) (w : world) : list bool :=
  match snapshots with
  | [] => []
  | snapshot :: later =>
      let w1 := with_projects snapshot w in
      let w2 := final (Hook.handle_user_prompt_submit_every interval session_id w1) in
      fired session_id w1 w2 :: prompts interval session_id later w2
  end.

(** The state file is a dict in which the session has no cursor ([n] is
    0), or the cursor the hook writes, at [n]. *)
Definition cursor_at (sid : string) (w : world) (n : Z) : Prop :=
  exists d, Hook.load_state w = JObj d /\
            ((Json.dict_lookup sid d = None /\ n = 0%Z) \/
             Json.dict_lookup sid d = Some (JObj [("last_capture_at", JInt n)])).

(** What [prompts] keeps true from call to call, after [i] user turns with
    interval [K]: both of the hook's files can be written, and the cursor is
    at the last multiple of [K]. *)
Definition in_step (K : Z) (sid : string) (i : nat) (w : world) : Prop :=
  state_writable w = true /\ topics_writable w = true /\
  cursor_at sid w (K * (Z.of_nat i / K)).

(** Snapshot [j] shows the transcript after [i + j + 1] user turns, and a
    topic can be extracted whenever that number is a multiple of [K]. *)
Definition one_turn_each (K : Z) (sid : string) (i : nat)
    (snaps : list (list Fs.directory)) : Prop :=
  forall j dirs, snaps !! j = Some dirs ->
    exists p, Fs.find_in dirs sid = Some p /\
              Topic.get_exchange_count (Some p) = Z.of_nat (S (i + j)) /\
              ((Z.of_nat (S (i + j)) mod K = 0)%Z ->
               Hook.usable (Topic.extract_topic (Topic.extract_recent_user_messages p 3))
               <> None).

(** The text of a line after its first ["message":] key contains one of
    the two markers [get_exchange_count] looks for. *)
Definition body_marked (line : string) : bool :=
  match Py.partition (Py.jl "'message':") line with
  | Some (_, body) => Topic.counts_as_user body
  | None => false
  end.

(* ===================================================================== *)
(** ** Predicates on statements and transactions *)
(* ===================================================================== *)

(** A computation that leaves the committed database and the fault
    schedule alone, and moves the transaction's view along [R]. *)
Definition respects (R : db -> db -> Prop) {A : Type} (m : Sql.exec A) : Prop :=
  forall c r c',
    m c = (r, c') ->
    Sql.committed c' = Sql.committed c /\ Sql.faults c' = Sql.faults c /\
    R (Sql.current c) (Sql.current c').

(** [m] does to the transaction's view what the partial function [f] does. *)
Definition refines (m : Sql.exec unit) (f : db -> option db) : Prop :=
  forall c c', m c = (Some tt, c') -> f (Sql.current c) = Some (Sql.current c').

(** Every statement of steps 2 and 3 for the session [sid], when it
    succeeds, moves the database along [R]. *)
Definition frame23 (R : db -> db -> Prop) (sid : string) : Prop :=
  (forall d d', Sql.delete_tools sid d = Some d' -> R d d') /\
  (forall n z d d', Sql.insert_tool sid n z d = Some d' -> R d d') /\
  (forall d d', Sql.delete_agents sid d = Some d' -> R d d') /\
  (forall n z d d', Sql.insert_agent sid n z d = Some d' -> R d d') /\
  (forall d d', Sql.delete_content sid d = Some d' -> R d d') /\
  (forall t d d', Sql.insert_content sid t d = Some d' -> R d d').

(** ... and so does the insertion of a topic row. *)
Definition frame4 (R : db -> db -> Prop) (sid : string) : Prop :=
  forall a b e s d d', Sql.insert_topic sid a b e s d = Some d' -> R d d'.

Definition same_sessions (d d' : db) : Prop := sessions d' = sessions d.

Definition topics_grow (d d' : db) : Prop :=
  session_topics d `prefix_of` session_topics d'.

Definition same_topics (d d' : db) : Prop := session_topics d' = session_topics d.

(** The count of a triple stays, or goes from zero to one. *)
Definition suppressed (sid text source : string) (d d' : db) : Prop :=
  triple_count sid text source d' = triple_count sid text source d \/
  (triple_count sid text source d = 0 /\ triple_count sid text source d' = 1).

Definition same_rows (sid0 : string) (d d' : db) : Prop := rows_of sid0 d' = rows_of sid0 d.

Definition same_schema (d d' : db) : Prop := has_schema d' = has_schema d.

(** Every file of the walk that carries the session's name has the
    fingerprint [h]. *)
Definition all_unchanged (sid : string) (h : digest) (paths : list Fs.path) : Prop :=
  forall q, In q paths -> Fs.stem q = sid ->
            exists g, Fs.target q = Some g /\ Indexer._file_hash g = h.

(** The session is stored with the fingerprint [h], and no transaction is open. *)
Definition stored (sid : string) (h : digest) (c : Sql.conn) : Prop :=
  Sql.pending c = None /\ Sql.select_file_hash sid (Sql.committed c) = Some h.

Definition keeps_schema (f : db -> option db) : Prop :=
  forall d d', f d = Some d' -> has_schema d' = has_schema d.

(** On a working connection [m] succeeds whenever [f] does. *)
Definition complete (m : Sql.exec unit) (f : db -> option db) : Prop :=
  forall c d', working c -> f (Sql.current c) = Some d' ->
    exists c', m c = (Some tt, c') /\ Sql.current c' = d' /\
               Sql.committed c' = Sql.committed c /\ Sql.faults c' = Sql.faults c.

(** No stored row of the session clashes with a name still to insert. *)
Definition no_clash (sid : string) (rows : list usage_row) (l : list (json * Z)) : Prop :=
  forall u x, In u rows -> u_session_id u = sid -> In x l ->
              Sql.sql_eq (u_name u) (fst x) = false.

(* ===================================================================== *)
(** ** Concrete transcripts, stores and worlds *)
(* ===================================================================== *)

Module Examples.

Definition cfg : config :=
  {| clients := []; project_name_map := []; projects_root := "/home/u/.claude/projects" |}.

Definition two (n : Z) : string :=
  (if (n <? 10)%Z then "0" else "") +:+ Py.str_of_Z n.

(** A clock that reads one second later at every call. *)
Definition wall : clock :=
  {| elapsed := 0; isoformat_at := fun n => "2025-03-01T00:00:" +:+ two (Z.of_nat n) |}.

(** A newly connected index on which no statement fails, and one on which
    every statement fails. *)
Definition fresh : Sql.conn :=
  Store.connect {| Sql.committed := Sql.empty; Sql.pending := None;
                   Sql.executed := 0; Sql.faults := fun _ => false |}.

Definition broken : Sql.conn :=
  {| Sql.committed := Sql.empty; Sql.pending := None;
     Sql.executed := 0; Sql.faults := fun _ => true |}.

(** Transcript lines, each ending in a newline. *)
Definition line (text : string) : string := Py.jl text +:+ String Py.newline "".

Definition user_line (n : Z) : string :=
  line ("{'type':'user','timestamp':'2025-01-15T10:" +:+ two n
        +:+ ":00.000Z','message':{'role':'user','content':'Question number "
        +:+ Py.str_of_Z n +:+ " about parsers'}}").

Definition assistant_line : string :=
  line "{'type':'assistant','timestamp':'2025-01-15T10:59:00.000Z','message':{'model':'claude-x','content':[{'type':'text','text':'An answer'},{'type':'tool_use','name':'Read','input':{}}]}}".

(** A user turn too short to give a topic. *)
Definition noise_line : string :=
  line "{'type':'user','message':{'role':'user','content':'ok'}}".

(** A user turn whose message body holds a block of type [user]. *)
Definition nested_user_line : string :=
  line "{'type':'user','message':{'content':[{'type':'user'}]}}".

(** A progress record that carries a user message of a sub-agent. *)
Definition progress_line : string :=
  line "{'type':'progress','data':{'message':{'type':'user','content':'inner'}}}".

Definition transcript (lines : list string) (size : Z) (mtime : string) : Fs.file :=
  {| Fs.content := Some lines; Fs.st_size := size; Fs.st_mtime := mtime |}.

Definition twelve_turns : list string :=
  map user_line [1; 2; 3; 4; 5; 6; 7; 8; 9; 10; 11; 12]%Z.

(** A valid transcript with 12 user turns, and a corrupt file. *)
Definition valid : Fs.file := transcript (twelve_turns ++ [assistant_line]) 2600 "1700000000.5".

Definition garbage : list string := ["garbage"; "{not json"; "<html>"].

Definition corrupt : Fs.file := transcript garbage 24 "1700000001.5".

Definition in_project (fs : list (string * Fs.file)) : Fs.directory :=
  {| Fs.dir_name := "-home-u-proj"; Fs.is_dir := true; Fs.files := fs |}.

Definition project : Fs.directory := in_project [("aaa", valid); ("bbb", corrupt)].

Definition at_ (d : Fs.directory) (sid : string) (f : Fs.file) : Fs.path :=
  {| Fs.parent := Fs.dir_name d; Fs.stem := sid; Fs.target := Some f |}.

(** Two parses of the session [aaa], the second after the transcript grew. *)
Definition first_parse : session_data :=
  {| d_session_id := "aaa"; d_project := "-home-u-proj"; d_project_name := "u proj";
     d_title := JStr "Parsers"; d_title_display := JStr "Parsers"; d_tags := JNull;
     d_client := JNull; d_file_path := "/home/u/.claude/projects/-home-u-proj/aaa.jsonl";
     d_file_size := 1200; d_exchange_count := 4;
     d_start_time := JStr "2025-01-15T10:01:00.000Z";
     d_end_time := JStr "2025-01-15T10:04:00.000Z";
     d_duration_minutes := Some 3%Z; d_model := JStr "claude-x";
     d_has_compaction := false; d_file_hash := md5 "1200:1700000000.5";
     d_tools := [(JStr "Read", 1%Z)]; d_agents := [];
     d_fts_content := "Question number 1 about parsers";
     d_topics := [] |}.

Definition second_parse : session_data :=
  {| d_session_id := "aaa"; d_project := "-home-u-other"; d_project_name := "u other";
     d_title := JStr "Parsers and lexers"; d_title_display := JStr "Parsers and lexers";
     d_tags := JStr "[grammar]"; d_client := JStr "Acme";
     d_file_path := "/home/u/.claude/projects/-home-u-other/aaa.jsonl";
     d_file_size := 2600; d_exchange_count := 13;
     d_start_time := JStr "2025-01-15T10:02:00.000Z";
     d_end_time := JStr "2025-01-15T10:59:00.000Z";
     d_duration_minutes := Some 57%Z; d_model := JStr "claude-y";
     d_has_compaction := true; d_file_hash := md5 "2600:1700000002.5";
     d_tools := [(JStr "Read", 2%Z); (JStr "Edit", 1%Z)]; d_agents := [];
     d_fts_content := "Question number 1 about parsers";
     d_topics := [] |}.

(** The hook's world: a session [s1] under the projects directory, the state
    file holding [state], and an index that works. *)
Definition world_of (lines : list string) (state : state_file) : world :=
  {| projects := Some [in_project [("s1", transcript lines 100 "1700000003.5")]];
     capture_state := state; state_writable := true;
     topic_files := ∅; topics_writable := true;
     store := fresh; time := wall; settings := cfg |}.

Definition cursor_at_10 : state_file :=
  Holds (JObj [("s1", JObj [("last_capture_at", JInt 10)])]).

(** One user turn and one assistant turn. *)
Definition short_session : list string := [user_line 1; assistant_line].

(** The session-topics directory cannot be written. *)
Definition topics_locked (w : world) : world :=
  {| projects := projects w; capture_state := capture_state w;
     state_writable := state_writable w; topic_files := topic_files w;
     topics_writable := false; store := store w; time := time w;
     settings := settings w |}.

(** The state file's directory cannot be written. *)
Definition state_locked (w : world) : world :=
  {| projects := projects w; capture_state := capture_state w;
     state_writable := false; topic_files := topic_files w;
     topics_writable := topics_writable w; store := store w; time := time w;
     settings := settings w |}.

(** The database fails at every statement. *)
Definition store_broken (w : world) : world := Hook.with_store broken (time w) w.

Definition hook_call (event : string) : invocation :=
  {| stdin_session_id := "s1"; env_session_id := None; argv := [event];
     env_hook_event := None |}.

(** The projects directory as the hook finds it after each of the first
    [n] turns of [lines]. *)
Definition after_each_turn (lines : list string) (n : nat) : list (list Fs.directory) :=
  map (fun i => [in_project [("s1", transcript (firstn i lines) 100 "1700000003.5")]])
      (List.seq 1 n).

(** Ten turns of noise and then a question. *)
Definition noise_then_question : list string :=
  repeat noise_line 10 ++ [user_line 11].

End Examples.

(* ===================================================================== *)
(** ** Further observations *)
(* ===================================================================== *)

(** A message that [extract_recent_user_messages] keeps: at least 15
    characters, and no skip pattern matches it. *)
Definition substantive (m : string) : Prop :=
  (15 <= Py.len m)%Z /\ existsb (fun skip => skip m) Topic.SKIP_RE = false.

(** An entry of the first pass of [extract_exchanges] that is a user turn. *)
Definition is_user (e : entry) : bool := String.eqb (e_type e) "user".

(** The timestamp of a line that is a record with one: what [if timestamp:]
    lets through. *)
Definition timestamp_of (line : string) : option json :=
  match Json.loads line with
  | Some (JObj d) =>
      let timestamp := default JNull (Json.dict_lookup "timestamp" d) in
      if Dyn.truthy timestamp then Some timestamp else None
  | _ => None
  end.

Definition timestamps_of (lines : list string) : list json := omap timestamp_of lines.

(** The first line of a prompt as [_pick_title_from_prompts] reads it, and
    the title made of it. *)
Definition title_line (prompt : string) : string :=
  Py.strip (Py.first_line (Py.strip prompt)).

Definition shortened (first_line : string) : string :=
  if (80 <? Py.len first_line)%Z then Py.take 77 first_line +:+ "..." else first_line.

Definition title_candidate (first_line : string) : bool :=
  (10 <? Py.len first_line)%Z
  && negb (existsb (fun p => Py.startswith p first_line) Indexer._SKIP_TITLE_PREFIXES).

(** The three locals of [_parse_session] that only the time stamps and the
    summary records set, and what one line does to them. *)
Definition span (a : Parser.locals) : json * json * bool :=
  (Parser.start_time a, Parser.end_time a, Parser.has_compaction a).

Definition span_step (line : string) (s : json * json * bool) : json * json * bool :=
  let '(first, last, compacted) := s in
  (match timestamp_of line with
   | Some t => match first with JNull => t | _ => first end
   | None => first
   end,
   default last (timestamp_of line),
   compacted || is_turn "summary" line).

(** The row of [session_tools] or [session_agents] that the upsert writes
    for one counter of the parsed record. *)
Definition usage_row_of (sid : string) (counter : json * Z) : usage_row :=
  {| u_session_id := sid; u_name := fst counter; u_count := snd counter |}.

(** Tools, agents and content of the database are those of another. *)
Definition same_usage (d d' : db) : Prop :=
  session_tools d' = session_tools d /\ session_agents d' = session_agents d
  /\ session_content d' = session_content d.

(** The state file gives the handlers a cursor they can read: there is no
    state, or it is a dict in which the session has no entry or an entry that
    is a dict whose [last_capture_at], if present, is an integer. *)
Definition readable_cursor (session_id : string) (w : world) : bool :=
  match Hook.load_state w with
  | JObj d =>
      match Json.dict_lookup session_id d with
      | None => true
      | Some (JObj e) =>
          match Json.dict_lookup "last_capture_at" e with
          | None => true
          | Some v => match Hook.as_int v with Some _ => true | None => false end
          end
      | Some _ => false
      end
  | _ => false
  end.

(** The world with another index in place of its own. *)
Definition with_index (c : Sql.conn) (w : world) : world := Hook.with_store c (time w) w.

(* ===================================================================== *)
(** ** config.py: resolving the configuration *)
(* ===================================================================== *)

Module Config.

Import Dyn.

(** What [get_config] reads: the three default paths under the home
    directory as [str(Path.home() / ...)] gives them, the config file
    [~/.session-index/config.json] (absent, unreadable or not JSON, or
    holding a JSON value), and the environment. *)
Record surroundings : Type := {
  default_projects_dir : string;
  default_db_path : string;
  default_topics_dir : string;
  config_file : state_file;
  environ : string -> option string;
}.

Definition DEFAULTS (e : surroundings) : list (string * json) :=
  [("projects_dir", JStr (default_projects_dir e));
   ("db_path", JStr (default_db_path e));
   ("topics_dir", JStr (default_topics_dir e));
   ("clients", JArr []);
   ("project_names", JObj [])].

(** [_load_config_file]: "Load config from ~/.session-index/config.json if
    it exists." *)
Definition _load_config_file (e : surroundings) : json :=
  match config_file e with
  | Holds v => v
  | Absent | Unreadable => JObj []
  end.

(** "Layer on config file": the body of the loop over [file_config.items()]. *)
Definition layer_item (config : list (string * json)) (item : string * json)
  : list (string * json) :=
  let '(key, value) := item in
  match Json.dict_lookup key config, value with
  | None, _ => config
  | Some _, JNull => config
  | Some _, _ => Json.dict_set key value config
  end.

Definition env_map : list (string * string) :=
  [("SESSION_INDEX_PROJECTS", "projects_dir");
   ("SESSION_INDEX_DB", "db_path");
   ("SESSION_INDEX_TOPICS", "topics_dir")].

(** "Layer on environment variables": the body of the loop over [env_map]. *)
Definition layer_env (environ : string -> option string) (config : list (string * json))
    (entry : string * string) : list (string * json) :=
  let '(env_key, config_key) := entry in
  match environ env_key with
  | Some val => if String.eqb val "" then config else Json.dict_set config_key (JStr val) config
  | None => config
  end.

(** [get_config]: "Resolve config from all sources. Result is cached after
    first call."  The second component is [_cached_config] after the call;
    [Raise] is the [AttributeError] of [.items()] on a config file that holds
    JSON other than an object. *)
Definition get_config (e : surroundings) (_cached_config : option (list (string * json)))
  : result (list (string * json)) * option (list (string * json)) :=
  match _cached_config with
  | Some config => (Return config, _cached_config)
  | None =>
      match _load_config_file e with
      | JObj file_config =>
          let config := fold_left layer_item file_config (DEFAULTS e) in
          let config := fold_left (layer_env (environ e)) env_map config in
          (Return config, Some config)
      | _ => (Raise, None)
      end
  end.

(** [get_clients]: [get_config().get("clients", [])] *)
Definition get_clients (e : surroundings) (_cached_config : option (list (string * json)))
  : result json * option (list (string * json)) :=
  match get_config e _cached_config with
  | (Return config, cache) =>
      (Return (default (JArr []) (Json.dict_lookup "clients" config)), cache)
  | (Raise, cache) => (Raise, cache)
  end.

End Config.

(** The value the config file gives a setting: its entry when there is one
    that is not [null], else the fallback. *)
Definition file_setting (key : string) (file_config : list (string * json)) (fallback : json)
  : json :=
  match Json.dict_lookup key file_config with
  | Some JNull | None => fallback
  | Some value => value
  end.

(** The value the environment gives a setting: the variable when it is set
    and not empty, else the fallback. *)
Definition env_setting (environ : string -> option string) (variable : string)
    (fallback : json) : json :=
  match environ variable with
  | Some val => if String.eqb val "" then fallback else JStr val
  | None => fallback
  end.

(** A configuration to resolve: a file that sets two paths and the
    clients, has a key that is no setting and a null; an environment that
    sets the database path and gives an empty topics directory. *)
Module Settings.

Definition file_config : list (string * json) :=
  [("projects_dir", JStr "/srv/projects");
   ("db_path", JStr "/srv/sessions.db");
   ("clients", JArr [JStr "Acme"]);
   ("colour", JStr "blue");
   ("topics_dir", JNull)].

Definition environ (name : string) : option string :=
  if String.eqb name "SESSION_INDEX_DB" then Some "/data/sessions.db"
  else if String.eqb name "SESSION_INDEX_TOPICS" then Some ""
  else None.

Definition example : Config.surroundings :=
  {| Config.default_projects_dir := "/home/u/.claude/projects";
     Config.default_db_path := "/home/u/.session-index/sessions.db";
     Config.default_topics_dir := "/home/u/.claude/session-topics";
     Config.config_file := Holds (JObj file_config);
     Config.environ := environ |}.

End Settings.

(** A content block that [_parse_session] counts as a tool use, and one
    that it counts as the call of an agent as well. *)
Definition is_tool_use (item : json) : bool :=
  match item with
  | JObj d => Dyn.str_eq (default JNull (Json.dict_lookup "type" d)) "tool_use"
  | _ => false
  end.

Definition is_agent_call (item : json) : bool :=
  match item with
  | JObj d =>
      Dyn.str_eq (default JNull (Json.dict_lookup "type" d)) "tool_use"
      && Dyn.str_eq (default (JStr "") (Json.dict_lookup "name" d)) "Task"
      && match default (JObj []) (Json.dict_lookup "input" d) with
         | JObj input => Dyn.truthy (default (JStr "") (Json.dict_lookup "subagent_type" input))
         | _ => false
         end
  | _ => false
  end.

(** The content blocks of a line that is an assistant record whose message
    content is a list. *)
Definition assistant_blocks (line : string) : list json :=
  match Json.loads line with
  | Some (JObj d) =>
      if Dyn.str_eq (default JNull (Json.dict_lookup "type" d)) "assistant" then
        match default (JObj []) (Json.dict_lookup "message" d) with
        | JObj m =>
            match default (JArr []) (Json.dict_lookup "content" m) with
            | JArr items => items
            | _ => []
            end
        | _ => []
        end
      else []
  | _ => []
  end.

(** The sum of the counters of a [tools] or [agents] dict. *)
Definition total_count (counters : list (json * Z)) : Z :=
  fold_right (fun counter n => (snd counter + n)%Z) 0%Z counters.

(** How many elements of the lists pass the test. *)
Definition count_in (test : json -> bool) (blocks : list (list json)) : Z :=
  Z.of_nat (length (List.filter test (concat blocks))).

(** The two dicts of counters among the locals of [_parse_session]. *)
Definition usage (a : Parser.locals) : list (json * Z) * list (json * Z) :=
  (Parser.tools a, Parser.agents a).

(** The custom title a line sets: the [customTitle] of a record of type
    [custom-title], the empty string when it has none. *)
Definition custom_title_of (line : string) : option json :=
  match Json.loads line with
  | Some (JObj d) =>
      if Dyn.str_eq (default JNull (Json.dict_lookup "type" d)) "custom-title"
      then Some (default (JStr "") (Json.dict_lookup "customTitle" d))
      else None
  | _ => None
  end.

(* ===================================================================== *)
(** ** Reasoning about statements run on a connection *)
(* ===================================================================== *)

Section Respects.

Import Sql Store.

(** [R] relates the database a transaction sees before and after a
    statement that succeeded. *)
Variable R : db -> db -> Prop.
Hypothesis R_refl : forall d, R d d.
Hypothesis R_trans : forall d1 d2 d3, R d1 d2 -> R d2 d3 -> R d1 d3.


Lemma respects_ret {A : Type} (a : A) : respects R (ret a).
Proof. intros c r c' H. inversion H; subst. auto. Qed.

Lemma respects_execute (stmt : db -> option db) :
  (forall d d', stmt d = Some d' -> R d d') -> respects R (execute stmt).
Proof.
  intros Hs c r c' H. unfold execute in H.
  destruct (faults c (executed c) || negb (has_schema (current c))).
  - inversion H; subst; simpl. unfold current at 2. simpl. auto.
  - destruct (stmt (current c)) as [p|] eqn:E; inversion H; subst; simpl;
      unfold current at 2; simpl; auto.
Qed.

Lemma respects_query {A : Type} (q : db -> option A) : respects R (query q).
Proof.
  intros c r c' H. unfold query in H.
  destruct (faults c (executed c) || negb (has_schema (current c)));
    inversion H; subst; simpl; unfold current; simpl; auto.
Qed.

Lemma respects_seq {A B : Type} (m : exec A) (k : A -> exec B) :
  respects R m -> (forall a, respects R (k a)) -> respects R (seq m k).
Proof.
  intros Hm Hk c r c' H. unfold seq in H.
  destruct (m c) as [[a|] c1] eqn:E.
  - destruct (Hm _ _ _ E) as (H1 & H2 & H3).
    destruct (Hk a _ _ _ H) as (H4 & H5 & H6).
    repeat split; [congruence | congruence | eauto].
  - inversion H; subst. exact (Hm _ _ _ E).
Qed.

Lemma respects_for_each {A : Type} (l : list A) (body : A -> exec unit) :
  (forall x, respects R (body x)) -> respects R (for_each l body).
Proof.
  intros Hb. induction l as [|x l IH]; simpl.
  - apply respects_ret.
  - apply respects_seq; auto.
Qed.

End Respects.

(* ===================================================================== *)
(** ** The upsert against its four steps *)
(* ===================================================================== *)

Section Refinement.

Import Sql Store.


Lemma refines_ret : refines (ret tt) Some.
Proof. intros c c' H. inversion H; subst. reflexivity. Qed.

Lemma refines_execute (stmt : db -> option db) : refines (execute stmt) stmt.
Proof.
  intros c c' H. unfold execute in H.
  destruct (faults c (executed c) || negb (has_schema (current c))); [discriminate|].
  destruct (stmt (current c)) as [p|] eqn:E; [|discriminate].
  inversion H; subst. reflexivity.
Qed.

Lemma refines_seq (m1 m2 : exec unit) (f1 f2 : db -> option db) :
  refines m1 f1 -> refines m2 f2 ->
  refines (seq m1 (fun _ => m2)) (fun d => d' ← f1 d; f2 d').
Proof.
  intros H1 H2 c c' H. unfold seq in H.
  destruct (m1 c) as [[[]|] c1] eqn:E; [|discriminate].
  rewrite (H1 _ _ E). simpl. eauto.
Qed.

Lemma refines_ext (m : exec unit) (f g : db -> option db) :
  (forall d, f d = g d) -> refines m f -> refines m g.
Proof. intros E H c c' Hm. rewrite <- E. eauto. Qed.

Lemma refines_insert_each (ins : json -> Z -> db -> option db) (l : list (json * Z)) :
  refines (for_each l (fun x => execute (ins (fst x) (snd x)))) (Steps.insert_each ins l).
Proof.
  induction l as [|[name count] l IH]; simpl.
  - apply refines_ret.
  - apply (refines_seq _ _ (ins name count)); [apply refines_execute | exact IH].
Qed.

Lemma refines_add_topic_if_new (sid : string) (t : topic_entry) :
  refines (add_topic_if_new sid t) (Steps.topic_step sid t).
Proof.
  intros c c' H. unfold add_topic_if_new, seq in H.
  destruct (query _ c) as [[existing|] c1] eqn:E; [|discriminate].
  unfold query in E.
  destruct (faults c (executed c) || negb (has_schema (current c))); [discriminate|].
  inversion E as [[E1 E2]]. clear E.
  unfold Steps.topic_step. rewrite E1. simpl.
  assert (Hc : current c1 = current c) by (subst c1; reflexivity).
  destruct existing as [id|].
  - inversion H; subst c'. congruence.
  - rewrite <- Hc. apply refines_execute. exact H.
Qed.

Lemma refines_add_topics (data : session_data) :
  refines (add_topics data) (Steps.topics_step data).
Proof.
  unfold add_topics, Steps.topics_step.
  induction (d_topics data) as [|t l IH]; simpl.
  - apply refines_ret.
  - apply (refines_seq _ _ (Steps.topic_step (d_session_id data) t));
      [apply refines_add_topic_if_new | exact IH].
Qed.

Lemma refines_upsert_tools (data : session_data) :
  refines (upsert_tools data)
    (fun d => d1 ← delete_tools (d_session_id data) d;
              Steps.insert_each (insert_tool (d_session_id data)) (d_tools data) d1).
Proof.
  apply (refines_seq _ _ (delete_tools _)); [apply refines_execute|].
  apply refines_insert_each.
Qed.

Lemma refines_upsert_agents (data : session_data) :
  refines (upsert_agents data)
    (fun d => d1 ← delete_agents (d_session_id data) d;
              Steps.insert_each (insert_agent (d_session_id data)) (d_agents data) d1).
Proof.
  apply (refines_seq _ _ (delete_agents _)); [apply refines_execute|].
  apply refines_insert_each.
Qed.

Lemma refines_upsert_content (data : session_data) :
  refines (upsert_content data) (Steps.content_step data).
Proof.
  unfold upsert_content, Steps.content_step.
  apply (refines_seq _ _ (delete_content _)
           (fun d1 => if String.eqb (d_fts_content data) "" then Some d1
                      else insert_content (d_session_id data) (d_fts_content data) d1));
    [apply refines_execute|].
  destruct (String.eqb (d_fts_content data) ""); [apply refines_ret | apply refines_execute].
Qed.

Lemma refines_upsert_body (t : string) (data : session_data) :
  refines (upsert_body t data) (Steps.all_four t data).
Proof.
  unfold upsert_body.
  eapply refines_ext; [| apply refines_seq; [apply refines_execute |
    apply refines_seq; [apply refines_upsert_tools |
    apply refines_seq; [apply refines_upsert_agents |
    apply refines_seq; [apply refines_upsert_content | apply refines_add_topics]]]]].
  intros d. unfold Steps.all_four, Steps.session_step, Steps.usage_step.
  destruct (insert_session t data d) as [d1|]; simpl; [|reflexivity].
  destruct (Steps.insert_each (insert_tool _) _ _) as [d2|]; simpl; reflexivity.
Qed.

(** Nothing before the commit touches the committed database. *)
Lemma upsert_body_respects (R : db -> db -> Prop) (t : string) (data : session_data) :
  (forall d, R d d) -> (forall a b c, R a b -> R b c -> R a c) ->
  (forall d d', insert_session t data d = Some d' -> R d d') ->
  (forall stmt, In stmt
     [delete_tools (d_session_id data); delete_agents (d_session_id data);
      delete_content (d_session_id data);
      insert_content (d_session_id data) (d_fts_content data)] ->
     forall d d', stmt d = Some d' -> R d d') ->
  (forall n z d d', insert_tool (d_session_id data) n z d = Some d' -> R d d') ->
  (forall n z d d', insert_agent (d_session_id data) n z d = Some d' -> R d d') ->
  (forall a b e s d d', insert_topic (d_session_id data) a b e s d = Some d' -> R d d') ->
  respects R (upsert_body t data).
Proof.
  intros Hrefl Htrans H1 Hs Ht Ha Hp.
  assert (Hseq : forall (A B : Type) (m : exec A) (k : A -> exec B),
             respects R m -> (forall a, respects R (k a)) -> respects R (seq m k))
    by (intros; apply respects_seq; assumption).
  assert (Hexe : forall stmt, (forall d d', stmt d = Some d' -> R d d') ->
             respects R (execute stmt))
    by (intros; apply respects_execute; assumption).
  assert (Hfor : forall (A : Type) (l : list A) (body : A -> exec unit),
             (forall x, respects R (body x)) -> respects R (for_each l body))
    by (intros; apply respects_for_each; assumption).
  assert (Hsimple : forall stmt, In stmt
     [delete_tools (d_session_id data); delete_agents (d_session_id data);
      delete_content (d_session_id data);
      insert_content (d_session_id data) (d_fts_content data)] ->
      respects R (execute stmt))
    by (intros stmt Hin; apply Hexe; apply Hs; exact Hin).
  unfold upsert_body, upsert_tools, upsert_agents, upsert_content, add_topics.
  apply Hseq; [apply Hexe; exact H1 | intros _].
  apply Hseq; [| intros _].
  { apply Hseq; [apply Hsimple; simpl; tauto | intros _].
    apply Hfor. intros x. apply Hexe. apply Ht. }
  apply Hseq; [| intros _].
  { apply Hseq; [apply Hsimple; simpl; tauto | intros _].
    apply Hfor. intros x. apply Hexe. apply Ha. }
  apply Hseq; [| intros _].
  { apply Hseq; [apply Hsimple; simpl; tauto | intros _].
    destruct (String.eqb (d_fts_content data) "").
    - apply respects_ret; assumption.
    - apply Hsimple; simpl; tauto. }
  apply Hfor. intros x. unfold add_topic_if_new.
  apply Hseq; [apply respects_query; assumption |].
  intros [id|]; [apply respects_ret; assumption | apply Hexe; apply Hp].
Qed.

End Refinement.

Section Atomicity.

Import Sql Store.

Lemma upsert_body_keeps_committed (t : string) (data : session_data) (c c' : conn) r :
  upsert_body t data c = (r, c') -> committed c' = committed c /\ faults c' = faults c.
Proof.
  intros H.
  destruct (upsert_body_respects (fun _ _ => True) t data) with (c := c) (r := r) (c' := c')
    as (H1 & H2 & _); auto.
Qed.

(** What [upsert_statements] leaves behind, by outcome. *)
Lemma upsert_statements_outcome (t : string) (data : session_data) (c c' : conn) r :
  upsert_statements t data c = (r, c') ->
  faults c' = faults c /\
  match r with
  | Some _ =>
      pending c' = None /\ Steps.all_four t data (current c) = Some (committed c')
  | None => committed c' = committed c
  end.
Proof.
  unfold upsert_statements, seq. intros H.
  destruct (upsert_body t data c) as [[[]|] c1] eqn:B.
  - destruct (upsert_body_keeps_committed _ _ _ _ _ B) as [Hc Hf].
    pose proof (refines_upsert_body t data _ _ B) as Hr.
    unfold commit in H. destruct (faults c1 (executed c1)); inversion H; subst; simpl.
    + split; [exact Hf | exact Hc].
    + split; [exact Hf |]. split; [reflexivity | exact Hr].
  - inversion H; subst. destruct (upsert_body_keeps_committed _ _ _ _ _ B) as [Hc Hf].
    split; assumption.
Qed.

End Atomicity.

(** The two ways [_upsert_session] ends. *)
Lemma upsert_session_cases (data : session_data) (k : clock) (c : Sql.conn) :
  match Store._upsert_session data k c with
  | (true, _, c') =>
      Sql.pending c' = None /\
      exists d1 d2 d3,
        Steps.session_step (fst (now k)) data (Sql.current c) = Some d1 /\
        Steps.usage_step data d1 = Some d2 /\
        Steps.content_step data d2 = Some d3 /\
        Steps.topics_step data d3 = Some (Sql.committed c')
  | (false, _, c') =>
      Sql.pending c' = None /\ Sql.committed c' = Sql.committed c
  end.
Proof.
  unfold Store._upsert_session. destruct (now k) as [t k1] eqn:Hnow. simpl.
  destruct (Store.upsert_statements t data c) as [[[]|] c1] eqn:E.
  - destruct (upsert_statements_outcome _ _ _ _ _ E) as [_ [Hp Hall]].
    split; [exact Hp|].
    unfold Steps.all_four in Hall.
    destruct (Steps.session_step t data (Sql.current c)) as [d1|] eqn:E1; [|discriminate].
    simpl in Hall.
    destruct (Steps.usage_step data d1) as [d2|] eqn:E2; [|discriminate]. simpl in Hall.
    destruct (Steps.content_step data d2) as [d3|] eqn:E3; [|discriminate]. simpl in Hall.
    exists d1, d2, d3. auto.
  - destruct (upsert_statements_outcome _ _ _ _ _ E) as [_ Hc].
    split; [reflexivity | exact Hc].
Qed.

(** C5. The per-session upsert is atomic: when [_upsert_session] returns
    [True], the four steps (session row, tool and agent rows, content
    document, topic candidates) have all been applied, in order, to the
    database the connection read, and the result is what is committed; when it
    returns [False] (some statement raised), the committed database is the one
    from before the call.  Either way no transaction is left open.  And a file
    that a batch run reports as an error has left the committed database as it
    was. *)
Theorem upsert_all_or_nothing (data : session_data) (k : clock) (c : Sql.conn) :
  match Store._upsert_session data k c with
  | (true, _, c') =>
      Sql.pending c' = None /\
      exists d1 d2 d3,
        Steps.session_step (fst (now k)) data (Sql.current c) = Some d1 /\
        Steps.usage_step data d1 = Some d2 /\
        Steps.content_step data d2 = Some d3 /\
        Steps.topics_step data d3 = Some (Sql.committed c')
  | (false, _, c') =>
      Sql.pending c' = None /\ Sql.committed c' = Sql.committed c
  end /\
  forall (cfg : config) (p : Fs.path),
    match Store.visit cfg p k c with
    | (Dyn.Return Store.Failed, _, c') => Sql.committed c' = Sql.committed c
    | _ => True
    end.
Proof.
  split; [apply upsert_session_cases|].
  intros cfg p. unfold Store.visit.
  destruct (Fs.target p) as [f|]; [|exact I].
  unfold Sql.query.
  destruct (Sql.faults c (Sql.executed c) || negb (has_schema (Sql.current c))); [exact I|].
  set (c1 := {| Sql.committed := Sql.committed c; Sql.pending := Sql.pending c;
                Sql.executed := S (Sql.executed c); Sql.faults := Sql.faults c |}).
  destruct (match Sql.select_file_hash (Fs.stem p) (Sql.current c) with
            | Some h => digest_eqb h (Indexer._file_hash f)
            | None => false
            end); [exact I|].
  destruct (Indexer._parse_session cfg p k) as [[[d|]|] k1]; [|reflexivity|exact I].
  pose proof (upsert_session_cases d k1 c1) as Hat.
  destruct (Store._upsert_session d k1 c1) as [[[] k2] c2]; [exact I|].
  exact (proj2 Hat).
Qed.

(* ===================================================================== *)
(** ** What the statements of an upsert leave alone *)
(* ===================================================================== *)

Section Frames.

Import Sql.

Variable R : db -> db -> Prop.
Variable sid : string.



Hypothesis R_refl : forall d, R d d.
Hypothesis R_trans : forall d1 d2 d3, R d1 d2 -> R d2 d3 -> R d1 d3.

Lemma insert_each_frame (ins : json -> Z -> db -> option db) (l : list (json * Z)) :
  (forall n z d d', ins n z d = Some d' -> R d d') ->
  forall d d', Steps.insert_each ins l d = Some d' -> R d d'.
Proof.
  intros Hins. induction l as [|[n z] l IH]; simpl; intros d d' H.
  - inversion H; subst. apply R_refl.
  - destruct (ins n z d) as [d1|] eqn:E; [|discriminate]. simpl in H.
    eapply R_trans; [eapply Hins; exact E | eapply IH; exact H].
Qed.

Lemma usage_step_frame (data : session_data) (d d' : db) :
  frame23 R sid -> d_session_id data = sid -> Steps.usage_step data d = Some d' -> R d d'.
Proof.
  intros (H1 & H2 & H3 & H4 & H5 & H6) Hsid H.
  unfold Steps.usage_step in H. rewrite Hsid in H. simpl in H.
  destruct (Steps.insert_each _ _ _) as [d2|] eqn:E2 in H; [|discriminate]. simpl in H.
  eapply R_trans; [eapply (H1 d); reflexivity|].
  eapply R_trans; [eapply insert_each_frame; [exact H2 | exact E2]|].
  eapply R_trans; [eapply (H3 d2); reflexivity|].
  eapply insert_each_frame; [exact H4 | exact H].
Qed.

Lemma content_step_frame (data : session_data) (d d' : db) :
  frame23 R sid -> d_session_id data = sid -> Steps.content_step data d = Some d' -> R d d'.
Proof.
  intros (H1 & H2 & H3 & H4 & H5 & H6) Hsid H.
  unfold Steps.content_step in H. rewrite Hsid in H. simpl in H.
  eapply R_trans; [eapply (H5 d); reflexivity|].
  destruct (String.eqb (d_fts_content data) "").
  - inversion H; subst. apply R_refl.
  - eapply H6; exact H.
Qed.

Lemma topic_step_frame (t : topic_entry) (d d' : db) :
  frame4 R sid -> Steps.topic_step sid t d = Some d' -> R d d'.
Proof.
  intros H7. unfold Steps.topic_step. intros H.
  destruct (select_topic _ _ _ d) as [[id|]|]; simpl in H; try discriminate.
  - inversion H; subst. apply R_refl.
  - eapply H7; exact H.
Qed.

Lemma topics_step_frame (data : session_data) (d d' : db) :
  frame4 R sid -> d_session_id data = sid -> Steps.topics_step data d = Some d' -> R d d'.
Proof.
  intros H7 Hsid. unfold Steps.topics_step. rewrite Hsid. revert d.
  induction (d_topics data) as [|t l IH]; simpl; intros d H.
  - inversion H; subst. apply R_refl.
  - destruct (Steps.topic_step _ t d) as [d1|] eqn:E; [|discriminate]. simpl in H.
    eapply R_trans; [eapply topic_step_frame; [exact H7 | exact E] | eapply IH; exact H].
Qed.

(** Steps 2 to 4 together. *)
Lemma late_steps_frame (data : session_data) (d1 d2 d3 d4 : db) :
  frame23 R sid -> frame4 R sid ->
  d_session_id data = sid ->
  Steps.usage_step data d1 = Some d2 ->
  Steps.content_step data d2 = Some d3 ->
  Steps.topics_step data d3 = Some d4 ->
  R d1 d4.
Proof.
  intros F23 F4 Hs H2 H3 H4.
  eapply R_trans; [eapply usage_step_frame; eassumption|].
  eapply R_trans; [eapply content_step_frame; eassumption|].
  eapply topics_step_frame; eassumption.
Qed.

End Frames.

Ltac frame_cases :=
  repeat match goal with
         | H : (if ?b then _ else _) = Some _ |- _ => destruct b; [|discriminate]
         | H : Some _ = Some _ |- _ => inversion H; subst; clear H
         end.

Section SessionsFrame.

Import Sql.


Lemma frame23_same_sessions (sid : string) : frame23 same_sessions sid.
Proof.
  unfold frame23, same_sessions, delete_tools, insert_tool, delete_agents, insert_agent,
    delete_content, insert_content.
  repeat split; intros; frame_cases; reflexivity.
Qed.

Lemma frame4_same_sessions (sid : string) : frame4 same_sessions sid.
Proof.
  unfold frame4, same_sessions, insert_topic. intros; frame_cases; reflexivity.
Qed.

End SessionsFrame.

(** The session row a successful upsert leaves. *)
Lemma upsert_row (data : session_data) (k k' : clock) (c c' : Sql.conn) :
  Store._upsert_session data k c = (true, k', c') ->
  sessions (Sql.committed c') !! d_session_id data =
    Some (let new := Sql.inserted_row (fst (now k)) data in
          match sessions (Sql.current c) !! d_session_id data with
          | Some old => Sql.updated_row old new
          | None => new
          end).
Proof.
  intros Hup.
  pose proof (upsert_session_cases data k c) as Hat. rewrite Hup in Hat.
  destruct Hat as [_ (d1 & d2 & d3 & H1 & H2 & H3 & H4)].
  assert (Hs : sessions (Sql.committed c') = sessions d1).
  { apply (late_steps_frame same_sessions (d_session_id data)) with (data := data)
      (d2 := d2) (d3 := d3); auto.
    - intros d. reflexivity.
    - unfold same_sessions. congruence.
    - apply frame23_same_sessions.
    - apply frame4_same_sessions. }
  unfold Steps.session_step, Sql.insert_session in H1.
  destruct (forallb _ _); [|discriminate]. inversion H1; subst d1; clear H1.
  rewrite Hs. simpl. apply lookup_insert_eq.
Qed.

(** C1 (as amended). For a session already in the store, a successful
    re-run of the upsert overwrites the derived fields (title, display title,
    tags, client, size, exchange count, end time, duration, model, compacted
    flag, fingerprint, last-modified) with the new parse, sets [indexed_at]
    to the time of this upsert as well, and leaves project, project name, file
    path and start time as they were. *)
Theorem reupsert_overwrites_row (data : session_data) (k k' : clock) (c c' : Sql.conn)
    (old : session_row) :
  sessions (Sql.current c) !! d_session_id data = Some old ->
  Store._upsert_session data k c = (true, k', c') ->
  exists row,
    sessions (Sql.committed c') !! d_session_id data = Some row /\
    r_title row = d_title data /\
    r_title_display row = d_title_display data /\
    r_tags row = d_tags data /\
    r_client row = d_client data /\
    r_file_size row = d_file_size data /\
    r_exchange_count row = d_exchange_count data /\
    r_end_time row = d_end_time data /\
    r_duration_minutes row = d_duration_minutes data /\
    r_model row = d_model data /\
    r_has_compaction row = (if d_has_compaction data then 1 else 0)%Z /\
    r_file_hash row = d_file_hash data /\
    r_last_modified row = fst (now k) /\
    r_indexed_at row = fst (now k) /\
    r_project row = r_project old /\
    r_project_name row = r_project_name old /\
    r_file_path row = r_file_path old /\
    r_start_time row = r_start_time old.
Proof.
  intros Hold Hup.
  rewrite (upsert_row _ _ _ _ _ Hup), Hold.
  eexists. split; [reflexivity|]. simpl. repeat split; reflexivity.
Qed.

(** C1, the claim as it stands fails: the session [aaa] is stored at
    00:00:00 and upserted again one second later; the second upsert succeeds
    and the row's [indexed_at] reads 00:00:01. *)
Lemma reupsert_moves_indexed_at :
  let '(_, k1, c1) := Store._upsert_session Examples.first_parse Examples.wall Examples.fresh in
  let '(ok, _, c2) := Store._upsert_session Examples.second_parse k1 c1 in
  ok = true /\
  r_indexed_at <$> sessions (Sql.committed c1) !! "aaa" = Some "2025-03-01T00:00:00" /\
  r_indexed_at <$> sessions (Sql.committed c2) !! "aaa" = Some "2025-03-01T00:00:01".
Proof. vm_compute. repeat split; reflexivity. Qed.

(** C1 (as amended), on the same two upserts. *)
Lemma reupsert_overwrites_row_witness :
  let c1 := snd (Store._upsert_session Examples.first_parse Examples.wall Examples.fresh) in
  let k1 := snd (fst (Store._upsert_session Examples.first_parse Examples.wall Examples.fresh)) in
  let c2 := snd (Store._upsert_session Examples.second_parse k1 c1) in
  exists row,
    sessions (Sql.committed c2) !! "aaa" = Some row /\
    r_title row = JStr "Parsers and lexers" /\
    r_exchange_count row = 13%Z /\
    r_indexed_at row = "2025-03-01T00:00:01" /\
    r_project row = "-home-u-proj" /\
    r_start_time row = JStr "2025-01-15T10:01:00.000Z".
Proof.
  intros c1 k1 c2.
  destruct (reupsert_overwrites_row Examples.second_parse k1
              (snd (fst (Store._upsert_session Examples.second_parse k1 c1))) c1 c2
              (Sql.inserted_row "2025-03-01T00:00:00" Examples.first_parse))
    as (row & Hrow & Ht & _ & _ & _ & _ & Hx & _ & _ & _ & _ & _ & _ & Hi & Hp & _ & _ & Hs).
  - vm_compute. reflexivity.
  - vm_compute. reflexivity.
  - exists row. split; [exact Hrow|]. split; [exact Ht|]. split; [exact Hx|].
    split; [exact Hi|]. split; [exact Hp | exact Hs].
Defined.

(* ===================================================================== *)
(** ** Topic rows *)
(* ===================================================================== *)

Section Topics.

Import Sql.



Lemma frame23_same_topics (sid : string) : frame23 same_topics sid.
Proof.
  unfold frame23, same_topics, delete_tools, insert_tool, delete_agents, insert_agent,
    delete_content, insert_content.
  repeat split; intros; frame_cases; reflexivity.
Qed.

Lemma session_step_same_topics (t : string) (data : session_data) (d d' : db) :
  Steps.session_step t data d = Some d' -> session_topics d' = session_topics d.
Proof.
  unfold Steps.session_step, insert_session. intros H. frame_cases. reflexivity.
Qed.

Lemma insert_topic_appends (sid : string) (a b : json) (e : option Z) (s : string)
    (d d' : db) :
  insert_topic sid a b e s d = Some d' ->
  session_topics d' =
    session_topics d ++
    [{| t_id := (topic_seq d + 1)%Z; t_session_id := sid; t_topic := a;
        t_captured_at := b; t_exchange_number := e; t_source := s |}].
Proof. unfold insert_topic. intros H. frame_cases. reflexivity. Qed.

Lemma frame4_topics_grow (sid : string) : frame4 topics_grow sid.
Proof.
  intros a b e s d d' H. unfold topics_grow.
  rewrite (insert_topic_appends _ _ _ _ _ _ _ H). apply prefix_app_r. reflexivity.
Qed.


Lemma suppressed_refl sid text source d : suppressed sid text source d d.
Proof. left. reflexivity. Qed.

Lemma suppressed_trans sid text source d1 d2 d3 :
  suppressed sid text source d1 d2 -> suppressed sid text source d2 d3 ->
  suppressed sid text source d1 d3.
Proof. unfold suppressed. intros [H1|[H1 H1']] [H2|[H2 H2']]; lia. Qed.

Lemma suppressed_same_topics sid text source d d' :
  session_topics d' = session_topics d -> suppressed sid text source d d'.
Proof. intros H. left. unfold triple_count. rewrite H. reflexivity. Qed.

Lemma sql_eq_text (a : json) (text : string) :
  sql_eq a (JStr text) = true -> a = JStr text.
Proof.
  destruct a; simpl; try discriminate.
  intros H. apply String.eqb_eq in H. congruence.
Qed.

Lemma find_none_filter {A : Type} (p : A -> bool) (l : list A) :
  find p l = None -> List.filter p l = [].
Proof.
  induction l as [|x l IH]; simpl; [reflexivity|].
  destruct (p x); [discriminate | exact IH].
Qed.

Lemma topic_step_suppressed (sid0 text source sid : string) (t : topic_entry) (d d' : db) :
  Steps.topic_step sid t d = Some d' -> suppressed sid0 text source d d'.
Proof.
  unfold Steps.topic_step. intros H.
  destruct (select_topic sid (te_topic t) (te_source t) d) as [existing|] eqn:E;
    [|discriminate]. simpl in H.
  destruct existing as [id|].
  - inversion H; subst. apply suppressed_refl.
  - unfold select_topic in E. destruct (bindable (te_topic t)); [|discriminate].
    inversion E as [E']. clear E.
    destruct (find _ (session_topics d)) as [row|] eqn:F; [discriminate|].
    pose proof (insert_topic_appends _ _ _ _ _ _ _ H) as Happ.
    unfold suppressed, triple_count. rewrite Happ.
    rewrite List.filter_app, length_app. simpl.
    destruct (same_triple sid0 (JStr text) source _) eqn:M; simpl; [|left; lia].
    right. unfold same_triple in M. simpl in M.
    apply andb_true_iff in M as [M Ms]. apply andb_true_iff in M as [Mi Mt].
    apply String.eqb_eq in Mi, Ms. apply sql_eq_text in Mt. subst.
    rewrite Mt in F. rewrite (find_none_filter _ _ F). simpl. lia.
Qed.

Lemma topics_step_suppressed (sid0 text source : string) (data : session_data) (d d' : db) :
  Steps.topics_step data d = Some d' -> suppressed sid0 text source d d'.
Proof.
  unfold Steps.topics_step. revert d.
  induction (d_topics data) as [|t l IH]; simpl; intros d H.
  - inversion H; subst. apply suppressed_refl.
  - destruct (Steps.topic_step _ t d) as [d1|] eqn:E; [|discriminate]. simpl in H.
    eapply suppressed_trans; [eapply topic_step_suppressed; exact E | eapply IH; exact H].
Qed.

(** A successful upsert: no topic row is lost, and the count of any
    triple stays or goes from zero to one. *)
Lemma all_four_topics (t : string) (data : session_data) (d d' : db) :
  Steps.all_four t data d = Some d' ->
  topics_grow d d' /\ forall sid0 text source, suppressed sid0 text source d d'.
Proof.
  unfold Steps.all_four. intros H.
  destruct (Steps.session_step t data d) as [d1|] eqn:E1; [|discriminate]. simpl in H.
  destruct (Steps.usage_step data d1) as [d2|] eqn:E2; [|discriminate]. simpl in H.
  destruct (Steps.content_step data d2) as [d3|] eqn:E3; [|discriminate]. simpl in H.
  pose proof (session_step_same_topics _ _ _ _ E1) as S1.
  assert (S2 : session_topics d2 = session_topics d1).
  { apply (usage_step_frame same_topics (d_session_id data)) with (data := data); auto.
    - intros ?; reflexivity.
    - unfold same_topics; congruence.
    - apply frame23_same_topics. }
  assert (S3 : session_topics d3 = session_topics d2).
  { apply (content_step_frame same_topics (d_session_id data)) with (data := data); auto.
    - intros ?; reflexivity.
    - unfold same_topics; congruence.
    - apply frame23_same_topics. }
  assert (S : session_topics d3 = session_topics d) by congruence.
  split.
  - unfold topics_grow. rewrite <- S.
    apply (topics_step_frame topics_grow (d_session_id data)) with (data := data); auto.
    + intros ?; unfold topics_grow; reflexivity.
    + unfold topics_grow. intros ? ? ? ? ?. etrans; eassumption.
    + apply frame4_topics_grow.
  - intros sid0 text source.
    eapply suppressed_trans; [apply suppressed_same_topics; exact S|].
    eapply topics_step_suppressed; exact H.
Qed.

End Topics.

(** C2 (as amended). The indexer's upsert is additive on topics and
    suppresses exact duplicates: after a successful upsert every topic row
    that was stored is still stored, in place, and a
    (session, topic text, source) triple that already had rows has exactly as
    many as before; a failed upsert changes nothing.  The capture hook's
    write path does not suppress duplicates: whenever its insertion is
    committed, the triple has one more row than before, whether or not it was
    already stored; it deletes nothing either. *)
Theorem topics_additive_dedup_in_indexer_only :
  (forall (data : session_data) (k : clock) (c : Sql.conn),
     match Store._upsert_session data k c with
     | (true, _, c') =>
         session_topics (Sql.current c) `prefix_of` session_topics (Sql.committed c') /\
         forall sid text source,
           0 < triple_count sid text source (Sql.current c) ->
           triple_count sid text source (Sql.committed c')
           = triple_count sid text source (Sql.current c)
     | (false, _, c') => Sql.committed c' = Sql.committed c
     end) /\
  (forall (sid topic source : string) (n : Z) (w : world),
     let before := Sql.current (store w) in
     let after := Sql.committed (store (Hook.write_topic_db sid topic source n w)) in
     after = Sql.committed (store w) \/
     (session_topics before `prefix_of` session_topics after /\
      triple_count sid topic source after = S (triple_count sid topic source before))).
Proof.
  split.
  - intros data k c.
    pose proof (upsert_session_cases data k c) as Hat.
    destruct (Store._upsert_session data k c) as [[[] k'] c'].
    + destruct Hat as [_ (d1 & d2 & d3 & H1 & H2 & H3 & H4)].
      assert (Hall : Steps.all_four (fst (now k)) data (Sql.current c)
                     = Some (Sql.committed c')).
      { unfold Steps.all_four. rewrite H1. simpl. rewrite H2. simpl. rewrite H3. exact H4. }
      destruct (all_four_topics _ _ _ _ Hall) as [Hg Hs].
      split; [exact Hg|].
      intros sid text source Hpos.
      destruct (Hs sid text source) as [E|[E _]]; [exact E | lia].
    + exact (proj2 Hat).
  - intros sid topic source n w before after. subst before after.
    unfold Hook.write_topic_db. destruct (now (time w)) as [t k1].
    unfold Sql.seq, Sql.execute.
    destruct (Sql.faults (store w) (Sql.executed (store w))
              || negb (has_schema (Sql.current (store w)))); [left; reflexivity|].
    destruct (Sql.insert_topic sid (JStr topic) (JStr t) (Some n) source
                (Sql.current (store w))) as [p|] eqn:E; [|left; reflexivity].
    unfold Sql.commit. simpl.
    destruct (Sql.faults (store w) (S (Sql.executed (store w)))); [left; reflexivity|].
    right. simpl.
    change (Sql.current {| Sql.committed := Sql.committed (store w); Sql.pending := Some p;
                           Sql.executed := S (Sql.executed (store w));
                           Sql.faults := Sql.faults (store w) |}) with p.
    split; [unfold topics_grow; rewrite (insert_topic_appends _ _ _ _ _ _ _ E);
            apply prefix_app_r; reflexivity|].
    unfold triple_count. rewrite (insert_topic_appends _ _ _ _ _ _ _ E).
    rewrite List.filter_app, length_app. simpl.
    unfold Sql.same_triple at 2. simpl. rewrite !String.eqb_refl. simpl. lia.
Qed.

(** C2, the claim as it stands fails: the capture hook writes the same
    (session, topic text, source) triple twice, and the table holds two rows
    for it. *)
Lemma hook_write_duplicates_topic :
  let w := Examples.world_of [] Absent in
  let w1 := Hook.write_topic_db "s1" "Parsers" "hook_periodic" 10 w in
  let w2 := Hook.write_topic_db "s1" "Parsers" "hook_periodic" 10 w1 in
  triple_count "s1" "Parsers" "hook_periodic" (Sql.committed (store w1)) = 1 /\
  triple_count "s1" "Parsers" "hook_periodic" (Sql.committed (store w2)) = 2.
Proof. vm_compute. split; reflexivity. Qed.

(* ===================================================================== *)
(** ** The rows of one session *)
(* ===================================================================== *)

Section OtherSessions.

Import Sql Store.

Variable sid0 : string.


Lemma filter_filter_implied {A : Type} (p q : A -> bool) (l : list A) :
  (forall x, p x = true -> q x = true) ->
  List.filter p (List.filter q l) = List.filter p l.
Proof.
  intros H. induction l as [|x l IH]; simpl; [reflexivity|].
  destruct (q x) eqn:Q; simpl.
  - destruct (p x); [rewrite IH|]; auto.
  - destruct (p x) eqn:P; [rewrite (H _ P) in Q; discriminate | exact IH].
Qed.

Lemma eqb_other (a sid : string) :
  sid <> sid0 -> String.eqb a sid0 = true -> negb (String.eqb a sid) = true.
Proof.
  intros Hne H. apply String.eqb_eq in H. subst a.
  destruct (String.eqb sid0 sid) eqn:E; [|reflexivity].
  apply String.eqb_eq in E. congruence.
Qed.

Lemma eqb_ne (sid : string) : sid <> sid0 -> String.eqb sid sid0 = false.
Proof. intros H. apply String.eqb_neq. exact H. Qed.

Lemma frame23_same_rows (sid : string) : sid <> sid0 -> frame23 (same_rows sid0) sid.
Proof.
  intros Hne.
  unfold frame23, same_rows, rows_of, delete_tools, insert_tool, delete_agents,
    insert_agent, delete_content, insert_content.
  repeat split; intros; frame_cases; simpl; f_equal;
    rewrite ?List.filter_app; simpl; rewrite ?(eqb_ne _ Hne), ?app_nil_r;
    try reflexivity;
    apply filter_filter_implied; intros x Hx; unfold other_session;
    apply eqb_other; assumption.
Qed.

Lemma frame4_same_rows (sid : string) : sid <> sid0 -> frame4 (same_rows sid0) sid.
Proof.
  intros Hne a b e s d d' H. unfold same_rows, rows_of, insert_topic in *.
  frame_cases. simpl. f_equal.
  rewrite List.filter_app. simpl. rewrite (eqb_ne _ Hne), app_nil_r. reflexivity.
Qed.

Lemma session_step_same_rows (t : string) (data : session_data) (d d' : db) :
  d_session_id data <> sid0 -> Steps.session_step t data d = Some d' -> same_rows sid0 d d'.
Proof.
  intros Hne H. unfold Steps.session_step, insert_session in H. frame_cases.
  unfold same_rows, rows_of. simpl. f_equal. apply lookup_insert_ne. exact Hne.
Qed.

Lemma same_rows_trans (d1 d2 d3 : db) : same_rows sid0 d1 d2 -> same_rows sid0 d2 d3 -> same_rows sid0 d1 d3.
Proof. unfold same_rows. congruence. Qed.

(** An upsert of another session leaves the rows of [sid0] as they are. *)
Lemma upsert_other_session (data : session_data) (k k' : clock) (c c' : conn) (ok : bool) :
  d_session_id data <> sid0 ->
  pending c = None ->
  _upsert_session data k c = (ok, k', c') ->
  pending c' = None /\ rows_of sid0 (committed c') = rows_of sid0 (committed c).
Proof.
  intros Hne Hp Hup.
  pose proof (upsert_session_cases data k c) as Hat. rewrite Hup in Hat.
  assert (Hcur : current c = committed c) by (unfold current; rewrite Hp; reflexivity).
  destruct ok.
  - destruct Hat as [Hp' (d1 & d2 & d3 & H1 & H2 & H3 & H4)].
    split; [exact Hp'|]. rewrite Hcur in H1.
    eapply same_rows_trans; [eapply session_step_same_rows; eassumption|].
    apply (late_steps_frame (same_rows sid0) (d_session_id data)) with (data := data)
      (d2 := d2) (d3 := d3); auto.
    + intros ?; reflexivity.
    + apply same_rows_trans.
    + apply frame23_same_rows; exact Hne.
    + apply frame4_same_rows; exact Hne.
  - destruct Hat as [Hp' Hc]. split; [exact Hp'|]. rewrite Hc. reflexivity.
Qed.

End OtherSessions.

(* ===================================================================== *)
(** ** The batch modes on an unchanged transcript *)
(* ===================================================================== *)

Section Batch.

Import Sql Store Dyn.

Lemma parse_session_id (cfg : config) (p : Fs.path) (k k1 : clock) (data : session_data) :
  Indexer._parse_session cfg p k = (Return (Some data), k1) ->
  d_session_id data = Fs.stem p.
Proof.
  unfold Indexer._parse_session.
  destruct (Fs.target p) as [f|] eqn:T; [|discriminate].
  destruct (Fs.content f) as [lines|]; [|discriminate].
  destruct (Parser.parse_lines lines Parser.initial) as [a|]; [|discriminate].
  destruct (Indexer.finish cfg p a k) as [r k2] eqn:F.
  unfold Indexer.finish in F.
  destruct (Indexer.auto_title a) as [[ti td]|]; [|inversion F; subst; discriminate].
  destruct (Indexer.detect_client cfg (Fs.parent p) a) as [cl|];
    [|inversion F; subst; discriminate].
  destruct (Indexer.fts_content_of (Parser.user_prompts a)) as [fts|];
    [|inversion F; subst; discriminate].
  destruct (Indexer.topic_entries _ _ k) as [[tp|] k3];
    [|inversion F; subst; discriminate].
  rewrite T in F. inversion F; subst. simpl. intros H. inversion H; subst. reflexivity.
Qed.

Lemma digest_eqb_refl (h : digest) : digest_eqb h h = true.
Proof. destruct h. simpl. apply String.eqb_refl. Qed.

Lemma query_keeps {A : Type} (q : db -> option A) (c c' : conn) r :
  query q c = (r, c') ->
  committed c' = committed c /\ pending c' = pending c /\ faults c' = faults c /\
  (r = None \/ r = q (current c)).
Proof.
  unfold query. intros H.
  destruct (faults c (executed c) || negb (has_schema (current c)));
    inversion H; subst; simpl; auto.
Qed.

(** A file whose stored fingerprint is its current one: the loop body
    reads the fingerprint and does nothing else. *)
Lemma visit_unchanged (cfg : config) (p : Fs.path) (f : Fs.file) (k k' : clock)
    (c c' : conn) (r : result verdict) :
  Fs.target p = Some f ->
  select_file_hash (Fs.stem p) (current c) = Some (Indexer._file_hash f) ->
  visit cfg p k c = (r, k', c') ->
  k' = k /\ committed c' = committed c /\ pending c' = pending c /\
  (r = Return Unchanged \/ r = Raise).
Proof.
  intros T Hh H. unfold visit in H. rewrite T in H.
  destruct (query _ c) as [[existing|] c1] eqn:Q.
  - destruct (query_keeps _ _ _ _ Q) as (Hc & Hp & _ & [Hr|Hr]); [discriminate|].
    inversion Hr as [Hr']. rewrite Hh in Hr'. subst existing.
    rewrite digest_eqb_refl in H. inversion H; subst. auto.
  - destruct (query_keeps _ _ _ _ Q) as (Hc & Hp & _ & _).
    inversion H; subst. auto.
Qed.

(** A file of another session: whatever the loop body does, the rows of
    [sid0] stay. *)
Lemma visit_other (sid0 : string) (cfg : config) (p : Fs.path) (k k' : clock)
    (c c' : conn) (r : result verdict) :
  Fs.stem p <> sid0 ->
  pending c = None ->
  visit cfg p k c = (r, k', c') ->
  pending c' = None /\ rows_of sid0 (committed c') = rows_of sid0 (committed c).
Proof.
  intros Hne Hp H. unfold visit in H.
  destruct (Fs.target p) as [f|]; [|inversion H; subst; auto].
  destruct (query _ c) as [[existing|] c1] eqn:Q;
    destruct (query_keeps _ _ _ _ Q) as (Hc & Hp1 & _ & _);
    [|inversion H; subst; rewrite Hp1, Hc; auto].
  destruct (match existing with Some h => _ | None => false end);
    [inversion H; subst; rewrite Hp1, Hc; auto|].
  destruct (Indexer._parse_session cfg p k) as [[[data|]|] k1] eqn:P;
    try (inversion H; subst; rewrite Hp1, Hc; auto; fail).
  destruct (_upsert_session data k1 c1) as [[ok k2] c2] eqn:U.
  inversion H; subst.
  rewrite <- Hc. eapply upsert_other_session; [|congruence|exact U].
  rewrite (parse_session_id _ _ _ _ _ P). exact Hne.
Qed.

Variable cfg : config.
Variable sid : string.
Variable h : digest.



Lemma stored_rows (c c' : conn) :
  stored sid h c -> pending c' = None ->
  rows_of sid (committed c') = rows_of sid (committed c) -> stored sid h c'.
Proof.
  intros [Hp Hh] Hp' Hr. split; [exact Hp'|].
  unfold select_file_hash in *. 
  change (sessions (committed c') !! sid) with (v_row (rows_of sid (committed c'))).
  rewrite Hr. exact Hh.
Qed.

Lemma visit_step (p : Fs.path) (paths : list Fs.path) (k k' : clock) (c c' : conn)
    (r : result verdict) :
  all_unchanged sid h (p :: paths) -> stored sid h c ->
  visit cfg p k c = (r, k', c') ->
  stored sid h c' /\ rows_of sid (committed c') = rows_of sid (committed c) /\
  (Fs.stem p = sid -> r = Return Unchanged \/ r = Raise).
Proof.
  intros Hall Hst H.
  destruct (String.eqb (Fs.stem p) sid) eqn:E.
  - apply String.eqb_eq in E.
    destruct (Hall p (or_introl eq_refl) E) as (g & Tg & Hg).
    destruct Hst as [Hp Hh].
    destruct (visit_unchanged cfg p g k k' c c' r Tg) as (_ & Hc & Hp' & Hr); auto.
    { unfold current. rewrite Hp. simpl. rewrite E, Hg. exact Hh. }
    split; [split; [congruence | rewrite Hc; exact Hh]|].
    split; [rewrite Hc; reflexivity | intros _; exact Hr].
  - apply String.eqb_neq in E.
    destruct (visit_other sid cfg p k k' c c' r E (proj1 Hst) H) as [Hp' Hr].
    split; [eapply stored_rows; eassumption|].
    split; [exact Hr | intros; contradiction].
Qed.

Lemma backfill_loop_unchanged (paths : list Fs.path) (s : backfill_stats) (k : clock)
    (c : conn) :
  all_unchanged sid h paths -> stored sid h c ->
  match backfill_loop cfg paths s k c with
  | (r, _, c') =>
      rows_of sid (committed c') = rows_of sid (committed c) /\
      match r with
      | Return s' =>
          (skipped s <= skipped s')%Z /\
          ((exists q, In q paths /\ Fs.stem q = sid) -> (skipped s + 1 <= skipped s')%Z)
      | Raise => True
      end
  end.
Proof.
  revert s k c. induction paths as [|p paths IH]; intros s k c Hall Hst; simpl.
  - split; [reflexivity|]. split; [lia|]. intros (q & [] & _).
  - destruct (visit cfg p k c) as [[r k1] c1] eqn:V.
    destruct (visit_step _ _ _ _ _ _ _ Hall Hst V) as (Hst1 & Hr1 & Hv).
    destruct r as [v|]; [|split; [exact Hr1 | exact I]].
    assert (Hall' : all_unchanged sid h paths).
    { intros q Hq. apply Hall. right. exact Hq. }
    specialize (IH (count_backfill v s) k1 c1 Hall' Hst1).
    destruct (backfill_loop cfg paths (count_backfill v s) k1 c1) as [[r' k2] c2].
    destruct IH as [Hr2 Hs]. split; [congruence|].
    destruct r' as [s'|]; [|exact I].
    destruct Hs as [Hmono Hplus].
    assert (Hv0 : (skipped s <= skipped (count_backfill v s))%Z)
      by (destruct v; simpl; lia).
    split; [lia|].
    intros (q & [Hq|Hq] & Hsq).
    + subst q. destruct (Hv Hsq) as [Hu|Hu]; [|discriminate].
      inversion Hu; subst v. simpl in *. lia.
    + assert ((skipped (count_backfill v s) + 1 <= skipped s')%Z)
        by (apply Hplus; eauto). lia.
Qed.

Lemma incremental_loop_unchanged (paths : list Fs.path) (s : incremental_stats)
    (k : clock) (c : conn) :
  all_unchanged sid h paths -> stored sid h c ->
  match incremental_loop cfg paths s k c with
  | (r, _, c') =>
      rows_of sid (committed c') = rows_of sid (committed c) /\
      match r with
      | Return s' =>
          (unchanged s <= unchanged s')%Z /\
          ((exists q, In q paths /\ Fs.stem q = sid) -> (unchanged s + 1 <= unchanged s')%Z)
      | Raise => True
      end
  end.
Proof.
  revert s k c. induction paths as [|p paths IH]; intros s k c Hall Hst; simpl.
  - split; [reflexivity|]. split; [lia|]. intros (q & [] & _).
  - destruct (visit cfg p k c) as [[r k1] c1] eqn:V.
    destruct (visit_step _ _ _ _ _ _ _ Hall Hst V) as (Hst1 & Hr1 & Hv).
    destruct r as [v|]; [|split; [exact Hr1 | exact I]].
    assert (Hall' : all_unchanged sid h paths).
    { intros q Hq. apply Hall. right. exact Hq. }
    specialize (IH (count_incremental v (check_one s)) k1 c1 Hall' Hst1).
    destruct (incremental_loop cfg paths _ k1 c1) as [[r' k2] c2].
    destruct IH as [Hr2 Hs]. split; [congruence|].
    destruct r' as [s'|]; [|exact I].
    destruct Hs as [Hmono Hplus].
    assert (Hv0 : (unchanged s <= unchanged (count_incremental v (check_one s)))%Z)
      by (destruct v; simpl; lia).
    split; [lia|].
    intros (q & [Hq|Hq] & Hsq).
    + subst q. destruct (Hv Hsq) as [Hu|Hu]; [|discriminate].
      inversion Hu; subst v. simpl in *. lia.
    + assert ((unchanged (count_incremental v (check_one s)) + 1 <= unchanged s')%Z)
        by (apply Hplus; eauto). lia.
Qed.

End Batch.

(** C8. Indexing is idempotent with respect to the fingerprint.  For a
    transcript whose stored fingerprint equals the one computed from its
    current size and modification time: the loop body of either batch mode
    reads the fingerprint and stops there (verdict "unchanged", clock and
    database untouched; or the SELECT itself raises); and a whole run of
    [backfill_all] or [index_incremental] leaves every stored row of that
    session as it was and, when it returns, has counted the file as
    skipped/unchanged. *)
Theorem unchanged_transcript_is_skipped (cfg : config) (dirs : list Fs.directory)
    (p : Fs.path) (h : digest) (k : clock) (c : Sql.conn) :
  In p (Store.session_files dirs) ->
  Sql.pending c = None ->
  Sql.select_file_hash (Fs.stem p) (Sql.committed c) = Some h ->
  (forall q, In q (Store.session_files dirs) -> Fs.stem q = Fs.stem p ->
             exists g, Fs.target q = Some g /\ Indexer._file_hash g = h) ->
  match Store.visit cfg p k c with
  | (r, k', c') =>
      k' = k /\ Sql.committed c' = Sql.committed c /\ Sql.pending c' = Sql.pending c /\
      (r = Dyn.Return Store.Unchanged \/ r = Dyn.Raise)
  end /\
  match Store.backfill_all cfg (Some dirs) k c with
  | (r, _, c') =>
      rows_of (Fs.stem p) (Sql.committed c') = rows_of (Fs.stem p) (Sql.committed c) /\
      match r with
      | Dyn.Return s => (1 <= skipped s)%Z
      | Dyn.Raise => True
      end
  end /\
  match Store.index_incremental cfg (Some dirs) k c with
  | (r, _, c') =>
      rows_of (Fs.stem p) (Sql.committed c') = rows_of (Fs.stem p) (Sql.committed c) /\
      match r with
      | Dyn.Return s => (1 <= unchanged s)%Z
      | Dyn.Raise => True
      end
  end.
Proof.
  intros Hin Hp Hh Hall.
  split; [|split].
  - destruct (Hall p Hin eq_refl) as (g & Tg & Hg).
    destruct (Store.visit cfg p k c) as [[r k'] c'] eqn:V.
    eapply visit_unchanged; [exact Tg | | exact V].
    unfold Sql.current. rewrite Hp. simpl. rewrite Hg. exact Hh.
  - unfold Store.backfill_all.
    pose proof (backfill_loop_unchanged cfg (Fs.stem p) h (Store.session_files dirs)
                  {| total := Z.of_nat (length (Store.session_files dirs));
                     indexed := 0; skipped := 0; errors := 0 |} k c Hall
                  (conj Hp Hh)) as H.
    destruct (Store.backfill_loop _ _ _ _ _) as [[r k'] c'].
    destruct H as [Hr Hs]. split; [exact Hr|].
    destruct r as [s|]; [|exact I].
    destruct Hs as [_ Hs]. simpl in Hs. apply Hs. eauto.
  - unfold Store.index_incremental.
    pose proof (incremental_loop_unchanged cfg (Fs.stem p) h (Store.session_files dirs)
                  {| checked := 0; i_indexed := 0; unchanged := 0; i_errors := 0 |}
                  k c Hall (conj Hp Hh)) as H.
    destruct (Store.incremental_loop _ _ _ _ _) as [[r k'] c'].
    destruct H as [Hr Hs]. split; [exact Hr|].
    destruct r as [s|]; [|exact I].
    destruct Hs as [_ Hs]. simpl in Hs. apply Hs. eauto.
Qed.

(** C8, on the directory of the valid and the corrupt file after a first
    backfill: a second backfill and an incremental run leave the rows of
    [aaa] as they were and count it as skipped. *)
Lemma unchanged_transcript_is_skipped_witness :
  let c := snd (Store.backfill_all Examples.cfg (Some [Examples.project])
                  Examples.wall Examples.fresh) in
  match Store.backfill_all Examples.cfg (Some [Examples.project]) Examples.wall c with
  | (r, _, c') =>
      rows_of (Fs.stem (Examples.at_ Examples.project "aaa" Examples.valid)) (Sql.committed c')
      = rows_of (Fs.stem (Examples.at_ Examples.project "aaa" Examples.valid)) (Sql.committed c) /\
      match r with
      | Dyn.Return s => (1 <= skipped s)%Z
      | Dyn.Raise => True
      end
  end.
Proof.
  intros c.
  assert (H1 : In (Examples.at_ Examples.project "aaa" Examples.valid)
                  (Store.session_files [Examples.project])).
  { left. reflexivity. }
  assert (H2 : Sql.pending c = None).
  { vm_compute. reflexivity. }
  assert (H3 : Sql.select_file_hash
                 (Fs.stem (Examples.at_ Examples.project "aaa" Examples.valid))
                 (Sql.committed c) = Some (Indexer._file_hash Examples.valid)).
  { vm_compute. reflexivity. }
  assert (H4 : forall q, In q (Store.session_files [Examples.project]) ->
                 Fs.stem q = Fs.stem (Examples.at_ Examples.project "aaa" Examples.valid) ->
                 exists g, Fs.target q = Some g /\
                           Indexer._file_hash g = Indexer._file_hash Examples.valid).
  { intros q [<-|[<-|[]]] Hs.
    - eexists. split; reflexivity.
    - discriminate. }
  pose proof (unchanged_transcript_is_skipped Examples.cfg [Examples.project]
                (Examples.at_ Examples.project "aaa" Examples.valid)
                (Indexer._file_hash Examples.valid) Examples.wall c H1 H2 H3 H4) as H.
  destruct H as (_ & H & _). exact H.
Defined.

(* ===================================================================== *)
(** ** When an upsert succeeds *)
(* ===================================================================== *)

Section Success.

Import Sql Store.



Lemma complete_ret : complete (ret tt) Some.
Proof. intros c d' _ H. inversion H; subst. exists c. auto. Qed.

Lemma complete_execute (stmt : db -> option db) : complete (execute stmt) stmt.
Proof.
  intros c d' [Hf Hs] H. unfold execute. rewrite Hf, Hs, H. simpl.
  eexists. split; [reflexivity|]. auto.
Qed.

Lemma complete_seq (m1 m2 : exec unit) (f1 f2 : db -> option db) :
  keeps_schema f1 -> complete m1 f1 -> complete m2 f2 ->
  complete (seq m1 (fun _ => m2)) (fun d => d' ← f1 d; f2 d').
Proof.
  intros K H1 H2 c d' Hw H.
  destruct (f1 (current c)) as [d1|] eqn:E1; [|discriminate]. simpl in H.
  destruct (H1 c d1 Hw E1) as (c1 & M1 & C1 & Cc1 & Cf1).
  assert (Hw1 : working c1).
  { destruct Hw as [Hf Hs]. split; [intros n; rewrite Cf1; apply Hf|].
    rewrite C1, (K _ _ E1). exact Hs. }
  rewrite <- C1 in H.
  destruct (H2 c1 d' Hw1 H) as (c2 & M2 & C2 & Cc2 & Cf2).
  exists c2. unfold seq. rewrite M1. split; [exact M2|].
  repeat split; congruence.
Qed.

Lemma complete_ext (m : exec unit) (f g : db -> option db) :
  (forall d, f d = g d) -> complete m f -> complete m g.
Proof. intros E H c d' Hw Hg. apply H; [exact Hw | rewrite E; exact Hg]. Qed.


Lemma frame23_same_schema (sid : string) : frame23 same_schema sid.
Proof.
  unfold frame23, same_schema, delete_tools, insert_tool, delete_agents, insert_agent,
    delete_content, insert_content.
  repeat split; intros; frame_cases; reflexivity.
Qed.

Lemma frame4_same_schema (sid : string) : frame4 same_schema sid.
Proof. unfold frame4, same_schema, insert_topic. intros; frame_cases; reflexivity. Qed.

Lemma keeps_insert_each (ins : json -> Z -> db -> option db) (l : list (json * Z)) :
  (forall n z, keeps_schema (ins n z)) -> keeps_schema (Steps.insert_each ins l).
Proof.
  intros H d d' E.
  apply (insert_each_frame same_schema) with (ins := ins) (l := l); auto.
  - intros ?; reflexivity.
  - unfold same_schema; congruence.
Qed.

Lemma complete_insert_each (ins : json -> Z -> db -> option db) (l : list (json * Z)) :
  (forall n z, keeps_schema (ins n z)) ->
  complete (for_each l (fun x => execute (ins (fst x) (snd x)))) (Steps.insert_each ins l).
Proof.
  intros K. induction l as [|[name count] l IH]; simpl.
  - apply complete_ret.
  - apply (complete_seq _ _ (ins name count)); [apply K | apply complete_execute | exact IH].
Qed.

Lemma keeps_topic_step (sid : string) (t : topic_entry) :
  keeps_schema (Steps.topic_step sid t).
Proof.
  intros d d' H.
  eapply (topic_step_frame same_schema sid);
    [intros ?; reflexivity | apply frame4_same_schema | exact H].
Qed.

Lemma complete_add_topic_if_new (sid : string) (t : topic_entry) :
  complete (add_topic_if_new sid t) (Steps.topic_step sid t).
Proof.
  intros c d' Hw H. unfold Steps.topic_step in H.
  destruct (select_topic sid (te_topic t) (te_source t) (current c)) as [existing|] eqn:E;
    [|discriminate]. simpl in H.
  unfold add_topic_if_new, seq, query.
  destruct Hw as [Hf Hs]. rewrite Hf, Hs, E. simpl.
  destruct existing as [id|].
  - inversion H; subst. eexists. split; [reflexivity|]. auto.
  - set (c1 := {| committed := committed c; pending := pending c;
                  executed := S (executed c); faults := faults c |}).
    destruct (complete_execute
                (insert_topic sid (te_topic t) (te_captured_at t)
                   (te_exchange_number t) (te_source t)) c1 d')
      as (c2 & M & C2 & Cc & Cf);
      [split; [exact Hf | exact Hs] | exact H |].
    exists c2. auto.
Qed.

Lemma complete_add_topics (data : session_data) :
  complete (add_topics data) (Steps.topics_step data).
Proof.
  unfold add_topics, Steps.topics_step.
  induction (d_topics data) as [|t l IH]; simpl.
  - apply complete_ret.
  - apply (complete_seq _ _ (Steps.topic_step (d_session_id data) t));
      [apply keeps_topic_step | apply complete_add_topic_if_new | exact IH].
Qed.

Ltac keeps_stmt :=
  let d := fresh in let d' := fresh in let H := fresh in
  intros d d' H; cbv beta zeta delta [delete_tools delete_agents delete_content insert_tool
                                 insert_agent insert_content insert_session] in H;
  frame_cases; reflexivity.

Lemma complete_upsert_body (t : string) (data : session_data) :
  complete (upsert_body t data) (Steps.all_four t data).
Proof.
  unfold upsert_body, upsert_tools, upsert_agents, upsert_content.
  eapply complete_ext;
    [| apply complete_seq; [| apply complete_execute |
       apply complete_seq; [| apply complete_seq;
                                [| apply complete_execute | apply complete_insert_each] |
       apply complete_seq; [| apply complete_seq;
                                [| apply complete_execute | apply complete_insert_each] |
       apply (complete_seq _ _ (Steps.content_step data));
         [| apply (complete_seq _ _ (delete_content (d_session_id data))
                     (fun d1 => if String.eqb (d_fts_content data) "" then Some d1
                                else insert_content (d_session_id data)
                                       (d_fts_content data) d1));
            [| apply complete_execute |
             destruct (String.eqb (d_fts_content data) "");
               [apply complete_ret | apply complete_execute]]
          | apply complete_add_topics]]]]].
  - intros d. unfold Steps.all_four, Steps.session_step, Steps.usage_step.
    destruct (insert_session t data d) as [d1|]; simpl; [|reflexivity].
    destruct (Steps.insert_each (insert_tool _) _ _) as [d2|]; simpl; reflexivity.
  - keeps_stmt.
  - intros d d' H. simpl in H.
    apply (keeps_insert_each (insert_tool (d_session_id data)) (d_tools data)) in H;
      [exact H | intros n z; keeps_stmt].
  - keeps_stmt.
  - intros n z; keeps_stmt.
  - intros d d' H. simpl in H.
    apply (keeps_insert_each (insert_agent (d_session_id data)) (d_agents data)) in H;
      [exact H | intros n z; keeps_stmt].
  - keeps_stmt.
  - intros n z; keeps_stmt.
  - intros d d' H.
    apply (content_step_frame same_schema (d_session_id data)) with (data := data); auto.
    + intros ?; reflexivity.
    + unfold same_schema; congruence.
    + apply frame23_same_schema.
  - keeps_stmt.
Qed.

End Success.

Section Storable.

Import Sql Store.

Lemma existsb_false {A : Type} (p : A -> bool) (l : list A) :
  (forall x, In x l -> p x = false) -> existsb p l = false.
Proof.
  induction l as [|x l IH]; simpl; intros H; [reflexivity|].
  rewrite (H x (or_introl eq_refl)). simpl. apply IH. intros y Hy. apply H. right. exact Hy.
Qed.


Lemma usage_ok_head (sid : string) (rows : list usage_row) (n : json) (z : Z)
    (l : list (json * Z)) :
  names_ok ((n, z) :: l) = true -> no_clash sid rows ((n, z) :: l) ->
  usage_ok sid n rows = true /\
  names_ok l = true /\
  no_clash sid (rows ++ [{| u_session_id := sid; u_name := n; u_count := z |}]) l.
Proof.
  simpl. intros Hn Hc.
  apply andb_true_iff in Hn as [Hn Hl]. apply andb_true_iff in Hn as [Hn Hd].
  apply andb_true_iff in Hn as [Hb Hnn].
  split; [|split; [exact Hl|]].
  - unfold usage_ok. rewrite Hb, Hnn. simpl.
    rewrite existsb_false; [reflexivity|].
    intros u Hu. destruct (String.eqb (u_session_id u) sid) eqn:E; [|reflexivity].
    apply String.eqb_eq in E. simpl. apply (Hc u (n, z)); auto. left. reflexivity.
  - intros u x Hu Hs Hx. apply in_app_or in Hu as [Hu|[<-|[]]].
    + apply (Hc u x); auto. right. exact Hx.
    + simpl. rewrite forallb_forall in Hd. specialize (Hd x Hx).
      apply negb_true_iff in Hd. exact Hd.
Qed.

Lemma insert_tools_ok (sid : string) (l : list (json * Z)) (d : db) :
  names_ok l = true -> no_clash sid (session_tools d) l ->
  exists d', Steps.insert_each (insert_tool sid) l d = Some d'.
Proof.
  revert d. induction l as [|[n z] l IH]; intros d Hn Hc; [simpl; eauto|].
  destruct (usage_ok_head sid (session_tools d) n z l Hn Hc) as (Hu & Hl & Hc').
  assert (E : insert_tool sid n z d
              = Some (with_tools (session_tools d ++ [{| u_session_id := sid; u_name := n;
                                                   u_count := z |}]) d))
    by (unfold insert_tool; rewrite Hu; reflexivity).
  cbn [Steps.insert_each]. rewrite E.
  cbn [mbind option_bind]. apply IH; [exact Hl | exact Hc'].
Qed.

Lemma insert_agents_ok (sid : string) (l : list (json * Z)) (d : db) :
  names_ok l = true -> no_clash sid (session_agents d) l ->
  exists d', Steps.insert_each (insert_agent sid) l d = Some d'.
Proof.
  revert d. induction l as [|[n z] l IH]; intros d Hn Hc; [simpl; eauto|].
  destruct (usage_ok_head sid (session_agents d) n z l Hn Hc) as (Hu & Hl & Hc').
  assert (E : insert_agent sid n z d
              = Some (with_agents (session_agents d ++ [{| u_session_id := sid; u_name := n;
                                                   u_count := z |}]) d))
    by (unfold insert_agent; rewrite Hu; reflexivity).
  cbn [Steps.insert_each]. rewrite E.
  cbn [mbind option_bind]. apply IH; [exact Hl | exact Hc'].
Qed.

Lemma no_clash_after_delete (sid : string) (rows : list usage_row) (l : list (json * Z)) :
  no_clash sid (List.filter (other_session sid) rows) l.
Proof.
  intros u x Hu Hs Hx. apply filter_In in Hu as [_ Hu].
  unfold other_session in Hu. rewrite Hs, String.eqb_refl in Hu. discriminate.
Qed.

Lemma usage_step_ok (data : session_data) (d : db) :
  names_ok (d_tools data) = true -> names_ok (d_agents data) = true ->
  exists d', Steps.usage_step data d = Some d'.
Proof.
  intros Ht Ha. unfold Steps.usage_step. simpl.
  destruct (insert_tools_ok (d_session_id data) (d_tools data)
              (with_tools (List.filter (other_session (d_session_id data))
                             (session_tools d)) d) Ht) as [d2 E2].
  { simpl. apply no_clash_after_delete. }
  rewrite E2. simpl.
  apply insert_agents_ok; [exact Ha|]. simpl. apply no_clash_after_delete.
Qed.

Lemma topic_steps_ok (sid : string) (l : list topic_entry) (d : db) :
  forallb topic_ok l = true -> exists d', Steps.topic_steps sid l d = Some d'.
Proof.
  revert d. induction l as [|t l IH]; simpl; intros d H; [eauto|].
  apply andb_true_iff in H as [Ht Hl].
  unfold topic_ok in Ht.
  apply andb_true_iff in Ht as [Ht H4]. apply andb_true_iff in Ht as [Ht H3].
  apply andb_true_iff in Ht as [H1 H2].
  unfold Steps.topic_step, select_topic. rewrite H1. simpl.
  destruct (find _ (session_topics d)); simpl; [apply IH; exact Hl|].
  unfold insert_topic. rewrite H1, H2, H3, H4. simpl. apply IH. exact Hl.
Qed.

(** On any database, the four steps of storable data all succeed. *)
Lemma all_four_ok (t : string) (data : session_data) (d : db) :
  storable data = true -> exists d', Steps.all_four t data d = Some d'.
Proof.
  unfold storable. intros H.
  apply andb_true_iff in H as [H Hp]. apply andb_true_iff in H as [H Ha].
  apply andb_true_iff in H as [Hb Ht].
  unfold Steps.all_four, Steps.session_step, insert_session. rewrite Hb. simpl.
  match goal with |- context [Steps.usage_step data ?x] =>
    destruct (usage_step_ok data x Ht Ha) as [d2 E2] end.
  rewrite E2. simpl.
  unfold Steps.content_step at 1. simpl.
  destruct (String.eqb (d_fts_content data) ""); simpl;
    apply topic_steps_ok; exact Hp.
Qed.

(** Storable data is stored by [_upsert_session] on a working connection. *)
Lemma upsert_storable (data : session_data) (k : clock) (c : conn) :
  working c -> storable data = true ->
  exists c', _upsert_session data k c = (true, snd (now k), c') /\
             working c' /\ pending c' = None.
Proof.
  intros Hw Hs. unfold _upsert_session. destruct (now k) as [t k1]. simpl.
  destruct (all_four_ok t data (current c) Hs) as [d4 E4].
  destruct (complete_upsert_body t data c d4 Hw E4) as (c1 & M & C1 & Cc & Cf).
  unfold upsert_statements, seq. rewrite M. unfold commit.
  destruct Hw as [Hf Hsch]. rewrite Cf, Hf.
  eexists. split; [reflexivity|]. split; [|reflexivity].
  split; [exact Hf|]. unfold current. simpl. fold (current c1). rewrite C1.
  pose proof (refines_upsert_body t data c c1 M) as Hr.
  (* has_schema is kept by the four steps *)
  clear Hr. revert E4. unfold Steps.all_four.
  destruct (Steps.session_step t data (current c)) as [d1|] eqn:E1; [|discriminate]. simpl.
  destruct (Steps.usage_step data d1) as [d2|] eqn:E2; [|discriminate]. simpl.
  destruct (Steps.content_step data d2) as [d3|] eqn:E3; [|discriminate]. simpl.
  intros E4.
  assert (H1 : has_schema d1 = has_schema (current c)).
  { unfold Steps.session_step, insert_session in E1. frame_cases. reflexivity. }
  assert (H2 : has_schema d4 = has_schema d1).
  { apply (late_steps_frame same_schema (d_session_id data)) with (data := data)
      (d2 := d2) (d3 := d3); auto.
    - intros ?; reflexivity.
    - unfold same_schema; congruence.
    - apply frame23_same_schema.
    - apply frame4_same_schema. }
  congruence.
Qed.

End Storable.

(* ===================================================================== *)
(** ** A file whose lines are not JSON *)
(* ===================================================================== *)

Section Corrupt.

Import Sql Store Dyn.

Lemma parse_lines_not_json (lines : list string) (a : Parser.locals) :
  Forall (fun l => Json.loads l = None) lines -> Parser.parse_lines lines a = Some a.
Proof.
  induction 1 as [|l lines Hl _ IH]; simpl; [reflexivity|]. rewrite Hl. exact IH.
Qed.

Lemma detect_client_initial (cfg : config) (dir : string) :
  exists x, Indexer.detect_client cfg dir Parser.initial = Return x /\ bindable x = true.
Proof.
  unfold Indexer.detect_client. destruct (clients cfg) as [|c0 cs]; [eauto|].
  change (or_raise (join " " (take 10 (Parser.user_prompts Parser.initial))))
    with (Return "").
  cbn [bind]. set (fc := Indexer.first_client (c0 :: cs)).
  destruct (fc (Py.lower "")) as [y|]; cbn [truthy].
  - destruct (negb (String.eqb y "")); [eauto|]. destruct (fc _); eauto.
  - destruct (fc _); eauto.
Qed.

(** Such a file parses to a record with no exchanges, and the record is
    storable. *)
Lemma parse_not_json (cfg : config) (p : Fs.path) (f : Fs.file) (lines : list string)
    (k : clock) :
  Fs.target p = Some f -> Fs.content f = Some lines ->
  Forall (fun l => Json.loads l = None) lines ->
  exists data,
    Indexer._parse_session cfg p k = (Return (Some data), k) /\
    storable data = true /\ d_exchange_count data = 0%Z /\
    d_fts_content data = "" /\ d_topics data = [].
Proof.
  intros T C H. unfold Indexer._parse_session. rewrite T, C.
  rewrite (parse_lines_not_json _ _ H). unfold Indexer.finish.
  destruct (detect_client_initial cfg (Fs.parent p)) as (x & Hx & Hb).
  rewrite Hx, T. simpl.
  eexists. split; [reflexivity|]. simpl. unfold storable. simpl. rewrite Hb.
  repeat split; reflexivity.
Qed.

(** A file that is not in the store yet, parses, and yields storable
    data is indexed by the loop body on a working connection. *)
Lemma visit_indexes (cfg : config) (p : Fs.path) (f : Fs.file) (data : session_data)
    (k k1 : clock) (c : conn) :
  working c -> pending c = None ->
  sessions (committed c) !! Fs.stem p = None ->
  Fs.target p = Some f ->
  Indexer._parse_session cfg p k = (Return (Some data), k1) ->
  storable data = true ->
  exists c',
    visit cfg p k c = (Return Indexed, snd (now k1), c') /\
    working c' /\ pending c' = None /\
    (exists row, sessions (committed c') !! Fs.stem p = Some row /\
                 r_exchange_count row = d_exchange_count data) /\
    forall sid, sid <> Fs.stem p ->
                rows_of sid (committed c') = rows_of sid (committed c).
Proof.
  intros Hw Hp Habs T P Hs.
  assert (Hcur : current c = committed c) by (unfold current; rewrite Hp; reflexivity).
  unfold visit. rewrite T. unfold query.
  destruct Hw as [Hf Hsch]. rewrite Hf, Hsch. simpl.
  unfold select_file_hash. rewrite Hcur, Habs. simpl. rewrite P.
  set (c1 := {| committed := committed c; pending := pending c;
                executed := S (executed c); faults := faults c |}).
  assert (Hw1 : working c1) by (split; [exact Hf | exact Hsch]).
  destruct (upsert_storable data k1 c1 Hw1 Hs) as (c' & U & Hw' & Hp').
  rewrite U. exists c'. split; [reflexivity|]. split; [exact Hw'|]. split; [exact Hp'|].
  split.
  - rewrite <- (parse_session_id _ _ _ _ _ P), (upsert_row _ _ _ _ _ U).
    eexists. split; [reflexivity|]. simpl.
    destruct (sessions (current c1) !! d_session_id data); reflexivity.
  - intros sid Hne.
    destruct (upsert_other_session sid data k1 (snd (now k1)) c1 c' true) as [_ Hr]; auto.
    rewrite (parse_session_id _ _ _ _ _ P). auto.
Qed.

End Corrupt.

(** C3 (as amended). A backfill, on a working index that holds neither
    session yet, over a directory containing exactly one transcript that
    parses and stores cleanly (the valid transcript) and one corrupt file whose
    lines are not JSON, returns total=2, indexed=2, skipped=0, errors=0: every
    line of the corrupt file is skipped, the file parses to an empty record,
    and that record is indexed, with exchange_count 0. *)
Theorem backfill_indexes_corrupt_file (cfg : config) (d : Fs.directory) (sv sc : string)
    (valid corrupt : Fs.file) (lines : list string) (k : clock) (c : Sql.conn) :
  Fs.is_dir d = true ->
  Fs.files d = [(sv, valid); (sc, corrupt)] \/ Fs.files d = [(sc, corrupt); (sv, valid)] ->
  sv <> sc ->
  Fs.content corrupt = Some lines ->
  Forall (fun l => Json.loads l = None) lines ->
  (forall k0, exists data k1,
     Indexer._parse_session cfg
       {| Fs.parent := Fs.dir_name d; Fs.stem := sv; Fs.target := Some valid |} k0
     = (Dyn.Return (Some data), k1) /\ storable data = true) ->
  working c -> Sql.pending c = None ->
  sessions (Sql.committed c) !! sv = None ->
  sessions (Sql.committed c) !! sc = None ->
  exists k' c',
    Store.backfill_all cfg (Some [d]) k c
    = (Dyn.Return {| total := 2; indexed := 2; skipped := 0; errors := 0 |}, k', c') /\
    r_exchange_count <$> sessions (Sql.committed c') !! sc = Some 0%Z.
Proof.
  intros Hdir Hfiles Hne Hcontent Hlines Hvalid Hw Hp Hav Hac.
  set (pv := {| Fs.parent := Fs.dir_name d; Fs.stem := sv; Fs.target := Some valid |}).
  set (pc := {| Fs.parent := Fs.dir_name d; Fs.stem := sc; Fs.target := Some corrupt |}).
  assert (Hrow : forall c1 c2 : Sql.conn,
             rows_of sc (Sql.committed c2) = rows_of sc (Sql.committed c1) ->
             sessions (Sql.committed c2) !! sc = sessions (Sql.committed c1) !! sc).
  { intros c1 c2 H. exact (f_equal v_row H). }
  assert (Hrowv : forall c1 c2 : Sql.conn,
             rows_of sv (Sql.committed c2) = rows_of sv (Sql.committed c1) ->
             sessions (Sql.committed c2) !! sv = sessions (Sql.committed c1) !! sv).
  { intros c1 c2 H. exact (f_equal v_row H). }
  unfold Store.backfill_all, Store.session_files. simpl. rewrite Hdir. simpl.
  unfold Fs.glob. rewrite app_nil_r.
  destruct Hfiles as [Hfiles|Hfiles]; rewrite Hfiles; simpl; fold pv; fold pc.
  - (* the valid transcript first *)
    destruct (Hvalid k) as (dv & k1 & Pv & Sv).
    destruct (visit_indexes cfg pv valid dv k k1 c Hw Hp Hav eq_refl Pv Sv)
      as (c1 & V1 & Hw1 & Hp1 & _ & Hfr1).
    remember (snd (now k1)) as k2 eqn:Hk2. clear Hk2.
    rewrite V1. simpl.
    destruct (parse_not_json cfg pc corrupt lines k2 eq_refl Hcontent Hlines)
      as (dc & Pc & Sc & Ec & _).
    assert (Hac1 : sessions (Sql.committed c1) !! Fs.stem pc = None).
    { simpl. rewrite (Hrow c c1); [exact Hac|]. apply Hfr1. simpl. auto. }
    destruct (visit_indexes cfg pc corrupt dc _ _ c1 Hw1 Hp1 Hac1 eq_refl Pc Sc)
      as (c2 & V2 & _ & _ & (row & Hr & Hx) & _).
    remember (snd (now k2)) as k3 eqn:Hk3. clear Hk3.
    rewrite V2. simpl. eexists _, c2. split; [reflexivity|].
    simpl in Hr. rewrite Hr. simpl. rewrite Hx, Ec. reflexivity.
  - (* the corrupt file first *)
    destruct (parse_not_json cfg pc corrupt lines k eq_refl Hcontent Hlines)
      as (dc & Pc & Sc & Ec & _).
    destruct (visit_indexes cfg pc corrupt dc k k c Hw Hp Hac eq_refl Pc Sc)
      as (c1 & V1 & Hw1 & Hp1 & (row & Hr & Hx) & Hfr1).
    remember (snd (now k)) as k2 eqn:Hk2. clear Hk2.
    rewrite V1. simpl.
    destruct (Hvalid k2) as (dv & k1 & Pv & Sv).
    assert (Hav1 : sessions (Sql.committed c1) !! Fs.stem pv = None).
    { simpl. rewrite (Hrowv c c1); [exact Hav|]. apply Hfr1. simpl. auto. }
    destruct (visit_indexes cfg pv valid dv _ k1 c1 Hw1 Hp1 Hav1 eq_refl Pv Sv)
      as (c2 & V2 & _ & _ & _ & Hfr2).
    remember (snd (now k1)) as k3 eqn:Hk3. clear Hk3.
    rewrite V2. simpl. eexists _, c2. split; [reflexivity|].
    rewrite (Hrow c1 c2); [|apply Hfr2; simpl; auto].
    simpl in Hr. rewrite Hr. simpl. rewrite Hx, Ec. reflexivity.
Qed.

(** C3, the claim as it stands fails: a backfill over a directory with one
    valid transcript of 12 user turns and one file none of whose lines is
    JSON returns indexed=2 and errors=0. *)
Lemma backfill_counts_corrupt_file_as_indexed :
  user_turns (Examples.twelve_turns ++ [Examples.assistant_line]) = 12%Z /\
  map Json.loads Examples.garbage = [None; None; None] /\
  fst (fst (Store.backfill_all Examples.cfg (Some [Examples.project])
              Examples.wall Examples.fresh))
  = Dyn.Return {| total := 2; indexed := 2; skipped := 0; errors := 0 |}.
Proof. vm_compute. repeat split; reflexivity. Qed.

(** C3 (as amended), on that directory. *)
Lemma backfill_indexes_corrupt_file_witness :
  exists k' c',
    Store.backfill_all Examples.cfg (Some [Examples.project]) Examples.wall Examples.fresh
    = (Dyn.Return {| total := 2; indexed := 2; skipped := 0; errors := 0 |}, k', c') /\
    r_exchange_count <$> sessions (Sql.committed c') !! "bbb" = Some 0%Z.
Proof.
  apply (backfill_indexes_corrupt_file Examples.cfg Examples.project "aaa" "bbb"
           Examples.valid Examples.corrupt Examples.garbage Examples.wall Examples.fresh).
  - reflexivity.
  - left. reflexivity.
  - discriminate.
  - reflexivity.
  - repeat constructor.
  - intros k0.
    destruct (Indexer._parse_session Examples.cfg
                {| Fs.parent := Fs.dir_name Examples.project; Fs.stem := "aaa";
                   Fs.target := Some Examples.valid |} k0) as [r k1] eqn:E.
    vm_compute in E. inversion E; subst r k1; clear E.
    eexists _, _. split; [reflexivity|]. vm_compute. reflexivity.
  - split; [intros n; reflexivity | reflexivity].
  - reflexivity.
  - vm_compute. reflexivity.
  - vm_compute. reflexivity.
Defined.

(* ===================================================================== *)
(** ** The exchange counter of the parser *)
(* ===================================================================== *)

Section ExchangeCount.

Import Parser Dyn.

Lemma get_dict (entry : json) (key : string) (dflt v : json) :
  get entry key dflt = Some v ->
  exists d, entry = JObj d /\ v = default dflt (Json.dict_lookup key d).
Proof. destruct entry; simpl; try discriminate. intros H. inversion H. eauto. Qed.


Lemma track_timestamps_count (ts : json) (a : locals) :
  exchange_count (track_timestamps ts a) = exchange_count a.
Proof. unfold track_timestamps. destruct (truthy ts); reflexivity. Qed.

Lemma custom_title_count (entry : json) (a a' : locals) :
  custom_title entry a = Some a' -> exchange_count a' = exchange_count a.
Proof.
  unfold custom_title. destruct (get entry "customTitle" (JStr "")) as [v|]; [|discriminate].
  simpl. destruct v; try discriminate.
  destruct (Py.startswith ">>>" s); [destruct (1 <? _)|];
    intros H; inversion H; reflexivity.
Qed.

Lemma compaction_count (entry : json) (a a' : locals) :
  compaction entry a = Some a' -> exchange_count a' = exchange_count a.
Proof.
  unfold compaction. destruct (summary_candidate entry) as [c|]; [|discriminate].
  simpl. intros H. inversion H. reflexivity.
Qed.

Lemma extract_model_count (ty entry : json) (a a' : locals) :
  extract_model ty entry a = Some a' -> exchange_count a' = exchange_count a.
Proof.
  unfold extract_model. destruct (_ && _).
  - destruct (get entry "message" (JObj [])) as [m|]; [|discriminate]. simpl.
    destruct (get m "model" (JStr "")) as [v|]; [|discriminate]. simpl.
    intros H. inversion H. reflexivity.
  - intros H. inversion H. reflexivity.
Qed.

Lemma extract_user_message_count (ty entry : json) (a a' : locals) :
  extract_user_message ty entry a = Some a' -> exchange_count a' = exchange_count a.
Proof.
  unfold extract_user_message. destruct (str_eq ty "user"); [|intros H; inversion H; reflexivity].
  destruct (get entry "message" (JObj [])) as [m|]; [|discriminate]. simpl.
  destruct (get m "content" (JStr "")) as [v|]; [|discriminate]. simpl.
  destruct (match v with JArr items => _ | _ => Some v end) as [c|]; [|discriminate].
  simpl. destruct (truthy c); [|intros H; inversion H; reflexivity].
  destruct (py_len c) as [n|]; [|discriminate]. simpl.
  destruct (10 <? n)%Z; intros H; inversion H; reflexivity.
Qed.

Lemma extract_tools_count (ty entry : json) (a a' : locals) :
  extract_tools ty entry a = Some a' -> exchange_count a' = exchange_count a.
Proof.
  unfold extract_tools. destruct (str_eq ty "assistant"); [|intros H; inversion H; reflexivity].
  destruct (get entry "message" (JObj [])) as [m|]; [|discriminate]. simpl.
  destruct (get m "content" (JArr [])) as [v|]; [|discriminate]. simpl.
  destruct v; try (intros H; inversion H; reflexivity).
  destruct (tool_blocks items _) as [ta|]; [|discriminate]. simpl.
  intros H. inversion H. reflexivity.
Qed.

(** One record adds one to the counter exactly when it is a user or an
    assistant turn. *)
Lemma parse_entry_count (line : string) (entry : json) (a a' : locals) :
  Json.loads line = Some entry ->
  parse_entry entry a = Some a' ->
  exchange_count a' =
    (exchange_count a
     + (if is_turn "user" line then 1 else 0)
     + (if is_turn "assistant" line then 1 else 0))%Z.
Proof.
  intros L H. unfold parse_entry in H.
  destruct (get entry "type" JNull) as [ty|] eqn:G; [|discriminate]. simpl in H.
  destruct (get_dict _ _ _ _ G) as (d & -> & Hty).
  change (get (JObj d) "timestamp" JNull)
    with (Some (default JNull (Json.dict_lookup "timestamp" d))) in H.
  cbn [mbind option_bind] in H.
  set (a0 := track_timestamps _ a) in H.
  destruct (if str_eq ty "custom-title" then custom_title (JObj d) a0 else Some a0)
    as [a1|] eqn:E1; [|discriminate]. cbn [mbind option_bind] in H.
  destruct (if str_eq ty "summary" then compaction (JObj d) a1 else Some a1)
    as [a2|] eqn:E2; [|discriminate]. cbn [mbind option_bind] in H.
  destruct (extract_model ty (JObj d) (count_exchange ty a2)) as [a3|] eqn:E3;
    [|discriminate]. cbn [mbind option_bind] in H.
  destruct (extract_user_message ty (JObj d) a3) as [a4|] eqn:E4; [|discriminate].
  cbn [mbind option_bind] in H.
  rewrite (extract_tools_count _ _ _ _ H), (extract_user_message_count _ _ _ _ E4),
    (extract_model_count _ _ _ _ E3).
  assert (H1 : exchange_count a1 = exchange_count a).
  { destruct (str_eq ty "custom-title").
    - rewrite (custom_title_count _ _ _ E1). apply track_timestamps_count.
    - inversion E1; subst. apply track_timestamps_count. }
  assert (H2 : exchange_count a2 = exchange_count a1).
  { destruct (str_eq ty "summary").
    - apply (compaction_count _ _ _ E2).
    - inversion E2; subst. reflexivity. }
  unfold is_turn. rewrite L, <- Hty.
  unfold count_exchange.
  destruct ty; simpl; try lia.
  destruct (String.eqb s "user") eqn:U; simpl.
  - apply String.eqb_eq in U. subst s. simpl. lia.
  - destruct (String.eqb s "assistant"); simpl; lia.
Qed.

Lemma parse_lines_count (lines : list string) (a a' : locals) :
  parse_lines lines a = Some a' ->
  exchange_count a' = (exchange_count a + user_turns lines + assistant_turns lines)%Z.
Proof.
  unfold user_turns, assistant_turns.
  revert a. induction lines as [|line lines IH]; simpl; intros a H.
  - inversion H. lia.
  - destruct (Json.loads line) as [entry|] eqn:L.
    + destruct (parse_entry entry a) as [a1|] eqn:E; [|discriminate]. simpl in H.
      rewrite (IH _ H), (parse_entry_count _ _ _ _ L E).
      destruct (is_turn "user" line), (is_turn "assistant" line); simpl; lia.
    + assert (Hu : is_turn "user" line = false) by (unfold is_turn; rewrite L; reflexivity).
      assert (Ha : is_turn "assistant" line = false)
        by (unfold is_turn; rewrite L; reflexivity).
      rewrite Hu, Ha. apply IH. exact H.
Qed.

(** The record [_parse_session] returns counts the user turns and the
    assistant turns. *)
Lemma parse_session_count (cfg : config) (p : Fs.path) (f : Fs.file) (lines : list string)
    (k k1 : clock) (data : session_data) :
  Fs.target p = Some f -> Fs.content f = Some lines ->
  Indexer._parse_session cfg p k = (Return (Some data), k1) ->
  d_exchange_count data = (user_turns lines + assistant_turns lines)%Z.
Proof.
  intros T C. unfold Indexer._parse_session. rewrite T, C.
  destruct (parse_lines lines initial) as [a|] eqn:P; [|discriminate].
  pose proof (parse_lines_count _ _ _ P) as Hc. simpl in Hc.
  destruct (Indexer.finish cfg p a k) as [r k2] eqn:F.
  unfold Indexer.finish in F.
  destruct (Indexer.auto_title a) as [[ti td]|]; [|inversion F; subst; discriminate].
  destruct (Indexer.detect_client cfg (Fs.parent p) a) as [cl|];
    [|inversion F; subst; discriminate].
  destruct (Indexer.fts_content_of (user_prompts a)) as [fts|];
    [|inversion F; subst; discriminate].
  destruct (Indexer.topic_entries _ _ k) as [[tp|] k3];
    [|inversion F; subst; discriminate].
  rewrite T in F. inversion F; subst. simpl. intros H. inversion H; subst. simpl.
  exact Hc.
Qed.

End ExchangeCount.

(* ===================================================================== *)
(** ** The session-end handler *)
(* ===================================================================== *)

Section SessionEnd.

Import Dyn.

Lemma candidate_found (d : Fs.directory) (sid : string) (fs : list (string * Fs.file))
    (p : Fs.path) :
  Fs.candidate d sid fs = Some p -> Fs.stem p = sid /\ exists f, Fs.target p = Some f.
Proof.
  induction fs as [|[s f] fs IH]; simpl; [discriminate|].
  destruct (String.eqb s sid) eqn:E; [|exact IH].
  apply String.eqb_eq in E. intros H. inversion H; subst. simpl. eauto.
Qed.

Lemma find_in_found (dirs : list Fs.directory) (sid : string) (p : Fs.path) :
  Fs.find_in dirs sid = Some p -> Fs.stem p = sid /\ exists f, Fs.target p = Some f.
Proof.
  induction dirs as [|d dirs IH]; simpl; [discriminate|].
  destruct (negb (Fs.is_dir d)); [exact IH|].
  destruct (Fs.candidate d sid (Fs.files d)) as [q|] eqn:E; [|exact IH].
  intros H. inversion H; subst. eapply candidate_found; exact E.
Qed.

Lemma dict_lookup_remove (k : string) (d : list (string * json)) :
  Json.dict_lookup k (Json.dict_remove k d) = None.
Proof.
  induction d as [|[k' v] d IH]; simpl; [reflexivity|].
  destruct (String.eqb k k') eqn:E; [exact IH|]. simpl. rewrite E. exact IH.
Qed.

Lemma clean_up_cursor (sid : string) (w w' : world) :
  Hook.clean_up sid w = Some w' ->
  cursor sid w' = None /\ store w' = store w.
Proof.
  unfold Hook.clean_up, Hook.pop_cursor, Hook.save_state.
  destruct (Hook.load_state w) as [| | | | | |d]; try discriminate. simpl.
  destruct (state_writable w); [|discriminate].
  intros H. inversion H; subst. unfold cursor. simpl.
  split; [apply dict_lookup_remove | reflexivity].
Qed.

(** A single-session index that reports success has stored the count of
    user and assistant turns. *)
Lemma index_session_count (cfg : config) (projects : option (list Fs.directory))
    (p : Fs.path) (f : Fs.file) (lines : list string) (k k' : clock) (c c' : Sql.conn) :
  Fs.target p = Some f -> Fs.content f = Some lines ->
  Store.index_session cfg projects None (Some p) k c = (Return true, k', c') ->
  exists row, sessions (Sql.committed c') !! Fs.stem p = Some row /\
              r_exchange_count row = (user_turns lines + assistant_turns lines)%Z.
Proof.
  intros T C. unfold Store.index_session. rewrite T.
  destruct (Indexer._parse_session cfg p k) as [[[data|]|] k1] eqn:P;
    try (intros H; inversion H; fail).
  destruct (Store._upsert_session data k1 c) as [[ok k2] c2] eqn:U.
  intros H. inversion H; subst.
  rewrite <- (parse_session_id _ _ _ _ _ P), (upsert_row _ _ _ _ _ U).
  eexists. split; [reflexivity|].
  rewrite <- (parse_session_count cfg p f lines k k1 data T C P).
  simpl. destruct (sessions (Sql.current c) !! d_session_id data); reflexivity.
Qed.

End SessionEnd.

(** C4 (as amended). For a session whose transcript is found, when the
    session-end handler returns normally it has removed that session's
    cursor from the persisted capture state; and if its re-index succeeded,
    the SessionRecord's stored exchange_count equals the number of user-turn
    records plus the number of assistant-turn records of the transcript. *)
Theorem session_end_retires_cursor (sid : string) (w w' : world) (p : Fs.path)
    (f : Fs.file) (lines : list string) :
  Hook.find_session_file w sid = Some (Some p) ->
  Fs.target p = Some f ->
  Fs.content f = Some lines ->
  Hook.handle_session_end sid w = Exits w' ->
  cursor sid w' = None /\
  forall w1 k c,
    Hook.final_topic sid p w = Some w1 ->
    Hook.reindex p w1 = (Dyn.Return true, k, c) ->
    exists row,
      sessions (Sql.committed (store w')) !! sid = Some row /\
      r_exchange_count row = (user_turns lines + assistant_turns lines)%Z.
Proof.
  intros Hfind T C H.
  assert (Hstem : Fs.stem p = sid).
  { unfold Hook.find_session_file in Hfind. destruct (projects w); [|discriminate].
    inversion Hfind as [Hf]. apply find_in_found in Hf. exact (proj1 Hf). }
  unfold Hook.handle_session_end in H. rewrite Hfind in H. simpl in H.
  destruct (Hook.final_topic sid p w) as [w1|] eqn:F; [|discriminate]. simpl in H.
  destruct (Hook.clean_up sid (Hook.trigger_full_index p w1)) as [w3|] eqn:K;
    [|discriminate]. simpl in H. inversion H; subst w3.
  destruct (clean_up_cursor _ _ _ K) as [Hcur Hstore].
  split; [exact Hcur|].
  intros w1' k c Hw1 R. inversion Hw1; subst w1'.
  rewrite Hstore. unfold Hook.trigger_full_index. rewrite R. simpl.
  rewrite <- Hstem. eapply index_session_count; [exact T | exact C | exact R].
Qed.

(** C4, the claim as it stands fails: a session of one user turn and one
    assistant turn ends; the cursor is removed, and the stored
    [exchange_count] is 2, not the user-turn count 1. *)
Lemma session_end_counts_both_turns :
  let w := Examples.world_of Examples.short_session Examples.cursor_at_10 in
  let w' := final (Hook.handle_session_end "s1" w) in
  cursor "s1" w = Some (JObj [("last_capture_at", JInt 10)]) /\
  Hook.handle_session_end "s1" w = Exits w' /\
  cursor "s1" w' = None /\
  user_turns Examples.short_session = 1%Z /\
  r_exchange_count <$> sessions (Sql.committed (store w')) !! "s1" = Some 2%Z.
Proof. vm_compute. repeat split; reflexivity. Qed.

(** C4 (as amended), on that session. *)
Lemma session_end_retires_cursor_witness :
  let w := Examples.world_of Examples.short_session Examples.cursor_at_10 in
  let w' := final (Hook.handle_session_end "s1" w) in
  cursor "s1" w' = None /\
  exists row,
    sessions (Sql.committed (store w')) !! "s1" = Some row /\
    r_exchange_count row
    = (user_turns Examples.short_session + assistant_turns Examples.short_session)%Z.
Proof.
  intros w w'.
  pose (f := Examples.transcript Examples.short_session 100 "1700000003.5").
  pose (p := Examples.at_ (Examples.in_project [("s1", f)]) "s1" f).
  destruct (session_end_retires_cursor "s1" w w' p f Examples.short_session)
    as [Hcur Hrow].
  - reflexivity.
  - reflexivity.
  - reflexivity.
  - vm_compute. reflexivity.
  - split; [exact Hcur|].
    pose (w1 := default w (Hook.final_topic "s1" p w)).
    apply (Hrow w1 (snd (fst (Hook.reindex p w1))) (snd (Hook.reindex p w1))).
    + vm_compute. reflexivity.
    + vm_compute. reflexivity.
Defined.

(* ===================================================================== *)
(** ** The periodic capture *)
(* ===================================================================== *)


Section Periodic.

Import Dyn.

Local Arguments Topic.get_exchange_count : simpl never.

Lemma dict_lookup_set (k : string) (v : json) (d : list (string * json)) :
  Json.dict_lookup k (Json.dict_set k v d) = Some v.
Proof.
  induction d as [|[k' v'] d IH]; simpl.
  - rewrite String.eqb_refl. reflexivity.
  - destruct (String.eqb k k') eqn:E; simpl; rewrite ?E, ?String.eqb_refl; auto.
Qed.

Lemma cursor_at_reads (sid : string) (w : world) (n : Z) :
  cursor_at sid w n -> last_capture_at sid w = n.
Proof.
  intros (d & L & [[H ->]|H]); unfold last_capture_at; rewrite L; simpl; rewrite H;
    reflexivity.
Qed.

Lemma write_topic_db_keeps (sid topic source : string) (n : Z) (w : world) :
  let w' := Hook.write_topic_db sid topic source n w in
  capture_state w' = capture_state w /\ state_writable w' = state_writable w /\
  topics_writable w' = topics_writable w /\ projects w' = projects w.
Proof.
  unfold Hook.write_topic_db. destruct (now (time w)) as [t k1].
  destruct (Sql.seq _ _ (store w)) as [[[]|] c]; simpl; auto.
Qed.

Variable K : Z.
Variable sid : string.

(** The call does nothing when no capture is due. *)
Lemma prompt_not_due (w : world) (dirs : list Fs.directory) (p : Fs.path) (n : Z) :
  projects w = Some dirs -> Fs.find_in dirs sid = Some p ->
  cursor_at sid w n ->
  ((Topic.get_exchange_count (Some p) <? K)
   || (Topic.get_exchange_count (Some p) - n <? K))%Z = true ->
  Hook.handle_user_prompt_submit_every K sid w = Exits w.
Proof.
  intros Hp Hf (d & L & Hc) Hdue.
  unfold Hook.handle_user_prompt_submit_every, Hook.find_session_file.
  rewrite Hp, Hf, L. cbn [mbind option_bind mret].
  set (count := Topic.get_exchange_count (Some p)) in *. clearbody count.
  destruct (count <? K)%Z eqn:E1.
  - destruct Hc as [[H ->]|H]; simpl; rewrite H; reflexivity.
  - simpl in Hdue.
    destruct Hc as [[H ->]|H]; simpl; rewrite H; simpl; rewrite Hdue; reflexivity.
Qed.

(** The call captures when a capture is due, a topic is found and the
    writes succeed. *)
Lemma prompt_due (w : world) (dirs : list Fs.directory) (p : Fs.path) (n : Z) (t : string) :
  projects w = Some dirs -> Fs.find_in dirs sid = Some p ->
  state_writable w = true -> topics_writable w = true ->
  cursor_at sid w n ->
  (Topic.get_exchange_count (Some p) <? K)%Z = false ->
  (Topic.get_exchange_count (Some p) - n <? K)%Z = false ->
  Hook.usable (Topic.extract_topic (Topic.extract_recent_user_messages p 3)) = Some t ->
  exists w',
    Hook.handle_user_prompt_submit_every K sid w = Exits w' /\
    cursor_at sid w' (Topic.get_exchange_count (Some p)) /\
    state_writable w' = true /\ topics_writable w' = true.
Proof.
  intros Hp Hf Hsw Htw (d & L & Hc) E1 E2 Ht.
  unfold Hook.handle_user_prompt_submit_every, Hook.find_session_file.
  rewrite Hp, Hf, L. cbn [mbind option_bind mret].
  set (count := Topic.get_exchange_count (Some p)) in *. clearbody count.
  assert (Hread : exists ss v,
             get (JObj d) sid (JObj [("last_capture_at", JInt 0)]) = Some ss /\
             get ss "last_capture_at" (JInt 0) = Some v /\ Hook.as_int v = Some n).
  { destruct Hc as [[H ->]|H]; simpl; rewrite H; simpl; eauto. }
  destruct Hread as (ss & v & G1 & G2 & G3).
  rewrite G1. cbn [mbind option_bind]. rewrite G2. cbn [mbind option_bind].
  rewrite E1, G3. cbn [mbind option_bind]. rewrite E2, Ht.
  unfold Hook.write_topic_file. rewrite Htw.
  match goal with |- context [Hook.write_topic_db ?a ?b ?c ?e ?x] =>
    pose proof (write_topic_db_keeps a b c e x) as Hk;
    set (w2 := Hook.write_topic_db a b c e x) in * end.
  simpl in Hk. destruct Hk as (Hcs & Hsw2 & Htw2 & _).
  unfold Hook.set_cursor. cbn [mbind option_bind].
  unfold Hook.save_state. rewrite Hsw2, Hsw. simpl.
  eexists. split; [reflexivity|]. simpl.
  split; [|split; [first [reflexivity | congruence] | congruence]].
  eexists. unfold Hook.load_state. simpl. split; [reflexivity|].
  right. apply dict_lookup_set.
Qed.

(** Whatever the world, a capture that fires does so at an exchange
    count of at least [K], at least [K] past the last captured one. *)
Lemma fired_only_when_due (w : world) :
  fired sid w (final (Hook.handle_user_prompt_submit_every K sid w)) = true ->
  exists p,
    Hook.find_session_file w sid = Some (Some p) /\
    (K <= Topic.get_exchange_count (Some p))%Z /\
    (K <= Topic.get_exchange_count (Some p) - last_capture_at sid w)%Z /\
    last_capture_at sid (final (Hook.handle_user_prompt_submit_every K sid w))
    = Topic.get_exchange_count (Some p).
Proof.
  assert (Hno : fired sid w w = true -> False).
  { unfold fired. rewrite Z.eqb_refl. discriminate. }
  unfold Hook.handle_user_prompt_submit_every.
  destruct (Hook.find_session_file w sid) as [[p|]|] eqn:Hf; simpl;
    try (intros H; destruct (Hno H)).
  set (count := Topic.get_exchange_count (Some p)) in *.
  destruct (get (Hook.load_state w) sid _) as [ss|] eqn:G1; simpl;
    try (intros H; destruct (Hno H)).
  destruct (get ss "last_capture_at" (JInt 0)) as [v|] eqn:G2; simpl;
    try (intros H; destruct (Hno H)).
  destruct (count <? K)%Z eqn:E1; simpl;
    try (intros H; destruct (Hno H)).
  destruct (Hook.as_int v) as [n|] eqn:G3; simpl;
    try (intros H; destruct (Hno H)).
  destruct (count - n <? K)%Z eqn:E2; simpl;
    try (intros H; destruct (Hno H)).
  destruct (Hook.usable _) as [t|]; simpl; try (intros H; destruct (Hno H)).
  assert (Hlast : last_capture_at sid w = n).
  { unfold last_capture_at. rewrite G1, G2, G3. reflexivity. }
  destruct (Hook.write_topic_file sid t w) as [w1|] eqn:W; simpl;
    try (intros H; destruct (Hno H)).
  assert (Hst1 : capture_state w1 = capture_state w).
  { unfold Hook.write_topic_file in W. destruct (topics_writable w); inversion W.
    reflexivity. }
  match goal with |- context [Hook.write_topic_db ?a ?b ?c ?e ?x] =>
    pose proof (write_topic_db_keeps a b c e x) as Hk;
    set (w2 := Hook.write_topic_db a b c e x) in * end.
  simpl in Hk. destruct Hk as (Hcs & Hsw2 & Htw2 & _).
  assert (Hl2 : last_capture_at sid w2 = last_capture_at sid w).
  { unfold last_capture_at, Hook.load_state. rewrite Hcs, Hst1. reflexivity. }
  assert (Hdict : exists d, Hook.load_state w = JObj d).
  { destruct (Hook.load_state w); simpl in G1; try discriminate. eauto. }
  destruct Hdict as [d Hd]. rewrite Hd. simpl.
  unfold Hook.save_state. destruct (state_writable w2); simpl.
  - intros _. exists p. split; [reflexivity|].
    apply Z.ltb_ge in E1, E2. rewrite Hlast.
    split; [exact E1|]. split; [exact E2|].
    unfold last_capture_at, Hook.load_state. simpl.
    rewrite dict_lookup_set. reflexivity.
  - unfold fired. rewrite Hl2, Z.eqb_refl. discriminate.
Qed.

End Periodic.

Section Schedule.

Local Open Scope Z_scope.

Lemma due_at_multiple (K I : Z) :
  0 < K -> 0 <= I -> (I + 1) mod K = 0 ->
  (I + 1 <? K) = false /\ (I + 1 - K * (I / K) <? K) = false /\
  K * ((I + 1) / K) = I + 1 /\ I + 1 <> K * (I / K).
Proof.
  intros HK HI Hm.
  pose proof (Z.div_mod (I + 1) K ltac:(lia)) as Hc. rewrite Hm in Hc.
  set (q := (I + 1) / K) in *.
  assert (Hq : 1 <= q) by nia.
  assert (HIq : I / K = q - 1).
  { symmetry. apply (Z.div_unique I K (q - 1) (K - 1)); lia. }
  rewrite HIq. repeat split; try (apply Z.ltb_ge); nia.
Qed.

Lemma not_due_between (K I : Z) :
  0 < K -> 0 <= I -> (I + 1) mod K <> 0 ->
  ((I + 1 <? K) || (I + 1 - K * (I / K) <? K)) = true /\
  K * ((I + 1) / K) = K * (I / K).
Proof.
  intros HK HI Hm.
  pose proof (Z.div_mod (I + 1) K ltac:(lia)) as Hc.
  pose proof (Z.mod_pos_bound (I + 1) K HK) as Hb.
  set (q := (I + 1) / K) in *. set (r := (I + 1) mod K) in *.
  assert (HIq : I / K = q).
  { symmetry. apply (Z.div_unique I K q (r - 1)); lia. }
  rewrite HIq. split; [|reflexivity].
  apply orb_true_iff. right. apply Z.ltb_lt. lia.
Qed.

End Schedule.

Section Replay.

Variable K : Z.
Variable sid : string.
Hypothesis K_pos : (0 < K)%Z.

Local Arguments Topic.get_exchange_count : simpl never.



Lemma prompts_schedule (snaps : list (list Fs.directory)) (i : nat) (w : world) :
  in_step K sid i w -> one_turn_each K sid i snaps ->
  prompts K sid (map Some snaps) w
  = map (fun n => (Z.of_nat n mod K =? 0)%Z) (seq (S i) (length snaps)).
Proof.
  revert i w. induction snaps as [|dirs snaps IH]; intros i w Hinv Hsn; [reflexivity|].
  destruct (Hsn 0%nat dirs eq_refl) as (p & Hf & Hcount & Htopic).
  rewrite Nat.add_0_r in Hcount, Htopic.
  assert (Hrest : one_turn_each K sid (S i) snaps).
  { intros j d Hj. specialize (Hsn (S j) d Hj).
    replace (S i + j)%nat with (i + S j)%nat by lia. exact Hsn. }
  destruct Hinv as (Hsw & Htw & Hcur).
  set (w1 := with_projects (Some dirs) w).
  assert (Hcur1 : cursor_at sid w1 (K * (Z.of_nat i / K))) by exact Hcur.
  assert (Hc : Z.of_nat (S i) = (Z.of_nat i + 1)%Z) by lia.
  cbn [map prompts length seq]. fold w1.
  destruct (Z.eq_dec (Z.of_nat (S i) mod K)%Z 0%Z) as [Hm|Hm].
  - (* a multiple of K: the capture fires *)
    rewrite Hc in Hm.
    destruct (due_at_multiple K (Z.of_nat i) K_pos ltac:(lia) Hm) as (E1 & E2 & E3 & E4).
    rewrite <- Hc in *.
    destruct (Hook.usable (Topic.extract_topic (Topic.extract_recent_user_messages p 3)))
      as [t|] eqn:Ht; [|exfalso; apply Htopic; [exact Hm | reflexivity]].
    destruct (prompt_due K sid w1 dirs p (K * (Z.of_nat i / K)) t) as (w' & Hh & Hcur' & Hsw' & Htw');
      try rewrite Hcount; auto.
    rewrite Hh. cbn [final]. f_equal.
    + unfold fired. rewrite (cursor_at_reads _ _ _ Hcur'), (cursor_at_reads _ _ _ Hcur1).
      rewrite Hcount, Hm. change ((0 =? 0)%Z) with true.
      apply negb_true_iff, Z.eqb_neq. exact E4.
    + apply IH; [|exact Hrest]. split; [exact Hsw'|]. split; [exact Htw'|].
      rewrite E3, <- Hcount. exact Hcur'.
  - (* between two multiples: nothing happens *)
    rewrite Hc in Hm.
    destruct (not_due_between K (Z.of_nat i) K_pos ltac:(lia) Hm) as (E1 & E2).
    rewrite <- Hc in *.
    rewrite (prompt_not_due K sid w1 dirs p (K * (Z.of_nat i / K))); auto;
      [|rewrite Hcount; exact E1].
    cbn [final]. f_equal.
    + unfold fired. rewrite Z.eqb_refl. change (negb true) with false.
      symmetry. apply Z.eqb_neq. exact Hm.
    + apply IH; [|exact Hrest]. split; [exact Hsw|]. split; [exact Htw|].
      rewrite E2. exact Hcur1.
Qed.

End Replay.

(** C7 (as amended). With capture interval K > 0, when the
    prompt-submitted handler is invoked once per user turn of a session (the
    i-th call finds the transcript with exchange count i), the session has no
    cursor at the start, both of the hook's files can be written, and a topic
    can be extracted at every call whose turn count is a multiple of K, the
    periodic capture fires exactly at the turn counts K, 2K, 3K, ... and at no
    other.  Without those provisos still: whenever a capture fires, the
    exchange count is at least K and at least K past the last captured
    exchange number, and the cursor moves to that count. *)
Theorem periodic_capture_schedule (K : Z) (sid : string)
    (snaps : list (list Fs.directory)) (w : world) :
  (0 < K)%Z ->
  state_writable w = true ->
  topics_writable w = true ->
  cursor_at sid w 0 ->
  (forall j dirs, snaps !! j = Some dirs ->
     exists p, Fs.find_in dirs sid = Some p /\
               Topic.get_exchange_count (Some p) = Z.of_nat (S j) /\
               ((Z.of_nat (S j) mod K = 0)%Z ->
                Hook.usable (Topic.extract_topic (Topic.extract_recent_user_messages p 3))
                <> None)) ->
  prompts K sid (map Some snaps) w
  = map (fun n => (Z.of_nat n mod K =? 0)%Z) (seq 1 (length snaps))
  /\
  forall w0 : world,
    fired sid w0 (final (Hook.handle_user_prompt_submit_every K sid w0)) = true ->
    exists p,
      Hook.find_session_file w0 sid = Some (Some p) /\
      (K <= Topic.get_exchange_count (Some p))%Z /\
      (K <= Topic.get_exchange_count (Some p) - last_capture_at sid w0)%Z /\
      last_capture_at sid (final (Hook.handle_user_prompt_submit_every K sid w0))
      = Topic.get_exchange_count (Some p).
Proof.
  intros HK Hsw Htw Hcur Hsn. split.
  - apply (prompts_schedule K sid HK snaps 0 w).
    + split; [exact Hsw|]. split; [exact Htw|].
      rewrite Z.div_0_l by lia. rewrite Z.mul_0_r. exact Hcur.
    + exact Hsn.
  - intros w0. apply fired_only_when_due.
Qed.

(** C7, the claim as it stands fails: ten user turns too short to give a
    topic and then a question, the handler called once per turn with the
    interval 10; nothing is captured at turn 10, and a capture fires at
    turn 11. *)
Lemma capture_fires_off_schedule :
  let snaps := Examples.after_each_turn Examples.noise_then_question 11 in
  map (fun dirs => Topic.get_exchange_count (Fs.find_in dirs "s1")) snaps
  = [1; 2; 3; 4; 5; 6; 7; 8; 9; 10; 11]%Z /\
  prompts Topic.TOPIC_INTERVAL "s1" (map Some snaps) (Examples.world_of [] Absent)
  = [false; false; false; false; false; false; false; false; false; false; true].
Proof. vm_compute. split; reflexivity. Qed.

(** C7 (as amended), on twelve turns that each give a topic, with the
    interval 10: the capture fires at turn 10 only. *)
Lemma periodic_capture_schedule_witness :
  prompts 10 "s1" (map Some (Examples.after_each_turn Examples.twelve_turns 12))
    (Examples.world_of [] Absent)
  = map (fun n => (Z.of_nat n mod 10 =? 0)%Z) (seq 1 12).
Proof.
  refine (proj1 (periodic_capture_schedule 10 "s1"
                   (Examples.after_each_turn Examples.twelve_turns 12)
                   (Examples.world_of [] Absent) _ _ _ _ _)).
  - lia.
  - reflexivity.
  - reflexivity.
  - exists []. split; [reflexivity|]. left. split; reflexivity.
  - intros j dirs H.
    do 12 (destruct j as [|j];
           [vm_compute in H; inversion H; subst dirs; clear H;
            eexists; split; [reflexivity|];
            split; [vm_compute; reflexivity | intros _; vm_compute; discriminate]|]).
    vm_compute in H. discriminate.
Defined.

(* ===================================================================== *)
(** ** Failures inside the hook *)
(* ===================================================================== *)

(** C6, the claim fails on the code: with a session of twelve user turns
    and no cursor yet, the hook lets an exception reach the host when the
    session-topics directory cannot be written (at any of the three events),
    when the state file cannot be written, and when the projects directory
    does not exist; a database that fails at every statement, by contrast,
    is survived. *)
Theorem hook_failed_write_reaches_host :
  let w := Examples.world_of Examples.twelve_turns Absent in
  raised (Hook.main (Examples.hook_call "UserPromptSubmit") (Examples.topics_locked w)) = true /\
  raised (Hook.main (Examples.hook_call "PreCompact") (Examples.topics_locked w)) = true /\
  raised (Hook.main (Examples.hook_call "SessionEnd") (Examples.topics_locked w)) = true /\
  raised (Hook.main (Examples.hook_call "UserPromptSubmit") (Examples.state_locked w)) = true /\
  raised (Hook.main (Examples.hook_call "SessionEnd") (Examples.state_locked w)) = true /\
  raised (Hook.main (Examples.hook_call "SessionEnd") (with_projects None w)) = true /\
  raised (Hook.main (Examples.hook_call "UserPromptSubmit") (Examples.store_broken w)) = false /\
  raised (Hook.main (Examples.hook_call "SessionEnd") (Examples.store_broken w)) = false.
Proof. vm_compute. repeat split; reflexivity. Qed.

(* ===================================================================== *)
(** ** Query filtering of the context extractor *)
(* ===================================================================== *)

Section Fallback.

Variable pattern : Type.
Variable re_compile : string -> option pattern.
Variable re_search : pattern -> string -> bool.

Lemma first_nonempty_cases {A : Type} (a b c : list A) :
  Analyzer.first_nonempty [a; b; c]
  = match a, b with
    | _ :: _, _ => a
    | [], _ :: _ => b
    | [], [] => c
    end.
Proof. destruct a, b, c; reflexivity. Qed.

Lemma word_matches_nil (exchanges : list exchange) :
  Analyzer.word_matches [] exchanges = [].
Proof.
  unfold Analyzer.word_matches. induction exchanges as [|ex l IH]; [reflexivity|].
  simpl. exact IH.
Qed.

Lemma filter_by_query_stages (query : string) (exchanges : list exchange) :
  Analyzer.filter_by_query pattern re_compile re_search query exchanges
  = Analyzer.spec_filter pattern re_compile re_search query exchanges.
Proof.
  unfold Analyzer.spec_filter, Analyzer.spec_stages. rewrite first_nonempty_cases.
  unfold Analyzer.filter_by_query.
  destruct (re_compile query) as [p|].
  - destruct (Analyzer.regex_matches pattern re_search p exchanges) as [|x l]; simpl.
    + destruct (Analyzer.substring_matches query exchanges) as [|y m]; simpl; [|reflexivity].
      destruct (Analyzer.query_words query) as [|w ws]; simpl.
      * rewrite word_matches_nil. reflexivity.
      * destruct (Analyzer.word_matches (w :: ws) exchanges); reflexivity.
    + reflexivity.
  - simpl.
    destruct (Analyzer.substring_matches query exchanges) as [|y m]; simpl; [|reflexivity].
    destruct (Analyzer.query_words query) as [|w ws]; simpl.
    + rewrite word_matches_nil. reflexivity.
    + destruct (Analyzer.word_matches (w :: ws) exchanges); reflexivity.
Qed.

End Fallback.

(** C9. For every exchange list and every query, the filtering of
    [extract_exchanges] is the three stages in strict fallback order: the
    exchanges one of whose turns the compiled pattern finds; if the pattern
    does not compile or finds nothing, those one of whose lowered turns
    contains the lowered query; if there are none, those containing a lowered
    query word of more than two characters; and nothing when all three are
    empty.  [extract_exchanges] applies it whenever the query is not empty. *)
Theorem query_filter_falls_back_in_order (pattern : Type)
    (re_compile : string -> option pattern) (re_search : pattern -> string -> bool)
    (query : string) (exchanges : list exchange) :
  let by_regex :=
    match re_compile query with
    | Some p => List.filter (fun ex => re_search p (user ex) || re_search p (assistant ex))
                  exchanges
    | None => []
    end in
  let by_substring :=
    List.filter (fun ex => Py.contains (Py.lower query) (Py.lower (user ex))
                           || Py.contains (Py.lower query) (Py.lower (assistant ex)))
      exchanges in
  let words := map Py.lower (List.filter (fun w => (2 <? Py.len w)%Z) (Py.split_ws query)) in
  let by_words :=
    List.filter (fun ex => existsb (fun w => Py.contains w (Py.lower (user ex))
                                             || Py.contains w (Py.lower (assistant ex))) words)
      exchanges in
  Analyzer.filter_by_query pattern re_compile re_search query exchanges
  = match by_regex, by_substring with
    | _ :: _, _ => by_regex
    | [], _ :: _ => by_substring
    | [], [] => by_words
    end
  /\ (by_regex = [] -> by_substring = [] -> by_words = [] ->
      Analyzer.filter_by_query pattern re_compile re_search query exchanges = [])
  /\ forall (a : ascii) (q : string) (entries : list entry) (limit max_chars : nat),
       Analyzer.extract_exchanges pattern re_compile re_search entries
         (Some (String a q)) limit max_chars
       = take limit
           (map (Analyzer.truncate_exchange max_chars)
              (Analyzer.filter_by_query pattern re_compile re_search (String a q)
                 (Analyzer.pair_exchanges entries))).
Proof.
  intros by_regex by_substring words by_words.
  assert (E : Analyzer.filter_by_query pattern re_compile re_search query exchanges
              = match by_regex, by_substring with
                | _ :: _, _ => by_regex
                | [], _ :: _ => by_substring
                | [], [] => by_words
                end).
  { rewrite filter_by_query_stages. unfold Analyzer.spec_filter, Analyzer.spec_stages.
    rewrite first_nonempty_cases. subst by_regex by_substring by_words words.
    unfold Analyzer.regex_matches, Analyzer.substring_matches, Analyzer.word_matches,
      Analyzer.query_words.
    destruct (re_compile query); reflexivity. }
  split; [exact E|]. split.
  - intros H1 H2 H3. rewrite E, H1, H2. exact H3.
  - intros a q entries limit max_chars. reflexivity.
Qed.

(* ===================================================================== *)
(** ** The hook's exchange counter *)
(* ===================================================================== *)

Section Substring.

Lemma prefix_append (p s : string) :
  String.prefix p s = true <-> exists post, s = p +:+ post.
Proof.
  revert s. induction p as [|a p IH]; intros s.
  - split; [intros _; exists s; reflexivity | intros _; destruct s; reflexivity].
  - destruct s as [|b s]; simpl.
    + split; [discriminate | intros [post H]; discriminate].
    + destruct (Ascii.ascii_dec a b) as [->|Hne].
      * rewrite IH. split; intros [post H]; exists post.
        -- simpl. rewrite H. reflexivity.
        -- simpl in H. inversion H. reflexivity.
      * split; [discriminate|]. intros [post H]. simpl in H. inversion H. congruence.
Qed.

Lemma drop_append (p post : string) : Py.drop (String.length p) (p +:+ post) = post.
Proof. induction p as [|a p IH]; simpl; [destruct post; reflexivity | exact IH]. Qed.

Lemma partition_unfold (needle s : string) :
  Py.partition needle s
  = if String.prefix needle s then Some (EmptyString, Py.drop (String.length needle) s)
    else match s with
         | EmptyString => None
         | String c r =>
             match Py.partition needle r with
             | Some (before, after) => Some (String c before, after)
             | None => None
             end
         end.
Proof. destruct s; reflexivity. Qed.

(** [partition] splits the text around an occurrence of the needle. *)
Lemma partition_splits (needle s before after : string) :
  Py.partition needle s = Some (before, after) -> s = before +:+ needle +:+ after.
Proof.
  revert before after. induction s as [|c r IH]; intros before after;
    rewrite partition_unfold.
  - destruct (String.prefix needle "") eqn:P; [|discriminate].
    intros H. inversion H; subst. apply prefix_append in P. destruct P as [post P].
    rewrite P at 1. rewrite P at 2. rewrite drop_append. reflexivity.
  - destruct (String.prefix needle (String c r)) eqn:P.
    + intros H. inversion H; subst. apply prefix_append in P. destruct P as [post P].
      rewrite P. rewrite drop_append. reflexivity.
    + destruct (Py.partition needle r) as [[b a]|]; [|discriminate].
      intros H. inversion H; subst.
      change (String c r = String c (b +:+ needle +:+ after)).
      f_equal. apply IH. reflexivity.
Qed.

(** [needle in s] holds exactly when [s] is some text, the needle, and
    some more text. *)
Lemma contains_substring (needle s : string) :
  Py.contains needle s = true <-> exists pre post, s = pre +:+ needle +:+ post.
Proof.
  unfold Py.contains. split.
  - destruct (Py.partition needle s) as [[b a]|] eqn:P; [|discriminate].
    intros _. exists b, a. apply partition_splits. exact P.
  - intros (pre & post & ->). induction pre as [|c pre IH].
    + rewrite partition_unfold.
      assert (P : String.prefix needle ("" +:+ needle +:+ post) = true).
      { apply prefix_append. exists post. reflexivity. }
      rewrite P. reflexivity.
    + rewrite partition_unfold.
      destruct (String.prefix needle (String c pre +:+ needle +:+ post)); [reflexivity|].
      simpl. destruct (Py.partition needle (pre +:+ needle +:+ post)) as [[b a]|];
        [reflexivity | discriminate].
Qed.

(** Two ways of counting the elements of a list differ by the elements
    only one of them counts. *)
Lemma filter_length_balance {A : Type} (a b : A -> bool) (l : list A) :
  (Z.of_nat (length (List.filter a l))
   + Z.of_nat (length (List.filter (fun x => b x && negb (a x)) l))
   = Z.of_nat (length (List.filter b l))
     + Z.of_nat (length (List.filter (fun x => a x && negb (b x)) l)))%Z.
Proof.
  induction l as [|x l IH]; [reflexivity|].
  simpl. destruct (a x), (b x); simpl; lia.
Qed.

End Substring.

(** C10, the claim as it stands fails: a transcript of one user turn whose
    message body holds the marker; the body contains the substring, and the
    counter still equals the number of user-turn records, 1. *)
Lemma marked_body_is_counted_once :
  let lines := [Examples.nested_user_line] in
  let p := Examples.at_ Examples.project "s1" (Examples.transcript lines 60 "1700000004.5") in
  existsb body_marked lines = true /\
  Topic.get_exchange_count (Some p) = 1%Z /\
  user_turns lines = 1%Z.
Proof. vm_compute. repeat split; reflexivity. Qed.

(** C10 (as amended). The hook's exchange counter returns the number of
    raw lines that contain one of the two spellings of the marker anywhere
    (0 for no path, a missing file or an unreadable one).  It differs from the
    number of parsed user-turn records by the marked lines that are not
    user-turn records, less the user-turn records whose line is not marked;
    and for some transcripts it exceeds the number of user-turn records. *)
Theorem exchange_count_counts_marked_lines :
  (forall line,
     Topic.counts_as_user line = true <->
     exists pre post, line = pre +:+ Topic.user_marker_compact +:+ post \/
                      line = pre +:+ Topic.user_marker_spaced +:+ post) /\
  Topic.get_exchange_count None = 0%Z /\
  (forall parent stem,
     Topic.get_exchange_count
       (Some {| Fs.parent := parent; Fs.stem := stem; Fs.target := None |}) = 0%Z) /\
  (forall parent stem size mtime,
     Topic.get_exchange_count
       (Some {| Fs.parent := parent; Fs.stem := stem;
                Fs.target := Some {| Fs.content := None; Fs.st_size := size;
                                     Fs.st_mtime := mtime |} |}) = 0%Z) /\
  (forall parent stem size mtime lines,
     let count :=
       Topic.get_exchange_count
         (Some {| Fs.parent := parent; Fs.stem := stem;
                  Fs.target := Some {| Fs.content := Some lines; Fs.st_size := size;
                                       Fs.st_mtime := mtime |} |}) in
     count = Z.of_nat (length (List.filter Topic.counts_as_user lines)) /\
     (count
      + Z.of_nat (length (List.filter
                            (fun l => is_turn "user" l && negb (Topic.counts_as_user l)) lines))
      = user_turns lines
        + Z.of_nat (length (List.filter
                              (fun l => Topic.counts_as_user l && negb (is_turn "user" l))
                              lines)))%Z) /\
  (let lines := [Examples.user_line 1; Examples.progress_line] in
   Topic.get_exchange_count
     (Some (Examples.at_ Examples.project "s1" (Examples.transcript lines 200 "1700000005.5")))
   = 2%Z /\ user_turns lines = 1%Z).
Proof.
  split.
  { intros line. unfold Topic.counts_as_user. rewrite orb_true_iff, !contains_substring.
    split.
    - intros [(pre & post & H)|(pre & post & H)]; exists pre, post; auto.
    - intros (pre & post & [H|H]); [left|right]; exists pre, post; exact H. }
  split; [reflexivity|]. split; [reflexivity|]. split; [reflexivity|]. split.
  { intros parent stem size mtime lines count. subst count. simpl.
    split; [reflexivity|]. unfold user_turns. apply filter_length_balance. }
  vm_compute. split; reflexivity.
Qed.

(* ===================================================================== *)
(** ** Lengths of Python strings *)
(* ===================================================================== *)

Section Lengths.

Lemma str_length_app (a b : string) :
  String.length (a +:+ b) = String.length a + String.length b.
Proof. induction a as [|c a IH]; simpl; [reflexivity | rewrite IH; reflexivity]. Qed.


Lemma str_length_take_all (n : nat) (s : string) :
  String.length s <= n -> Py.take n s = s.
Proof.
  revert s. induction n as [|n IH]; intros [|c s]; simpl; intros H; try reflexivity; try lia.
  rewrite IH; [reflexivity | lia].
Qed.

Lemma len_nonneg (s : string) : (0 <= Py.len s)%Z.
Proof. unfold Py.len. lia. Qed.

End Lengths.

(* ===================================================================== *)
(** ** The topic the hook extracts *)
(* ===================================================================== *)

Section TopicText.



Lemma extract_topic_from_none (ms : list string) :
  Topic.extract_topic_from ms = None
  <-> Forall (fun m => (Py.len (Topic.clean m) < 10)%Z) ms.
Proof.
  induction ms as [|m ms IH]; simpl.
  - split; [intros _; constructor | reflexivity].
  - destruct (Py.len (Topic.clean m) <? 10)%Z eqn:E.
    + rewrite IH. apply Z.ltb_lt in E. split.
      * intros H. constructor; assumption.
      * intros H. inversion H; assumption.
    + apply Z.ltb_ge in E. split; [discriminate|].
      intros H. inversion H; subst. lia.
Qed.

End TopicText.


(** X2. [extract_topic] falls back through all the messages, most recent
    first: with [m] the most recent message, the topic is the headline of [m]
    when the cleaned [m] has at least 10 characters, and otherwise the topic
    of the earlier messages; so it returns [None] exactly when every message
    cleans to fewer than 10 characters (in particular for no message). *)
Theorem extract_topic_falls_back (messages : list string) (m : string) :
  Topic.extract_topic (messages ++ [m])
  = (if (Py.len (Topic.clean m) <? 10)%Z then Topic.extract_topic messages
     else Some (Topic.headline (Topic.clean m)))
  /\ (Topic.extract_topic messages = None
      <-> Forall (fun m => (Py.len (Topic.clean m) < 10)%Z) messages).
Proof.
  split.
  - unfold Topic.extract_topic. rewrite rev_app_distr. reflexivity.
  - unfold Topic.extract_topic. rewrite extract_topic_from_none.
    split; intros H.
    + apply Forall_rev in H. rewrite rev_involutive in H. exact H.
    + apply Forall_rev. exact H.
Qed.

(* ===================================================================== *)
(** ** The recent user messages the hook reads *)
(* ===================================================================== *)

Section Recent.

Import Dyn.

Lemma classify_message (line content : string) :
  Topic.classify line = Topic.Message content -> substantive content.
Proof.
  unfold Topic.classify.
  destruct (Json.loads line) as [entry|]; [|discriminate].
  destruct (get entry "type" JNull) as [ty|]; [|discriminate].
  destruct (negb (str_eq ty "user")); [discriminate|].
  destruct (get entry "message" (JObj [])) as [message|]; [|discriminate].
  destruct (get message "content" (JStr "")) as [c|]; [|discriminate].
  destruct (match c with
            | JArr items => JStr <$> join " " (text_parts items)
            | _ => Some c
            end) as [c'|]; [|discriminate].
  destruct (negb (truthy c')); [discriminate|].
  destruct (py_len c') as [n|] eqn:L; [|discriminate].
  destruct (n <? 15)%Z eqn:E; [discriminate|].
  destruct c' as [| | | |s| |]; try discriminate.
  destruct (existsb (fun p => p s) Topic.SKIP_RE) eqn:S; [discriminate|].
  intros H. inversion H; subst. split; [|exact S].
  simpl in L. inversion L; subst. apply Z.ltb_ge in E. exact E.
Qed.

Lemma recent_loop_bounded (lines : list string) (count : nat) (acc : list string) :
  length acc < Nat.max count 1 -> Forall substantive acc ->
  length (Topic.recent_loop lines count acc) <= Nat.max count 1
  /\ Forall substantive (Topic.recent_loop lines count acc).
Proof.
  revert acc. induction lines as [|line r IH]; intros acc Hl Hs; simpl.
  - split; [lia | exact Hs].
  - destruct (Topic.classify line) as [|content|] eqn:C.
    + apply IH; assumption.
    + assert (Hs' : Forall substantive (acc ++ [content])).
      { apply Forall_app. split; [exact Hs|]. constructor; [|constructor].
        eapply classify_message. exact C. }
      assert (Hl' : length (acc ++ [content]) = S (length acc))
        by (rewrite length_app; simpl; lia).
      destruct (count <=? length (acc ++ [content])) eqn:E.
      * split; [lia | exact Hs'].
      * apply Nat.leb_gt in E. apply IH; [lia | exact Hs'].
    + split; [lia | exact Hs].
Qed.

End Recent.

(** X3. [extract_recent_user_messages] returns at most [count] messages
    (one when [count] is 0), each of at least 15 characters and matching none
    of the skip patterns; for a path with no file or a file that cannot be
    read it returns none. *)
Theorem recent_user_messages_bounded (p : Fs.path) (count : nat) :
  let messages := Topic.extract_recent_user_messages p count in
  length messages <= Nat.max count 1
  /\ Forall (fun m => (15 <= Py.len m)%Z
                      /\ existsb (fun skip => skip m) Topic.SKIP_RE = false) messages
  /\ (match Fs.target p with
      | Some f => Fs.content f = None
      | None => True
      end -> messages = []).
Proof.
  intros messages. subst messages. unfold Topic.extract_recent_user_messages.
  destruct (Fs.target p) as [f|].
  - destruct (Fs.content f) as [lines|].
    + destruct (recent_loop_bounded (rev (Topic.tail_lines lines)) count [])
        as [Hl Hs]; [simpl; lia | constructor |].
      split; [rewrite length_rev; exact Hl|].
      split; [apply Forall_rev; exact Hs | discriminate].
    + split; [simpl; lia|]. split; [constructor | reflexivity].
  - split; [simpl; lia|]. split; [constructor | reflexivity].
Qed.

(* ===================================================================== *)
(** ** Pairing, filtering and truncation in the context extractor *)
(* ===================================================================== *)

Section Pairing.

Lemma assistant_run_spec (es : list entry) :
  exists run,
    es = run ++ snd (Analyzer.assistant_run es)
    /\ fst (Analyzer.assistant_run es) = map e_text run
    /\ Forall (fun e => e_type e = "assistant") run
    /\ match snd (Analyzer.assistant_run es) with
       | e :: _ => e_type e <> "assistant"
       | [] => True
       end.
Proof.
  induction es as [|e r IH]; simpl.
  - exists []. repeat split; constructor.
  - destruct (String.eqb (e_type e) "assistant") eqn:E.
    + destruct IH as (run & H1 & H2 & H3 & H4).
      destruct (Analyzer.assistant_run r) as [parts rest]. simpl in *.
      exists (e :: run). split; [simpl; rewrite <- H1; reflexivity|].
      split; [simpl; rewrite H2; reflexivity|].
      split; [constructor; [apply String.eqb_eq; exact E | exact H3] | exact H4].
    + exists []. simpl. split; [reflexivity|]. split; [reflexivity|].
      split; [constructor|]. apply String.eqb_neq. exact E.
Qed.

Lemma assistants_not_users (run : list entry) :
  Forall (fun e => e_type e = "assistant") run ->
  List.filter is_user run = [].
Proof.
  induction 1 as [|e run He _ IH]; [reflexivity|].
  simpl. unfold is_user at 1. rewrite He. simpl. exact IH.
Qed.

(** The loop reads every entry once: with enough fuel the result does not
    depend on the fuel. *)
Lemma pair_loop_unfold (fuel : nat) (e : entry) (r : list entry) :
  length (e :: r) <= fuel ->
  Analyzer.pair_loop fuel (e :: r)
  = if is_user e
    then {| user := e_text e;
            assistant := Py.join (String Py.newline "") (fst (Analyzer.assistant_run r));
            timestamp := e_timestamp e |}
         :: Analyzer.pair_loop (pred fuel) (snd (Analyzer.assistant_run r))
    else Analyzer.pair_loop (pred fuel) r.
Proof.
  destruct fuel as [|f]; simpl; [lia|]. intros _. unfold is_user.
  destruct (String.eqb (e_type e) "user"); [|reflexivity].
  destruct (Analyzer.assistant_run r); reflexivity.
Qed.

Lemma pair_loop_fuel (fuel : nat) (es : list entry) :
  length es <= fuel -> Analyzer.pair_loop fuel es = Analyzer.pair_exchanges es.
Proof.
  unfold Analyzer.pair_exchanges.
  remember (length es) as n eqn:Hn. revert fuel es Hn.
  induction n as [n IH] using lt_wf_ind. intros fuel es Hn Hf.
  destruct es as [|e r].
  - destruct fuel; subst; reflexivity.
  - rewrite pair_loop_unfold by (rewrite <- Hn; exact Hf).
    rewrite (pair_loop_unfold n e r) by (rewrite Hn; lia).
    simpl in Hn.
    destruct (is_user e).
    + destruct (assistant_run_spec r) as (run & H1 & _).
      assert (Hl : length (snd (Analyzer.assistant_run r)) <= length r).
      { rewrite H1 at 2. rewrite length_app. lia. }
      f_equal.
      rewrite (IH (length (snd (Analyzer.assistant_run r))) ltac:(lia) (pred fuel) _ eq_refl)
        by lia.
      rewrite (IH (length (snd (Analyzer.assistant_run r))) ltac:(lia) (pred n) _ eq_refl)
        by lia.
      reflexivity.
    + rewrite (IH (length r) ltac:(lia) (pred fuel) r eq_refl) by lia.
      rewrite (IH (length r) ltac:(lia) (pred n) r eq_refl) by lia.
      reflexivity.
Qed.

Lemma pair_exchanges_cons (e : entry) (r : list entry) :
  Analyzer.pair_exchanges (e :: r)
  = if is_user e
    then {| user := e_text e;
            assistant := Py.join (String Py.newline "") (fst (Analyzer.assistant_run r));
            timestamp := e_timestamp e |}
         :: Analyzer.pair_exchanges (snd (Analyzer.assistant_run r))
    else Analyzer.pair_exchanges r.
Proof.
  unfold Analyzer.pair_exchanges at 1. rewrite pair_loop_unfold by lia.
  destruct (assistant_run_spec r) as (run & H1 & _).
  destruct (is_user e).
  - f_equal. apply pair_loop_fuel. simpl. rewrite H1 at 2. rewrite length_app. lia.
  - apply pair_loop_fuel. simpl. lia.
Qed.

Lemma pair_exchanges_users (es : list entry) :
  map user (Analyzer.pair_exchanges es) = map e_text (List.filter is_user es)
  /\ map timestamp (Analyzer.pair_exchanges es) = map e_timestamp (List.filter is_user es).
Proof.
  remember (length es) as n eqn:Hn. revert es Hn.
  induction n as [n IH] using lt_wf_ind. intros es Hn.
  destruct es as [|e r]; [split; reflexivity|].
  rewrite pair_exchanges_cons. simpl in Hn. simpl.
  destruct (assistant_run_spec r) as (run & H1 & _ & H3 & _).
  destruct (is_user e).
  - assert (Hf : List.filter is_user r
                 = List.filter is_user (snd (Analyzer.assistant_run r))).
    { rewrite H1 at 1. rewrite List.filter_app, (assistants_not_users _ H3). reflexivity. }
    destruct (IH (length (snd (Analyzer.assistant_run r)))
                ltac:(rewrite Hn; rewrite H1 at 2; rewrite length_app; lia) _ eq_refl)
      as [Hu Ht].
    simpl. rewrite Hf, Hu, Ht. split; reflexivity.
  - apply (IH (length r) ltac:(lia) r eq_refl).
Qed.

End Pairing.

(** X4. The pairing loop of [extract_exchanges] makes exactly one exchange
    per user entry, in order, with that entry's text and timestamp; the
    assistant text of an exchange joins the assistant entries that directly
    follow the user entry; and assistant entries before the first user entry
    belong to no exchange. *)
Theorem one_exchange_per_user_entry (entries : list entry) :
  map user (Analyzer.pair_exchanges entries) = map e_text (List.filter is_user entries)
  /\ map timestamp (Analyzer.pair_exchanges entries)
     = map e_timestamp (List.filter is_user entries)
  /\ length (Analyzer.pair_exchanges entries) = length (List.filter is_user entries)
  /\ (forall u replies rest,
        is_user u = true ->
        Forall (fun e => e_type e = "assistant") replies ->
        match rest with e :: _ => e_type e <> "assistant" | [] => True end ->
        Analyzer.pair_exchanges (u :: replies ++ rest)
        = {| user := e_text u;
             assistant := Py.join (String Py.newline "") (map e_text replies);
             timestamp := e_timestamp u |} :: Analyzer.pair_exchanges rest)
  /\ (forall e rest,
        is_user e = false ->
        Analyzer.pair_exchanges (e :: rest) = Analyzer.pair_exchanges rest).
Proof.
  destruct (pair_exchanges_users entries) as [Hu Ht].
  split; [exact Hu|]. split; [exact Ht|]. split.
  { rewrite <- (length_map user), Hu, length_map. reflexivity. }
  split.
  - intros u replies rest Hu' Hr Hrest. rewrite pair_exchanges_cons, Hu'.
    assert (E : Analyzer.assistant_run (replies ++ rest) = (map e_text replies, rest)).
    { clear Hu Ht Hu'. induction Hr as [|e run He _ IH]; simpl.
      - destruct rest as [|e r]; [reflexivity|]. simpl.
        apply String.eqb_neq in Hrest. rewrite Hrest. reflexivity.
      - rewrite He. simpl. rewrite IH. reflexivity. }
    rewrite E. reflexivity.
  - intros e rest He. rewrite pair_exchanges_cons, He. reflexivity.
Qed.

Section Filters.

Variable pattern : Type.
Variable re_compile : string -> option pattern.
Variable re_search : pattern -> string -> bool.

Lemma filter_is_sublist {A : Type} (p : A -> bool) (l : list A) :
  List.filter p l `sublist_of` l.
Proof.
  induction l as [|x l IH]; simpl; [constructor|].
  destruct (p x); [apply sublist_skip | apply sublist_cons]; exact IH.
Qed.

Lemma filter_by_query_sublist (query : string) (exchanges : list exchange) :
  Analyzer.filter_by_query pattern re_compile re_search query exchanges
  `sublist_of` exchanges.
Proof.
  rewrite filter_by_query_stages. unfold Analyzer.spec_filter, Analyzer.spec_stages.
  rewrite first_nonempty_cases.
  assert (H1 : match re_compile query with
               | Some p => Analyzer.regex_matches pattern re_search p exchanges
               | None => []
               end `sublist_of` exchanges).
  { destruct (re_compile query); [apply filter_is_sublist | apply sublist_nil_l]. }
  destruct (match re_compile query with
            | Some p => Analyzer.regex_matches pattern re_search p exchanges
            | None => []
            end) as [|x l]; [|exact H1].
  destruct (Analyzer.substring_matches query exchanges) as [|y m] eqn:E.
  - apply filter_is_sublist.
  - rewrite <- E. apply filter_is_sublist.
Qed.

Lemma extract_exchanges_kept (query : option string) (entries : list entry)
    (limit max_chars : nat) :
  exists kept,
    kept `sublist_of` Analyzer.pair_exchanges entries
    /\ Analyzer.extract_exchanges pattern re_compile re_search entries query limit max_chars
       = take limit (map (Analyzer.truncate_exchange max_chars) kept).
Proof.
  unfold Analyzer.extract_exchanges.
  destruct query as [q|].
  - destruct (String.eqb q "").
    + exists (Analyzer.pair_exchanges entries). split; reflexivity.
    + eexists. split; [apply filter_by_query_sublist | reflexivity].
  - exists (Analyzer.pair_exchanges entries). split; reflexivity.
Qed.


End Filters.

(** X5. The query filter of [extract_exchanges] only selects: what it
    returns is a subsequence of the exchanges it was given, so no exchange is
    invented, repeated or moved; and the result of [extract_exchanges] is the
    first [limit] of the truncated exchanges of such a subsequence of the
    pairs. *)
Theorem query_filter_only_selects (pattern : Type) (re_compile : string -> option pattern)
    (re_search : pattern -> string -> bool) (query : option string)
    (entries : list entry) (exchanges : list exchange) (limit max_chars : nat) :
  (forall q, Analyzer.filter_by_query pattern re_compile re_search q exchanges
             `sublist_of` exchanges)
  /\ exists kept,
       kept `sublist_of` Analyzer.pair_exchanges entries
       /\ Analyzer.extract_exchanges pattern re_compile re_search entries query limit max_chars
          = take limit (map (Analyzer.truncate_exchange max_chars) kept).
Proof.
  split; [intros q; apply filter_by_query_sublist | apply extract_exchanges_kept].
Qed.


(* ===================================================================== *)
(** ** What the parser returns *)
(* ===================================================================== *)

Section Titles.

Import Dyn.

Lemma str_length_take_exact (n : nat) (s : string) :
  n <= String.length s -> String.length (Py.take n s) = n.
Proof.
  revert s. induction n as [|n IH]; intros [|c s]; simpl; intros H; try reflexivity; try lia.
  rewrite IH; [reflexivity | lia].
Qed.

Lemma shortened_length (fl : string) :
  (10 < Py.len fl)%Z -> (10 < Py.len (shortened fl) <= 80)%Z.
Proof.
  unfold shortened. intros H. destruct (80 <? Py.len fl)%Z eqn:E.
  - apply Z.ltb_lt in E. unfold Py.len in *. rewrite str_length_app.
    rewrite str_length_take_exact by lia. simpl. lia.
  - apply Z.ltb_ge in E. lia.
Qed.

Lemma pick_title_cons (prompt : string) (r : list json) :
  Indexer.pick_title (JStr prompt :: r)
  = if title_candidate (title_line prompt)
    then Return (JStr (shortened (title_line prompt)))
    else Indexer.pick_title r.
Proof.
  cbn [Indexer.pick_title]. fold (title_line prompt). cbv zeta.
  unfold title_candidate, shortened. rewrite Z.leb_antisym.
  destruct (10 <? Py.len (title_line prompt))%Z; [|reflexivity].
  destruct (existsb (fun p => Py.startswith p (title_line prompt))
              Indexer._SKIP_TITLE_PREFIXES); [reflexivity|].
  destruct (80 <? Py.len (title_line prompt))%Z; reflexivity.
Qed.

Lemma pick_title_spec (prompts : list json) :
  match Indexer.pick_title prompts with
  | Return JNull =>
      Forall (fun v => exists prompt, v = JStr prompt
                                      /\ title_candidate (title_line prompt) = false) prompts
  | Return (JStr t) =>
      exists skipped prompt later,
        prompts = map JStr skipped ++ JStr prompt :: later
        /\ Forall (fun s => title_candidate (title_line s) = false) skipped
        /\ title_candidate (title_line prompt) = true
        /\ t = shortened (title_line prompt)
  | Return _ => False
  | Raise => exists v, In v prompts /\ match v with JStr _ => False | _ => True end
  end.
Proof.
  induction prompts as [|v r IH]; [constructor|].
  destruct v as [| | | |prompt| |];
    try (cbn [Indexer.pick_title]; eexists; split; [left; reflexivity | exact I]).
  rewrite pick_title_cons.
  destruct (title_candidate (title_line prompt)) eqn:Hc.
  - exists [], prompt, r. repeat split; auto.
  - destruct (Indexer.pick_title r) as [[| | | |t| |]|]; cbv beta iota in IH |- *;
      try exact IH.
    + constructor; [eauto | exact IH].
    + destruct IH as (skipped & p & later & -> & Hs & Hp & Ht).
      exists (prompt :: skipped), p, later. simpl. repeat split; auto.
    + destruct IH as (v & Hin & Hv). exists v. split; [right; exact Hin | exact Hv].
Qed.

End Titles.

(** X7. [_pick_title_from_prompts] returns [None] or a title of more than
    10 and at most 80 characters: the first line of the first of the first
    five prompts whose first line has more than 10 characters and none of the
    skip prefixes, cut to 77 characters and three dots when it has more than
    80.  Prompts after the fifth are never looked at. *)
Theorem picked_title_is_first_good_line (user_prompts : list json) :
  match Indexer._pick_title_from_prompts user_prompts with
  | Dyn.Return JNull => True
  | Dyn.Return (JStr t) =>
      (10 < Py.len t <= 80)%Z
      /\ exists skipped prompt later,
           take 5 user_prompts = map JStr skipped ++ JStr prompt :: later
           /\ Forall (fun s => title_candidate (title_line s) = false) skipped
           /\ title_candidate (title_line prompt) = true
           /\ t = shortened (title_line prompt)
  | Dyn.Return _ => False
  | Dyn.Raise => True
  end
  /\ forall more,
       5 <= length user_prompts ->
       Indexer._pick_title_from_prompts (user_prompts ++ more)
       = Indexer._pick_title_from_prompts user_prompts.
Proof.
  split.
  - unfold Indexer._pick_title_from_prompts.
    pose proof (pick_title_spec (take 5 user_prompts)) as H.
    destruct (Indexer.pick_title (take 5 user_prompts)) as [[| | | |t| |]|];
      cbv beta iota in H |- *; auto.
    destruct H as (skipped & prompt & later & E & Hs & Hp & Ht).
    split; [|eauto 10].
    rewrite Ht. apply shortened_length.
    unfold title_candidate in Hp. apply andb_true_iff in Hp. destruct Hp as [Hp _].
    apply Z.ltb_lt in Hp. exact Hp.
  - intros more H. unfold Indexer._pick_title_from_prompts.
    rewrite take_app_le by exact H. reflexivity.
Qed.

Section Output.

Import Dyn.




Lemma finish_fields (cfg : config) (p : Fs.path) (a : Parser.locals) (k k' : clock)
    (data : session_data) :
  Indexer.finish cfg p a k = (Return data, k') ->
  exists f,
    Fs.target p = Some f
    /\ d_session_id data = Fs.stem p /\ d_project data = Fs.parent p
    /\ d_file_size data = Fs.st_size f /\ d_file_hash data = Indexer._file_hash f
    /\ d_exchange_count data = Parser.exchange_count a
    /\ d_start_time data = Parser.start_time a /\ d_end_time data = Parser.end_time a
    /\ d_has_compaction data = Parser.has_compaction a
    /\ d_tags data = Parser.tags_str a
    /\ Indexer.fts_content_of (Parser.user_prompts a) = Return (d_fts_content data)
    /\ Indexer.topic_entries (Parser.summaries a) (Parser.end_time a) k
       = (Return (d_topics data), k').
Proof.
  unfold Indexer.finish.
  destruct (Indexer.auto_title a) as [[ti td]|]; [|intros H; inversion H].
  destruct (Indexer.detect_client cfg (Fs.parent p) a) as [cl|]; [|intros H; inversion H].
  destruct (Indexer.fts_content_of (Parser.user_prompts a)) as [fts|];
    [|intros H; inversion H].
  destruct (Indexer.topic_entries _ _ k) as [[tp|] k3]; [|intros H; inversion H].
  destruct (Fs.target p) as [f|] eqn:T; [|intros H; inversion H].
  intros H. inversion H; subst. exists f. simpl. repeat split; reflexivity.
Qed.

Lemma parse_session_finish (cfg : config) (p : Fs.path) (k k' : clock)
    (data : session_data) :
  Indexer._parse_session cfg p k = (Return (Some data), k') ->
  exists f lines a,
    Fs.target p = Some f /\ Fs.content f = Some lines
    /\ Parser.parse_lines lines Parser.initial = Some a
    /\ Indexer.finish cfg p a k = (Return data, k').
Proof.
  unfold Indexer._parse_session.
  destruct (Fs.target p) as [f|] eqn:T; [|discriminate].
  destruct (Fs.content f) as [lines|] eqn:C; [|discriminate].
  destruct (Parser.parse_lines lines Parser.initial) as [a|] eqn:L; [|discriminate].
  destruct (Indexer.finish cfg p a k) as [[d|] k1] eqn:F; simpl; [|discriminate].
  intros H. inversion H; subst. exists f, lines, a. repeat split; assumption.
Qed.

End Output.


Section TimeSpan.

Import Parser Dyn.

Lemma custom_title_span (entry : json) (a a' : locals) :
  custom_title entry a = Some a' -> span a' = span a.
Proof.
  unfold custom_title. destruct (get entry "customTitle" (JStr "")) as [v|]; [|discriminate].
  simpl. destruct v; try discriminate.
  destruct (Py.startswith ">>>" s); [destruct (1 <? _)|];
    intros H; inversion H; reflexivity.
Qed.

Lemma extract_model_span (ty entry : json) (a a' : locals) :
  extract_model ty entry a = Some a' -> span a' = span a.
Proof.
  unfold extract_model. destruct (_ && _).
  - destruct (get entry "message" (JObj [])) as [m|]; [|discriminate]. simpl.
    destruct (get m "model" (JStr "")) as [v|]; [|discriminate]. simpl.
    intros H. inversion H. reflexivity.
  - intros H. inversion H. reflexivity.
Qed.

Lemma extract_user_message_span (ty entry : json) (a a' : locals) :
  extract_user_message ty entry a = Some a' -> span a' = span a.
Proof.
  unfold extract_user_message. destruct (str_eq ty "user"); [|intros H; inversion H; reflexivity].
  destruct (get entry "message" (JObj [])) as [m|]; [|discriminate]. simpl.
  destruct (get m "content" (JStr "")) as [v|]; [|discriminate]. simpl.
  destruct (match v with JArr items => _ | _ => Some v end) as [c|]; [|discriminate].
  simpl. destruct (truthy c); [|intros H; inversion H; reflexivity].
  destruct (py_len c) as [n|]; [|discriminate]. simpl.
  destruct (10 <? n)%Z; intros H; inversion H; reflexivity.
Qed.

Lemma extract_tools_span (ty entry : json) (a a' : locals) :
  extract_tools ty entry a = Some a' -> span a' = span a.
Proof.
  unfold extract_tools. destruct (str_eq ty "assistant"); [|intros H; inversion H; reflexivity].
  destruct (get entry "message" (JObj [])) as [m|]; [|discriminate]. simpl.
  destruct (get m "content" (JArr [])) as [v|]; [|discriminate]. simpl.
  destruct v; try (intros H; inversion H; reflexivity).
  destruct (tool_blocks items _) as [ta|]; [|discriminate]. simpl.
  intros H. inversion H. reflexivity.
Qed.

Lemma parse_entry_span (line : string) (entry : json) (a a' : locals) :
  Json.loads line = Some entry ->
  parse_entry entry a = Some a' ->
  span a' = span_step line (span a).
Proof.
  intros L H. unfold parse_entry in H.
  destruct (get entry "type" JNull) as [ty|] eqn:G; [|discriminate]. simpl in H.
  destruct (get_dict _ _ _ _ G) as (d & -> & Hty).
  change (get (JObj d) "timestamp" JNull)
    with (Some (default JNull (Json.dict_lookup "timestamp" d))) in H.
  cbn [mbind option_bind] in H.
  set (ts := default JNull (Json.dict_lookup "timestamp" d)) in *.
  set (a0 := track_timestamps ts a) in H.
  destruct (if str_eq ty "custom-title" then custom_title (JObj d) a0 else Some a0)
    as [a1|] eqn:E1; [|discriminate]. cbn [mbind option_bind] in H.
  destruct (if str_eq ty "summary" then compaction (JObj d) a1 else Some a1)
    as [a2|] eqn:E2; [|discriminate]. cbn [mbind option_bind] in H.
  destruct (extract_model ty (JObj d) (count_exchange ty a2)) as [a3|] eqn:E3;
    [|discriminate]. cbn [mbind option_bind] in H.
  destruct (extract_user_message ty (JObj d) a3) as [a4|] eqn:E4; [|discriminate].
  cbn [mbind option_bind] in H.
  rewrite (extract_tools_span _ _ _ _ H), (extract_user_message_span _ _ _ _ E4),
    (extract_model_span _ _ _ _ E3).
  assert (Hc : span (count_exchange ty a2) = span a2).
  { unfold count_exchange. destruct (_ || _); reflexivity. }
  rewrite Hc.
  assert (H1 : span a1 = span a0).
  { destruct (str_eq ty "custom-title").
    - apply (custom_title_span _ _ _ E1).
    - inversion E1; reflexivity. }
  assert (H0 : span a0 = (match (if truthy ts then Some ts else None) with
                          | Some t => match start_time a with JNull => t | _ => start_time a end
                          | None => start_time a
                          end,
                          default (end_time a) (if truthy ts then Some ts else None),
                          has_compaction a)).
  { subst a0. unfold track_timestamps. destruct (truthy ts); [|reflexivity].
    unfold span. simpl. destruct (start_time a); reflexivity. }
  assert (H2 : span a2 = (fst (fst (span a1)), snd (fst (span a1)),
                          snd (span a1) || str_eq ty "summary")).
  { destruct (str_eq ty "summary").
    - unfold compaction in E2. destruct (summary_candidate (JObj d)); [|discriminate].
      simpl in E2. inversion E2; subst. unfold span. simpl. rewrite orb_true_r. reflexivity.
    - inversion E2; subst. unfold span. simpl. rewrite orb_false_r. reflexivity. }
  rewrite H2, H1, H0. unfold span_step, span, timestamp_of, is_turn. rewrite L.
  fold ts. rewrite <- Hty. reflexivity.
Qed.

Lemma parse_lines_span (lines : list string) (a a' : locals) :
  parse_lines lines a = Some a' ->
  span a' = fold_left (fun s line => span_step line s) lines (span a).
Proof.
  revert a. induction lines as [|line lines IH]; simpl; intros a H.
  - inversion H. reflexivity.
  - destruct (Json.loads line) as [entry|] eqn:L.
    + destruct (parse_entry entry a) as [a1|] eqn:E; [|discriminate]. simpl in H.
      rewrite (IH _ H), (parse_entry_span _ _ _ _ L E). reflexivity.
    + rewrite (IH _ H). f_equal.
      unfold span_step, timestamp_of, is_turn, span. rewrite L.
      simpl. rewrite orb_false_r. reflexivity.
Qed.

Lemma timestamp_of_truthy (line : string) (t : json) :
  timestamp_of line = Some t -> t <> JNull.
Proof.
  unfold timestamp_of. destruct (Json.loads line) as [[]|]; try discriminate.
  destruct (truthy _) eqn:T; [|discriminate].
  intros H. inversion H; subst. intros E. rewrite E in T. discriminate.
Qed.

Lemma last_default {A : Type} (a t : A) (l : list A) :
  default t (list.last l) = default a (list.last (t :: l)).
Proof.
  destruct l as [|x l]; [reflexivity|]. rewrite last_cons_cons.
  destruct (list.last (x :: l)) eqn:E; [reflexivity|].
  apply last_None in E. discriminate.
Qed.

Lemma fold_span (lines : list string) (first last : json) (compacted : bool) :
  fold_left (fun s line => span_step line s) lines (first, last, compacted)
  = (match first with
     | JNull => default JNull (head (timestamps_of lines))
     | _ => first
     end,
     default last (list.last (timestamps_of lines)),
     compacted || existsb (is_turn "summary") lines).
Proof.
  revert first last compacted. induction lines as [|line lines IH]; intros first last c.
  - simpl. rewrite orb_false_r. destruct first; reflexivity.
  - cbn [fold_left]. unfold span_step at 2. rewrite IH.
    unfold timestamps_of. cbn [omap list_omap existsb].
    fold (timestamps_of lines).
    destruct (timestamp_of line) as [t|] eqn:T.
    + pose proof (timestamp_of_truthy _ _ T) as Hn.
      f_equal; [f_equal|].
      * destruct first; simpl; try reflexivity. destruct t; try reflexivity. congruence.
      * cbn [default from_option]. apply last_default.
      * rewrite orb_assoc. reflexivity.
    + simpl. f_equal. rewrite orb_assoc. reflexivity.
Qed.

End TimeSpan.

(** X9. In the record [_parse_session] returns, [start_time] is the first
    time stamp of the transcript and [end_time] the last, over the records of
    every type ([None] when there is none), and [has_compaction] is set
    exactly when some record is a summary. *)
Theorem parsed_time_span (cfg : config) (p : Fs.path) (f : Fs.file) (lines : list string)
    (k k' : clock) (data : session_data) :
  Fs.target p = Some f -> Fs.content f = Some lines ->
  Indexer._parse_session cfg p k = (Dyn.Return (Some data), k') ->
  d_start_time data = default JNull (head (timestamps_of lines))
  /\ d_end_time data = default JNull (last (timestamps_of lines))
  /\ d_has_compaction data = existsb (is_turn "summary") lines.
Proof.
  intros T C P.
  destruct (parse_session_finish _ _ _ _ _ P) as (f' & lines' & a & T' & C' & L & F).
  rewrite T in T'. inversion T'; subst f'. rewrite C in C'. inversion C'; subst lines'.
  destruct (finish_fields _ _ _ _ _ _ F)
    as (_ & _ & _ & _ & _ & _ & _ & Hs & He & Hc & _).
  pose proof (parse_lines_span _ _ _ L) as H.
  change (span Parser.initial) with (JNull, JNull, false) in H.
  rewrite fold_span in H. unfold span in H. inversion H as [[H1 H2 H3]].
  rewrite Hs, He, Hc, H1, H2, H3. repeat split; reflexivity.
Qed.

(** X9, on the valid transcript of twelve user turns and one assistant turn. *)
Lemma parsed_time_span_witness :
  let data := default Examples.first_parse
                (match fst (Indexer._parse_session Examples.cfg
                              (Examples.at_ Examples.project "aaa" Examples.valid)
                              Examples.wall) with
                 | Dyn.Return d => d
                 | Dyn.Raise => None
                 end) in
  d_start_time data = JStr "2025-01-15T10:01:00.000Z"
  /\ d_end_time data = JStr "2025-01-15T10:59:00.000Z"
  /\ d_has_compaction data = false.
Proof.
  intros data.
  destruct (parsed_time_span Examples.cfg (Examples.at_ Examples.project "aaa" Examples.valid)
              Examples.valid (Examples.twelve_turns ++ [Examples.assistant_line])
              Examples.wall Examples.wall data) as (H1 & H2 & H3).
  - reflexivity.
  - reflexivity.
  - vm_compute. reflexivity.
  - rewrite H1, H2, H3. vm_compute. repeat split; reflexivity.
Defined.

(* ===================================================================== *)
(** ** Statistics of the batch modes *)
(* ===================================================================== *)

Section Stats.

Import Sql Store Dyn.

Lemma backfill_loop_stats (cfg : config) (paths : list Fs.path) (s : backfill_stats)
    (k : clock) (c : conn) :
  match backfill_loop cfg paths s k c with
  | (Return s', _, _) =>
      total s' = total s
      /\ (indexed s' + skipped s' + errors s'
          = indexed s + skipped s + errors s + Z.of_nat (length paths))%Z
      /\ (indexed s <= indexed s')%Z /\ (skipped s <= skipped s')%Z
      /\ (errors s <= errors s')%Z
  | _ => True
  end.
Proof.
  revert s k c. induction paths as [|p r IH]; intros s k c.
  - cbn [backfill_loop length]. repeat split; lia.
  - cbn [backfill_loop]. destruct (visit cfg p k c) as [[[v|] k1] c1]; [|exact I].
    specialize (IH (count_backfill v s) k1 c1).
    destruct (backfill_loop cfg r (count_backfill v s) k1 c1) as [[[s'|] k2] c2];
      [|exact I].
    destruct IH as (H1 & H2 & H3 & H4 & H5).
    cbn [length]. destruct v; simpl in *; repeat split; lia.
Qed.

Lemma incremental_loop_stats (cfg : config) (paths : list Fs.path) (s : incremental_stats)
    (k : clock) (c : conn) :
  match incremental_loop cfg paths s k c with
  | (Return s', _, _) =>
      checked s' = (checked s + Z.of_nat (length paths))%Z
      /\ (i_indexed s' + unchanged s' + i_errors s'
          = i_indexed s + unchanged s + i_errors s + Z.of_nat (length paths))%Z
      /\ (i_indexed s <= i_indexed s')%Z /\ (unchanged s <= unchanged s')%Z
      /\ (i_errors s <= i_errors s')%Z
  | _ => True
  end.
Proof.
  revert s k c. induction paths as [|p r IH]; intros s k c.
  - cbn [incremental_loop length]. repeat split; lia.
  - cbn [incremental_loop]. destruct (visit cfg p k c) as [[[v|] k1] c1]; [|exact I].
    specialize (IH (count_incremental v (check_one s)) k1 c1).
    destruct (incremental_loop cfg r (count_incremental v (check_one s)) k1 c1)
      as [[[s'|] k2] c2]; [|exact I].
    destruct IH as (H1 & H2 & H3 & H4 & H5).
    cbn [length]. destruct v; simpl in *; repeat split; lia.
Qed.

End Stats.

(** X10. The statistics a batch run returns add up: for [backfill_all],
    [total] is the number of transcript files under the projects directory
    and every file is counted once, as indexed, skipped or error; for
    [index_incremental], [checked] is that number and every file is counted
    once, as indexed, unchanged or error.  No counter is negative. *)
Theorem batch_statistics_add_up (cfg : config) (dirs : list Fs.directory)
    (k : clock) (c : Sql.conn) :
  match Store.backfill_all cfg (Some dirs) k c with
  | (Dyn.Return s, _, _) =>
      total s = Z.of_nat (length (Store.session_files dirs))
      /\ (indexed s + skipped s + errors s = total s)%Z
      /\ (0 <= indexed s)%Z /\ (0 <= skipped s)%Z /\ (0 <= errors s)%Z
  | _ => True
  end
  /\ match Store.index_incremental cfg (Some dirs) k c with
     | (Dyn.Return s, _, _) =>
         checked s = Z.of_nat (length (Store.session_files dirs))
         /\ (i_indexed s + unchanged s + i_errors s = checked s)%Z
         /\ (0 <= i_indexed s)%Z /\ (0 <= unchanged s)%Z /\ (0 <= i_errors s)%Z
     | _ => True
     end.
Proof.
  split.
  - unfold Store.backfill_all.
    pose proof (backfill_loop_stats cfg (Store.session_files dirs)
                  {| total := Z.of_nat (length (Store.session_files dirs));
                     indexed := 0; skipped := 0; errors := 0 |} k c) as H.
    destruct (Store.backfill_loop _ _ _ _ _) as [[[s|] k1] c1]; [|exact I].
    simpl in H. destruct H as (H1 & H2 & H3 & H4 & H5). repeat split; lia.
  - unfold Store.index_incremental.
    pose proof (incremental_loop_stats cfg (Store.session_files dirs)
                  {| checked := 0; i_indexed := 0; unchanged := 0; i_errors := 0 |} k c) as H.
    destruct (Store.incremental_loop _ _ _ _ _) as [[[s|] k1] c1]; [|exact I].
    simpl in H. destruct H as (H1 & H2 & H3 & H4 & H5). repeat split; lia.
Qed.

(* ===================================================================== *)
(** ** What indexing one session does to the store *)
(* ===================================================================== *)

Section OneSession.

Import Sql Store Dyn.

Lemma index_session_other (sid0 : string) (cfg : config)
    (projects : option (list Fs.directory)) (p : Fs.path) (k k' : clock) (c c' : conn)
    (r : result bool) :
  Fs.stem p <> sid0 -> pending c = None ->
  index_session cfg projects None (Some p) k c = (r, k', c') ->
  pending c' = None /\ rows_of sid0 (committed c') = rows_of sid0 (committed c).
Proof.
  intros Hne Hp. unfold index_session.
  destruct (Fs.target p) as [f|]; [|intros H; inversion H; subst; auto].
  destruct (Indexer._parse_session cfg p k) as [[[data|]|] k1] eqn:P;
    try (intros H; inversion H; subst; auto; fail).
  destruct (_upsert_session data k1 c) as [[ok k2] c2] eqn:U.
  intros H. inversion H; subst.
  eapply upsert_other_session; [|exact Hp|exact U].
  rewrite (parse_session_id _ _ _ _ _ P). exact Hne.
Qed.

Lemma insert_each_tools (sid : string) (l : list (json * Z)) (d d' : db) :
  Steps.insert_each (insert_tool sid) l d = Some d' ->
  session_tools d' = session_tools d ++ map (usage_row_of sid) l
  /\ session_agents d' = session_agents d /\ session_content d' = session_content d.
Proof.
  revert d. induction l as [|[n z] l IH]; intros d H.
  - inversion H; subst. rewrite app_nil_r. auto.
  - cbn [Steps.insert_each] in H.
    destruct (insert_tool sid n z d) as [d1|] eqn:E; [|discriminate].
    cbn [mbind option_bind] in H. destruct (IH _ H) as (H1 & H2 & H3).
    unfold insert_tool in E. destruct (usage_ok sid n (session_tools d)); [|discriminate].
    inversion E; subst d1. simpl in *. rewrite H1, H2, H3, <- app_assoc. auto.
Qed.

Lemma insert_each_agents (sid : string) (l : list (json * Z)) (d d' : db) :
  Steps.insert_each (insert_agent sid) l d = Some d' ->
  session_agents d' = session_agents d ++ map (usage_row_of sid) l
  /\ session_tools d' = session_tools d /\ session_content d' = session_content d.
Proof.
  revert d. induction l as [|[n z] l IH]; intros d H.
  - inversion H; subst. rewrite app_nil_r. auto.
  - cbn [Steps.insert_each] in H.
    destruct (insert_agent sid n z d) as [d1|] eqn:E; [|discriminate].
    cbn [mbind option_bind] in H. destruct (IH _ H) as (H1 & H2 & H3).
    unfold insert_agent in E. destruct (usage_ok sid n (session_agents d)); [|discriminate].
    inversion E; subst d1. simpl in *. rewrite H1, H2, H3, <- app_assoc. auto.
Qed.

Lemma own_rows_after_delete (sid : string) (rows : list usage_row) (l : list (json * Z)) :
  List.filter (fun u => String.eqb (u_session_id u) sid)
    (List.filter (other_session sid) rows ++ map (usage_row_of sid) l)
  = map (usage_row_of sid) l.
Proof.
  rewrite List.filter_app.
  assert (H1 : List.filter (fun u => String.eqb (u_session_id u) sid)
                 (List.filter (other_session sid) rows) = []).
  { induction rows as [|u rows IH]; [reflexivity|]. simpl. unfold other_session at 1.
    destruct (String.eqb (u_session_id u) sid) eqn:E; simpl; [exact IH|].
    rewrite E. exact IH. }
  rewrite H1. simpl. induction l as [|x l IH]; [reflexivity|].
  simpl. rewrite String.eqb_refl. f_equal. exact IH.
Qed.

Lemma own_content_deleted (sid : string) (rows : list (string * string)) :
  List.filter (fun r : string * string => String.eqb (fst r) sid)
    (List.filter (fun r => negb (String.eqb (fst r) sid)) rows) = [].
Proof.
  induction rows as [|x l IH]; [reflexivity|]. simpl.
  destruct (String.eqb (fst x) sid) eqn:E; simpl; [exact IH|]. rewrite E. exact IH.
Qed.

Lemma frame4_same_usage (sid : string) : frame4 same_usage sid.
Proof.
  intros a b e s d d' H. unfold insert_topic in H.
  destruct (_ && _); [|discriminate]. inversion H; subst. repeat split.
Qed.

Lemma upsert_usage (data : session_data) (k k' : clock) (c c' : conn) :
  _upsert_session data k c = (true, k', c') ->
  let sid := d_session_id data in
  v_tools (rows_of sid (committed c')) = map (usage_row_of sid) (d_tools data)
  /\ v_agents (rows_of sid (committed c')) = map (usage_row_of sid) (d_agents data)
  /\ v_content (rows_of sid (committed c'))
     = if String.eqb (d_fts_content data) "" then [] else [(sid, d_fts_content data)].
Proof.
  intros Hup sid.
  pose proof (upsert_session_cases data k c) as Hat. rewrite Hup in Hat.
  destruct Hat as [_ (d1 & d2 & d3 & H1 & H2 & H3 & H4)].
  assert (H43 : same_usage d3 (committed c')).
  { eapply (topics_step_frame same_usage (d_session_id data)); try exact H4;
      try reflexivity.
    - intros d. repeat split.
    - intros x y z (A1 & A2 & A3) (B1 & B2 & B3). unfold same_usage. repeat split; congruence.
    - apply frame4_same_usage. }
  destruct H43 as (Ht4 & Ha4 & Hc4).
  (* step 3 *)
  unfold Steps.content_step in H3. cbn [delete_content mbind option_bind] in H3.
  fold sid in H3.
  assert (H3' : session_tools d3 = session_tools d2 /\ session_agents d3 = session_agents d2
                /\ session_content d3
                   = List.filter (fun r => negb (String.eqb (fst r) sid)) (session_content d2)
                     ++ (if String.eqb (d_fts_content data) "" then []
                         else [(sid, d_fts_content data)])).
  { destruct (String.eqb (d_fts_content data) ""); inversion H3; subst d3; simpl.
    - rewrite app_nil_r. auto.
    - auto. }
  destruct H3' as (Ht3 & Ha3 & Hc3).
  (* step 2 *)
  unfold Steps.usage_step in H2. cbn [delete_tools mbind option_bind] in H2. fold sid in H2.
  destruct (Steps.insert_each (insert_tool sid) (d_tools data) _) as [e2|] eqn:E2;
    [|discriminate].
  cbn [delete_agents mbind option_bind] in H2.
  destruct (insert_each_tools _ _ _ _ E2) as (T1 & T2 & T3).
  destruct (insert_each_agents _ _ _ _ H2) as (A1 & A2 & A3).
  simpl in T1, T2, T3, A1, A2, A3.
  unfold rows_of. cbn [v_tools v_agents v_content].
  rewrite Ht4, Ht3, A2, T1, Ha4, Ha3, A1, Hc4, Hc3.
  split; [apply own_rows_after_delete|]. split; [apply own_rows_after_delete|].
  rewrite List.filter_app, own_content_deleted. simpl.
  destruct (String.eqb (d_fts_content data) ""); [reflexivity|].
  simpl. rewrite String.eqb_refl. reflexivity.
Qed.

End OneSession.

(** X11. Indexing one session never changes what the store holds for
    another: after [_upsert_session], and after [index_session] on a file,
    whether they succeed or fail, the session row, the topics, the tool and
    agent rows and the content document of every other session are as they
    were committed before. *)
Theorem indexing_leaves_other_sessions (other : string) (cfg : config)
    (projects : option (list Fs.directory)) (data : session_data) (p : Fs.path)
    (k : clock) (c : Sql.conn) :
  Sql.pending c = None ->
  (d_session_id data <> other ->
   rows_of other (Sql.committed (snd (Store._upsert_session data k c)))
   = rows_of other (Sql.committed c))
  /\ (Fs.stem p <> other ->
      rows_of other
        (Sql.committed (snd (Store.index_session cfg projects None (Some p) k c)))
      = rows_of other (Sql.committed c)).
Proof.
  intros Hp. split; intros Hne.
  - destruct (Store._upsert_session data k c) as [[ok k'] c'] eqn:U.
    exact (proj2 (upsert_other_session other data k k' c c' ok Hne Hp U)).
  - destruct (Store.index_session cfg projects None (Some p) k c) as [[r k'] c'] eqn:U.
    exact (proj2 (index_session_other other cfg projects p k k' c c' r Hne Hp U)).
Qed.

(** X11, on the index that holds the session [aaa]: indexing the corrupt
    file [bbb] leaves every row of [aaa]. *)
Lemma indexing_leaves_other_sessions_witness :
  let c := snd (Store._upsert_session Examples.first_parse Examples.wall Examples.fresh) in
  let p := Examples.at_ Examples.project "bbb" Examples.corrupt in
  rows_of "aaa"
    (Sql.committed (snd (Store.index_session Examples.cfg (Some [Examples.project]) None
                           (Some p) Examples.wall c)))
  = rows_of "aaa" (Sql.committed c).
Proof.
  intros c p.
  refine (proj2 (indexing_leaves_other_sessions "aaa" Examples.cfg (Some [Examples.project])
                   Examples.second_parse p Examples.wall c _) _).
  - vm_compute. reflexivity.
  - discriminate.
Defined.

(** X12. A successful upsert replaces the session's usage rows and
    content document, it does not add to them: afterwards the tool rows of
    the session are exactly the tool counters of the parsed record, in order,
    likewise the agent rows, and the content holds the record's full-text
    document alone, or nothing when that is empty. *)
Theorem upsert_replaces_usage_rows (data : session_data) (k : clock) (c : Sql.conn) :
  match Store._upsert_session data k c with
  | (true, _, c') =>
      let sid := d_session_id data in
      v_tools (rows_of sid (Sql.committed c')) = map (usage_row_of sid) (d_tools data)
      /\ v_agents (rows_of sid (Sql.committed c')) = map (usage_row_of sid) (d_agents data)
      /\ v_content (rows_of sid (Sql.committed c'))
         = if String.eqb (d_fts_content data) "" then [] else [(sid, d_fts_content data)]
  | (false, _, _) => True
  end.
Proof.
  destruct (Store._upsert_session data k c) as [[[] k'] c'] eqn:U; [|exact I].
  exact (upsert_usage data k k' c c' U).
Qed.

Section FailedIndex.

Import Sql Store Dyn.

Lemma index_session_not_true (cfg : config) (projects : option (list Fs.directory))
    (sid : option string) (path : option Fs.path) (k k' : clock) (c c' : conn)
    (r : result bool) :
  index_session cfg projects sid path k c = (r, k', c') ->
  r <> Return true -> committed c' = committed c.
Proof.
  unfold index_session.
  destruct (match path with
            | Some p => Return (Some p)
            | None => match sid with
                      | Some s => if String.eqb s "" then Return None
                                  else _find_session_file projects s
                      | None => Return None
                      end
            end) as [[p|]|]; try (intros H; inversion H; subst; reflexivity).
  destruct (Fs.target p); [|intros H; inversion H; subst; reflexivity].
  destruct (Indexer._parse_session cfg p k) as [[[data|]|] k1];
    try (intros H; inversion H; subst; reflexivity).
  pose proof (upsert_session_cases data k1 c) as Hat.
  destruct (_upsert_session data k1 c) as [[[] k2] c2]; intros H Hr; inversion H; subst.
  - congruence.
  - exact (proj2 Hat).
Qed.

End FailedIndex.

(** X13. [index_session] changes the committed store only when it returns
    [True]: when it returns [False] or raises, nothing is changed.  It
    returns [False] without touching anything when it is given neither a
    session id nor a path, an empty id, an id no project directory has a
    transcript for, or a path at which no file exists. *)
Theorem failed_index_changes_nothing (cfg : config) (projects : option (list Fs.directory))
    (sid : option string) (path : option Fs.path) (k : clock) (c : Sql.conn) :
  match Store.index_session cfg projects sid path k c with
  | (Dyn.Return true, _, _) => True
  | (_, _, c') => Sql.committed c' = Sql.committed c
  end
  /\ Store.index_session cfg projects None None k c = (Dyn.Return false, k, c)
  /\ Store.index_session cfg projects (Some "") None k c = (Dyn.Return false, k, c)
  /\ (forall dirs id,
        Fs.find_in dirs id = None ->
        Store.index_session cfg (Some dirs) (Some id) None k c = (Dyn.Return false, k, c))
  /\ (forall parent stem,
        Store.index_session cfg projects sid
          (Some {| Fs.parent := parent; Fs.stem := stem; Fs.target := None |}) k c
        = (Dyn.Return false, k, c)).
Proof.
  split.
  { destruct (Store.index_session cfg projects sid path k c) as [[r k'] c'] eqn:E.
    destruct r as [[]|]; [exact I | |];
      eapply index_session_not_true; try exact E; discriminate. }
  split; [reflexivity|]. split; [reflexivity|]. split.
  - intros dirs id H. unfold Store.index_session, Store._find_session_file.
    rewrite H. destruct (String.eqb id ""); reflexivity.
  - intros parent stem. reflexivity.
Qed.

(* ===================================================================== *)
(** ** Finding a session's transcript *)
(* ===================================================================== *)

Section Finding.

Lemma candidate_spec (d : Fs.directory) (sid : string) (fs : list (string * Fs.file)) :
  match Fs.candidate d sid fs with
  | Some p =>
      Fs.stem p = sid /\ Fs.parent p = Fs.dir_name d
      /\ exists f, Fs.target p = Some f /\ In (sid, f) fs
  | None => forall f, ~ In (sid, f) fs
  end.
Proof.
  induction fs as [|[s f] fs IH]; simpl; [intros f []|].
  destruct (String.eqb s sid) eqn:E.
  - apply String.eqb_eq in E. subst s. simpl. eauto 6.
  - apply String.eqb_neq in E. destruct (Fs.candidate d sid fs) as [p|].
    + destruct IH as (H1 & H2 & f' & H3 & H4). eauto 8.
    + intros f' [H|H]; [inversion H; congruence | exact (IH f' H)].
Qed.

End Finding.

(** X14. The search for a session's transcript, in the indexer and in the
    hook alike, finds a path exactly when some entry of the projects directory
    that is a directory holds a transcript named after the session: the path
    found carries the session's id, lies in such a directory and points at a
    file of it; and when nothing is found, no directory holds one. *)
Theorem session_file_found_iff_present (dirs : list Fs.directory) (sid : string) :
  match Fs.find_in dirs sid with
  | Some p =>
      Fs.stem p = sid
      /\ exists d f, In d dirs /\ Fs.is_dir d = true /\ Fs.parent p = Fs.dir_name d
                     /\ Fs.target p = Some f /\ In (sid, f) (Fs.files d)
  | None =>
      forall d f, In d dirs -> Fs.is_dir d = true -> ~ In (sid, f) (Fs.files d)
  end
  /\ Store._find_session_file (Some dirs) sid = Dyn.Return (Fs.find_in dirs sid)
  /\ forall w, projects w = Some dirs ->
               Hook.find_session_file w sid = Some (Fs.find_in dirs sid).
Proof.
  split; [|split; [reflexivity | intros w H; unfold Hook.find_session_file; rewrite H;
                                 reflexivity]].
  induction dirs as [|d dirs IH]; simpl; [intros d f []|].
  destruct (Fs.is_dir d) eqn:D; simpl.
  - pose proof (candidate_spec d sid (Fs.files d)) as Hc.
    destruct (Fs.candidate d sid (Fs.files d)) as [p|].
    + destruct Hc as (H1 & H2 & f & H3 & H4). split; [exact H1|].
      exists d, f. auto 6.
    + destruct (Fs.find_in dirs sid) as [p|].
      * destruct IH as (H1 & d' & f & H2 & H3 & H4 & H5 & H6). split; [exact H1|].
        exists d', f. auto 6.
      * intros d' f [<-|Hin] Hd; [apply Hc | apply IH; assumption].
  - destruct (Fs.find_in dirs sid) as [p|].
    + destruct IH as (H1 & d' & f & H2 & H3 & H4 & H5 & H6). split; [exact H1|].
      exists d', f. auto 6.
    + intros d' f [<-|Hin] Hd; [congruence | apply IH; assumption].
Qed.

(* ===================================================================== *)
(** ** Indexing, then visiting again *)
(* ===================================================================== *)

Section Revisit.

Import Sql Store Dyn.

Lemma visit_indexed_stores_hash (cfg : config) (p : Fs.path) (f : Fs.file)
    (k k1 : clock) (c c1 : conn) :
  Fs.target p = Some f ->
  visit cfg p k c = (Return Indexed, k1, c1) ->
  pending c1 = None
  /\ select_file_hash (Fs.stem p) (committed c1) = Some (Indexer._file_hash f).
Proof.
  intros T H. unfold visit in H. rewrite T in H.
  destruct (query _ c) as [[existing|] c0] eqn:Q; [|inversion H].
  destruct (match existing with Some h => _ | None => false end); [inversion H|].
  destruct (Indexer._parse_session cfg p k) as [[[data|]|] k0] eqn:P; try (inversion H; fail).
  destruct (_upsert_session data k0 c0) as [[[] k2] c2] eqn:U; inversion H; subst.
  pose proof (upsert_session_cases data k0 c0) as Hat. rewrite U in Hat.
  split; [exact (proj1 Hat)|].
  unfold select_file_hash.
  rewrite <- (parse_session_id _ _ _ _ _ P), (upsert_row _ _ _ _ _ U).
  destruct (parse_session_finish _ _ _ _ _ P) as (f' & lines & a & T' & _ & _ & F).
  destruct (finish_fields _ _ _ _ _ _ F) as (f'' & T'' & _ & _ & _ & Hh & _).
  rewrite T in T''. inversion T''; subst f''.
  simpl. destruct (sessions (current c0) !! d_session_id data); simpl; rewrite Hh; reflexivity.
Qed.

End Revisit.

(** X15. Once a batch run has indexed a transcript, visiting the same file
    again, unchanged, reads its fingerprint and stops: the verdict is
    "unchanged" (or the SELECT raises), the clock is not read and the store
    is not changed. *)
Theorem indexed_file_is_skipped_next (cfg : config) (p : Fs.path) (f : Fs.file)
    (k k1 k2 : clock) (c c1 : Sql.conn) :
  Fs.target p = Some f ->
  Store.visit cfg p k c = (Dyn.Return Store.Indexed, k1, c1) ->
  match Store.visit cfg p k2 c1 with
  | (r, k3, c2) =>
      (r = Dyn.Return Store.Unchanged \/ r = Dyn.Raise)
      /\ k3 = k2 /\ Sql.committed c2 = Sql.committed c1 /\ Sql.pending c2 = None
  end.
Proof.
  intros T H.
  destruct (visit_indexed_stores_hash cfg p f k k1 c c1 T H) as [Hp Hh].
  destruct (Store.visit cfg p k2 c1) as [[r k3] c2] eqn:V.
  destruct (visit_unchanged cfg p f k2 k3 c1 c2 r T) as (H1 & H2 & H3 & H4); [|exact V|].
  - unfold Sql.current. rewrite Hp. exact Hh.
  - rewrite H3. auto.
Qed.

(** X15, on the valid transcript and a new index. *)
Lemma indexed_file_is_skipped_next_witness :
  let p := Examples.at_ Examples.project "aaa" Examples.valid in
  let c1 := snd (Store.visit Examples.cfg p Examples.wall Examples.fresh) in
  fst (fst (Store.visit Examples.cfg p Examples.wall Examples.fresh))
  = Dyn.Return Store.Indexed
  /\ match Store.visit Examples.cfg p Examples.wall c1 with
     | (r, k3, c2) =>
         (r = Dyn.Return Store.Unchanged \/ r = Dyn.Raise)
         /\ k3 = Examples.wall /\ Sql.committed c2 = Sql.committed c1
         /\ Sql.pending c2 = None
     end.
Proof.
  intros p c1. split; [vm_compute; reflexivity|].
  refine (indexed_file_is_skipped_next Examples.cfg p Examples.valid Examples.wall
            (snd (fst (Store.visit Examples.cfg p Examples.wall Examples.fresh)))
            Examples.wall Examples.fresh c1 _ _).
  - reflexivity.
  - vm_compute. reflexivity.
Defined.

(* ===================================================================== *)
(** ** The hook when only the database fails *)
(* ===================================================================== *)

Section Survives.

Import Dyn.

Local Arguments Topic.get_exchange_count : simpl never.
Local Arguments Topic.extract_recent_user_messages : simpl never.
Local Arguments Topic.extract_topic : simpl never.

Lemma write_topic_file_keeps (sid t : string) (w w1 : world) :
  Hook.write_topic_file sid t w = Some w1 ->
  capture_state w1 = capture_state w /\ state_writable w1 = state_writable w
  /\ topics_writable w1 = topics_writable w /\ projects w1 = projects w
  /\ store w1 = store w /\ topic_files w1 = <[sid := t]> (topic_files w).
Proof.
  unfold Hook.write_topic_file. destruct (topics_writable w) eqn:E; [|discriminate].
  intros H. inversion H; subst. simpl. auto 6.
Qed.

Lemma write_topic_db_files (sid topic source : string) (n : Z) (w : world) :
  topic_files (Hook.write_topic_db sid topic source n w) = topic_files w.
Proof.
  unfold Hook.write_topic_db. destruct (now (time w)) as [t k1].
  destruct (Sql.seq _ _ (store w)) as [[[]|] c]; reflexivity.
Qed.

Lemma readable_cursor_reads (sid : string) (w : world) :
  readable_cursor sid w = true ->
  exists d ss v n,
    Hook.load_state w = JObj d
    /\ get (JObj d) sid (JObj [("last_capture_at", JInt 0)]) = Some ss
    /\ get ss "last_capture_at" (JInt 0) = Some v
    /\ Hook.as_int v = Some n.
Proof.
  unfold readable_cursor. destruct (Hook.load_state w) as [| | | | | |d]; try discriminate.
  simpl. destruct (Json.dict_lookup sid d) as [[| | | | | |e]|] eqn:L; try discriminate.
  - destruct (Json.dict_lookup "last_capture_at" e) as [v|] eqn:L2.
    + destruct (Hook.as_int v) as [n|] eqn:A; [|discriminate]. intros _.
      exists d, (JObj e), v, n. simpl. rewrite L, L2. auto.
    + intros _. exists d, (JObj e), (JInt 0), 0%Z. simpl. rewrite L, L2. auto.
  - intros _. exists d, (JObj [("last_capture_at", JInt 0)]), (JInt 0), 0%Z.
    simpl. rewrite L. auto.
Qed.

Lemma prompt_submit_survives (K : Z) (sid : string) (w : world) :
  projects w <> None -> topics_writable w = true -> state_writable w = true ->
  readable_cursor sid w = true ->
  raised (Hook.handle_user_prompt_submit_every K sid w) = false.
Proof.
  intros Hp Htw Hsw Hr.
  destruct (readable_cursor_reads sid w Hr) as (d & ss & v & n & L & G1 & G2 & G3).
  unfold Hook.handle_user_prompt_submit_every, Hook.find_session_file.
  destruct (projects w) as [dirs|]; [|congruence]. cbn [mbind option_bind].
  destruct (Fs.find_in dirs sid) as [p|]; [|reflexivity].
  rewrite L, G1. cbn [mbind option_bind]. rewrite G2. cbn [mbind option_bind].
  destruct (Topic.get_exchange_count (Some p) <? K)%Z; [reflexivity|].
  rewrite G3. cbn [mbind option_bind].
  destruct (Topic.get_exchange_count (Some p) - n <? K)%Z; [reflexivity|].
  destruct (Hook.usable _) as [t|]; [|reflexivity].
  unfold Hook.write_topic_file. rewrite Htw.
  match goal with |- context [Hook.write_topic_db ?a ?b ?c ?e ?x] =>
    pose proof (write_topic_db_keeps a b c e x) as Hk;
    set (w2 := Hook.write_topic_db a b c e x) in * end.
  simpl in Hk. destruct Hk as (_ & Hsw2 & _).
  unfold Hook.set_cursor. cbn [mbind option_bind].
  unfold Hook.save_state. rewrite Hsw2, Hsw. reflexivity.
Qed.

Lemma pre_compact_survives (sid : string) (w : world) :
  projects w <> None -> topics_writable w = true ->
  raised (Hook.handle_pre_compact sid w) = false.
Proof.
  intros Hp Htw. unfold Hook.handle_pre_compact, Hook.find_session_file.
  destruct (projects w) as [dirs|]; [|congruence]. cbn [mbind option_bind].
  destruct (Fs.find_in dirs sid) as [p|]; [|reflexivity].
  destruct (Hook.usable _) as [t|]; [|reflexivity].
  unfold Hook.write_topic_file. rewrite Htw. reflexivity.
Qed.

Lemma trigger_full_index_keeps (p : Fs.path) (w : world) :
  capture_state (Hook.trigger_full_index p w) = capture_state w
  /\ state_writable (Hook.trigger_full_index p w) = state_writable w.
Proof.
  unfold Hook.trigger_full_index. destruct (Hook.reindex p w) as [[r k] c]. auto.
Qed.

Lemma session_end_survives (sid : string) (w : world) :
  projects w <> None -> topics_writable w = true -> state_writable w = true ->
  readable_cursor sid w = true ->
  raised (Hook.handle_session_end sid w) = false.
Proof.
  intros Hp Htw Hsw Hr.
  destruct (readable_cursor_reads sid w Hr) as (d & _ & _ & _ & L & _).
  unfold Hook.handle_session_end, Hook.find_session_file.
  destruct (projects w) as [dirs|]; [|congruence]. cbn [mbind option_bind].
  destruct (Fs.find_in dirs sid) as [p|]; [|reflexivity].
  assert (Hf : exists w1, Hook.final_topic sid p w = Some w1
                          /\ capture_state w1 = capture_state w
                          /\ state_writable w1 = state_writable w).
  { unfold Hook.final_topic. destruct (Hook.usable _) as [t|]; [|eauto].
    unfold Hook.write_topic_file. rewrite Htw. cbn [mbind option_bind].
    eexists. split; [reflexivity|].
    match goal with |- context [Hook.write_topic_db ?a ?b ?c ?e ?x] =>
      pose proof (write_topic_db_keeps a b c e x) as Hk end.
    simpl in Hk. destruct Hk as (H1 & H2 & _). rewrite H1, H2. auto. }
  destruct Hf as (w1 & F & Hc1 & Hs1). rewrite F.
  destruct (trigger_full_index_keeps p w1) as [Hc2 Hs2].
  unfold Hook.clean_up, Hook.load_state. rewrite Hc2, Hc1.
  unfold Hook.load_state in L. rewrite L. cbn [Hook.pop_cursor mbind option_bind].
  unfold Hook.save_state. rewrite Hs2, Hs1, Hsw. reflexivity.
Qed.

End Survives.

(** X16. The hook survives any failure of the database: when the projects
    directory exists, the session-topics directory and the state file can be
    written, and the state file holds a cursor that can be read (or none),
    [main] exits normally for every event and every input, whatever the index
    is: missing, without tables, or failing at any statement. *)
Theorem hook_survives_database_failure (i : invocation) (w : world) (index : Sql.conn) :
  projects w <> None ->
  topics_writable w = true ->
  state_writable w = true ->
  readable_cursor (Hook.get_session_id i) w = true ->
  raised (Hook.main i (with_index index w)) = false.
Proof.
  intros Hp Htw Hsw Hr. unfold Hook.main.
  destruct (String.eqb (Hook.get_session_id i) "unknown"); [reflexivity|].
  destruct (String.eqb (Hook.get_hook_event i) "UserPromptSubmit").
  { apply prompt_submit_survives; assumption. }
  destruct (String.eqb (Hook.get_hook_event i) "PreCompact").
  { apply pre_compact_survives; assumption. }
  destruct (String.eqb (Hook.get_hook_event i) "SessionEnd"); [|reflexivity].
  apply session_end_survives; assumption.
Qed.

(** X16, at the end of a session of twelve user turns, with an index that
    fails at every statement. *)
Lemma hook_survives_database_failure_witness :
  raised (Hook.main (Examples.hook_call "SessionEnd")
            (with_index Examples.broken
               (Examples.world_of Examples.twelve_turns Examples.cursor_at_10)))
  = false.
Proof.
  apply (hook_survives_database_failure (Examples.hook_call "SessionEnd")
           (Examples.world_of Examples.twelve_turns Examples.cursor_at_10) Examples.broken).
  - discriminate.
  - reflexivity.
  - reflexivity.
  - reflexivity.
Defined.

(* ===================================================================== *)
(** ** The capture before a compaction *)
(* ===================================================================== *)

Section PreCompact.

Import Dyn.

Local Arguments Topic.get_exchange_count : simpl never.
Local Arguments Topic.extract_recent_user_messages : simpl never.
Local Arguments Topic.extract_topic : simpl never.

Lemma write_topic_db_rows (sid topic source : string) (n : Z) (w : world) :
  let before := Sql.current (store w) in
  let after := Sql.committed (store (Hook.write_topic_db sid topic source n w)) in
  after = Sql.committed (store w)
  \/ exists at_,
       after
       = {| has_schema := has_schema before; sessions := sessions before;
            session_topics :=
              session_topics before
              ++ [{| t_id := (topic_seq before + 1)%Z; t_session_id := sid;
                     t_topic := JStr topic; t_captured_at := JStr at_;
                     t_exchange_number := Some n; t_source := source |}];
            topic_seq := (topic_seq before + 1)%Z;
            session_tools := session_tools before;
            session_agents := session_agents before;
            session_content := session_content before |}.
Proof.
  intros before after. subst before after.
  unfold Hook.write_topic_db. destruct (now (time w)) as [t k1].
  unfold Sql.seq, Sql.execute.
  destruct (Sql.faults (store w) (Sql.executed (store w))
            || negb (has_schema (Sql.current (store w)))); [left; reflexivity|].
  unfold Sql.insert_topic. cbn [Sql.bindable Dyn.key_eq andb negb].
  unfold Sql.commit. cbn [Sql.faults Sql.executed].
  destruct (Sql.faults (store w) (S (Sql.executed (store w)))); [left; reflexivity|].
  right. exists t. reflexivity.
Qed.

End PreCompact.

(** X17. The capture before a compaction does not depend on the interval
    or the cursor: whenever the session's transcript is found and gives a
    topic, and the session-topics directory can be written, the handler exits
    normally having written that topic to the session's topic file; it leaves
    the capture state as it was; and it adds to the index one topic row for
    the session with that topic, the source [hook_precompact] and the exchange
    count, or nothing at all when the database fails. *)
Theorem pre_compact_always_captures (sid : string) (w : world) (p : Fs.path) (t : string) :
  Hook.find_session_file w sid = Some (Some p) ->
  Hook.usable (Topic.extract_topic (Topic.extract_recent_user_messages p 5)) = Some t ->
  topics_writable w = true ->
  exists w',
    Hook.handle_pre_compact sid w = Exits w'
    /\ topic_files w' !! sid = Some t
    /\ capture_state w' = capture_state w
    /\ (Sql.committed (store w') = Sql.committed (store w)
        \/ exists at_,
             let before := Sql.current (store w) in
             Sql.committed (store w')
             = {| has_schema := has_schema before; sessions := sessions before;
                  session_topics :=
                    session_topics before
                    ++ [{| t_id := (topic_seq before + 1)%Z; t_session_id := sid;
                           t_topic := JStr t; t_captured_at := JStr at_;
                           t_exchange_number := Some (Topic.get_exchange_count (Some p));
                           t_source := "hook_precompact" |}];
                  topic_seq := (topic_seq before + 1)%Z;
                  session_tools := session_tools before;
                  session_agents := session_agents before;
                  session_content := session_content before |}).
Proof.
  intros Hf Ht Htw. unfold Hook.handle_pre_compact. rewrite Hf.
  cbn [mbind option_bind]. rewrite Ht.
  destruct (Hook.write_topic_file sid t w) as [w1|] eqn:W.
  2:{ unfold Hook.write_topic_file in W. rewrite Htw in W. discriminate. }
  destruct (write_topic_file_keeps _ _ _ _ W) as (Hc & _ & _ & _ & Hs & Hfiles).
  eexists. split; [reflexivity|].
  split; [rewrite write_topic_db_files, Hfiles; apply lookup_insert_eq|].
  split.
  { match goal with |- context [Hook.write_topic_db ?a ?b ?c ?e ?x] =>
      pose proof (write_topic_db_keeps a b c e x) as Hk end.
    cbv zeta in Hk. destruct Hk as (H1 & _). rewrite H1. exact Hc. }
  pose proof (write_topic_db_rows sid t "hook_precompact"
                (Topic.get_exchange_count (Some p)) w1) as Hrows.
  cbv zeta in Hrows. rewrite Hs in Hrows. exact Hrows.
Qed.

(** X17, on a session of twelve user turns whose cursor is at 10: the
    capture fires although the cursor is only two turns back. *)
Lemma pre_compact_always_captures_witness :
  let w := Examples.world_of Examples.twelve_turns Examples.cursor_at_10 in
  exists w',
    Hook.handle_pre_compact "s1" w = Exits w'
    /\ topic_files w' !! "s1" = Some "Question number 12 about parsers"
    /\ capture_state w' = Examples.cursor_at_10.
Proof.
  intros w.
  pose (f := Examples.transcript Examples.twelve_turns 100 "1700000003.5").
  destruct (pre_compact_always_captures "s1" w
              (Examples.at_ (Examples.in_project [("s1", f)]) "s1" f)
              "Question number 12 about parsers")
    as (w' & H1 & H2 & H3 & _).
  - reflexivity.
  - vm_compute. reflexivity.
  - reflexivity.
  - exists w'. auto.
Defined.

(* ===================================================================== *)
(** ** The order of the configuration sources *)
(* ===================================================================== *)

Section Layers.

Import Dyn Config.

Lemma dict_lookup_set_ne (k k' : string) (v : json) (d : list (string * json)) :
  k <> k' -> Json.dict_lookup k (Json.dict_set k' v d) = Json.dict_lookup k d.
Proof.
  intros Hne. induction d as [|[k0 v0] d IH]; simpl.
  - apply String.eqb_neq in Hne. rewrite Hne. reflexivity.
  - destruct (String.eqb k' k0) eqn:E; simpl.
    + apply String.eqb_eq in E. subst k0.
      apply String.eqb_neq in Hne. rewrite Hne. reflexivity.
    + destruct (String.eqb k k0); [reflexivity | exact IH].
Qed.

Lemma dict_set_keys (k : string) (v : json) (d : list (string * json)) :
  Json.dict_lookup k d <> None -> map fst (Json.dict_set k v d) = map fst d.
Proof.
  induction d as [|[k0 v0] d IH]; simpl; [congruence|].
  destruct (String.eqb k k0) eqn:E; simpl.
  - apply String.eqb_eq in E. subst k0. reflexivity.
  - intros H. rewrite IH by exact H. reflexivity.
Qed.

Lemma dict_lookup_absent (k : string) (d : list (string * json)) :
  k ∉ map fst d -> Json.dict_lookup k d = None.
Proof.
  induction d as [|[k0 v0] d IH]; simpl; [reflexivity|]. intros H.
  apply not_elem_of_cons in H. destruct H as [Hne H].
  apply String.eqb_neq in Hne. rewrite Hne. apply IH. exact H.
Qed.

Lemma dict_lookup_present (k : string) (v : json) (d : list (string * json)) :
  Json.dict_lookup k d = Some v -> k ∈ map fst d.
Proof.
  induction d as [|[k0 v0] d IH]; cbn [Json.dict_lookup map fst]; [discriminate|].
  destruct (String.eqb k k0) eqn:E.
  - apply String.eqb_eq in E. subst k0. intros _. left.
  - intros H. right. apply IH. exact H.
Qed.

Lemma layer_item_keys (config : list (string * json)) (item : string * json) :
  map fst (layer_item config item) = map fst config.
Proof.
  destruct item as [key value]. unfold layer_item.
  destruct (Json.dict_lookup key config) as [old|] eqn:L; [|reflexivity].
  destruct value; try reflexivity; apply dict_set_keys; congruence.
Qed.

Lemma layer_item_lookup (config : list (string * json)) (key k : string) (value : json) :
  Json.dict_lookup k (layer_item config (key, value))
  = if String.eqb k key
    then match Json.dict_lookup k config, value with
         | None, _ => None
         | Some old, JNull => Some old
         | Some _, _ => Some value
         end
    else Json.dict_lookup k config.
Proof.
  unfold layer_item. destruct (String.eqb k key) eqn:E.
  - apply String.eqb_eq in E. subst key.
    destruct (Json.dict_lookup k config) as [old|] eqn:L; [|exact L].
    destruct value; try exact L; apply dict_lookup_set.
  - apply String.eqb_neq in E.
    destruct (Json.dict_lookup key config) as [old|]; [|reflexivity].
    destruct value; try reflexivity; apply dict_lookup_set_ne; exact E.
Qed.

(** The file layer: a setting that has a default takes the file's value
    when the file gives one that is not [null]. *)
Lemma layer_file_lookup (file_config config : list (string * json)) (k : string) :
  NoDup (map fst file_config) ->
  Json.dict_lookup k (fold_left layer_item file_config config)
  = match Json.dict_lookup k config with
    | Some old => Some (file_setting k file_config old)
    | None => None
    end.
Proof.
  revert config. induction file_config as [|[key value] r IH]; intros config Hnd.
  - simpl. unfold file_setting. simpl. destruct (Json.dict_lookup k config); reflexivity.
  - inversion Hnd as [|x l Hnotin Hnd']; subst. cbn [fold_left].
    rewrite (IH _ Hnd'), layer_item_lookup. unfold file_setting. cbn [Json.dict_lookup].
    destruct (String.eqb k key) eqn:E.
    + apply String.eqb_eq in E. subst key.
      rewrite (dict_lookup_absent k r Hnotin).
      destruct (Json.dict_lookup k config) as [old|]; [|reflexivity].
      destruct value; reflexivity.
    + reflexivity.
Qed.

Lemma layer_file_keys (file_config config : list (string * json)) :
  map fst (fold_left layer_item file_config config) = map fst config.
Proof.
  revert config. induction file_config as [|item r IH]; intros config; [reflexivity|].
  cbn [fold_left]. rewrite IH. apply layer_item_keys.
Qed.

Lemma layer_env_lookup (environ : string -> option string) (config : list (string * json))
    (k : string) :
  Json.dict_lookup k (fold_left (layer_env environ) env_map config)
  = match find (fun entry => String.eqb k (snd entry)) env_map with
    | Some entry =>
        match environ (fst entry) with
        | Some val => if String.eqb val "" then Json.dict_lookup k config
                      else Some (JStr val)
        | None => Json.dict_lookup k config
        end
    | None => Json.dict_lookup k config
    end.
Proof.
  unfold env_map. cbn [fold_left find snd fst layer_env].
  assert (Hstep : forall (c : list (string * json)) (ek ck : string),
             Json.dict_lookup k
               (match environ ek with
                | Some val => if String.eqb val "" then c
                              else Json.dict_set ck (JStr val) c
                | None => c
                end)
             = if String.eqb k ck
               then match environ ek with
                    | Some val => if String.eqb val "" then Json.dict_lookup k c
                                  else Some (JStr val)
                    | None => Json.dict_lookup k c
                    end
               else Json.dict_lookup k c).
  { intros c ek ck. destruct (String.eqb k ck) eqn:E.
    - apply String.eqb_eq in E. subst ck.
      destruct (environ ek) as [val|]; [|reflexivity].
      destruct (String.eqb val ""); [reflexivity | apply dict_lookup_set].
    - apply String.eqb_neq in E.
      destruct (environ ek) as [val|]; [|reflexivity].
      destruct (String.eqb val ""); [reflexivity | apply dict_lookup_set_ne; exact E]. }
  rewrite !Hstep.
  destruct (String.eqb k "projects_dir") eqn:E1.
  { apply String.eqb_eq in E1. subst k. reflexivity. }
  destruct (String.eqb k "db_path") eqn:E2.
  { apply String.eqb_eq in E2. subst k. reflexivity. }
  destruct (String.eqb k "topics_dir") eqn:E3; reflexivity.
Qed.

Lemma layer_env_keys (environ : string -> option string) (config : list (string * json)) :
  Json.dict_lookup "projects_dir" config <> None ->
  Json.dict_lookup "db_path" config <> None ->
  Json.dict_lookup "topics_dir" config <> None ->
  map fst (fold_left (layer_env environ) env_map config) = map fst config.
Proof.
  intros H1 H2 H3. unfold env_map. cbn [fold_left layer_env].
  assert (Hstep : forall (c : list (string * json)) (ek ck : string),
             Json.dict_lookup ck c <> None ->
             map fst (match environ ek with
                      | Some val => if String.eqb val "" then c
                                    else Json.dict_set ck (JStr val) c
                      | None => c
                      end) = map fst c).
  { intros c ek ck H. destruct (environ ek) as [val|]; [|reflexivity].
    destruct (String.eqb val ""); [reflexivity | apply dict_set_keys; exact H]. }
  assert (Hl : forall (c : list (string * json)) (ek ck k : string),
             k <> ck -> Json.dict_lookup k c <> None ->
             Json.dict_lookup k (match environ ek with
                                 | Some val => if String.eqb val "" then c
                                               else Json.dict_set ck (JStr val) c
                                 | None => c
                                 end) <> None).
  { intros c ek ck k Hne H. destruct (environ ek) as [val|]; [|exact H].
    destruct (String.eqb val ""); [exact H|]. rewrite dict_lookup_set_ne; assumption. }
  rewrite Hstep, Hstep, Hstep; auto.
Qed.

End Layers.

(** X18. [get_config] resolves each setting in the documented order.  When
    the config file is absent, unreadable, or a JSON object [file_config]: the
    result has exactly the five default settings, in their order (a key of the
    file that is no default is ignored); each of the three paths is its
    environment variable when that is set and not empty, else the file's value
    when the file has one that is not null, else the default; [clients] and
    [project_names] are the file's value or the default.  The result is
    cached: with a cached configuration the call returns it and reads nothing.
    A config file that holds JSON other than an object makes the call raise. *)
Theorem config_sources_in_order (e : Config.surroundings)
    (file_config : list (string * json)) :
  Config._load_config_file e = JObj file_config ->
  NoDup (map fst file_config) ->
  exists config,
    Config.get_config e None = (Dyn.Return config, Some config)
    /\ map fst config = ["projects_dir"; "db_path"; "topics_dir"; "clients"; "project_names"]
    /\ Json.dict_lookup "projects_dir" config
       = Some (env_setting (Config.environ e) "SESSION_INDEX_PROJECTS"
                 (file_setting "projects_dir" file_config
                    (JStr (Config.default_projects_dir e))))
    /\ Json.dict_lookup "db_path" config
       = Some (env_setting (Config.environ e) "SESSION_INDEX_DB"
                 (file_setting "db_path" file_config (JStr (Config.default_db_path e))))
    /\ Json.dict_lookup "topics_dir" config
       = Some (env_setting (Config.environ e) "SESSION_INDEX_TOPICS"
                 (file_setting "topics_dir" file_config
                    (JStr (Config.default_topics_dir e))))
    /\ Json.dict_lookup "clients" config = Some (file_setting "clients" file_config (JArr []))
    /\ Json.dict_lookup "project_names" config
       = Some (file_setting "project_names" file_config (JObj []))
    /\ (forall e' cached, Config.get_config e' (Some cached) = (Dyn.Return cached, Some cached))
    /\ (forall e', match Config._load_config_file e' with
                   | JObj _ => True
                   | _ => Config.get_config e' None = (Dyn.Raise, None)
                   end).
Proof.
  intros Hfile Hnd. unfold Config.get_config. rewrite Hfile.
  eexists. split; [reflexivity|].
  assert (Hk : map fst (fold_left Config.layer_item file_config (Config.DEFAULTS e))
               = ["projects_dir"; "db_path"; "topics_dir"; "clients"; "project_names"]).
  { rewrite layer_file_keys. reflexivity. }
  assert (Hf : forall k,
             Json.dict_lookup k (fold_left Config.layer_item file_config (Config.DEFAULTS e))
             = match Json.dict_lookup k (Config.DEFAULTS e) with
               | Some old => Some (file_setting k file_config old)
               | None => None
               end).
  { intros k. apply layer_file_lookup. exact Hnd. }
  split.
  { rewrite layer_env_keys; [exact Hk|..]; rewrite Hf; discriminate. }
  repeat split.
  - rewrite layer_env_lookup, Hf. cbn. unfold env_setting.
    destruct (Config.environ e "SESSION_INDEX_PROJECTS") as [v|]; [|reflexivity].
    destruct (String.eqb v ""); reflexivity.
  - rewrite layer_env_lookup, Hf. cbn. unfold env_setting.
    destruct (Config.environ e "SESSION_INDEX_DB") as [v|]; [|reflexivity].
    destruct (String.eqb v ""); reflexivity.
  - rewrite layer_env_lookup, Hf. cbn. unfold env_setting.
    destruct (Config.environ e "SESSION_INDEX_TOPICS") as [v|]; [|reflexivity].
    destruct (String.eqb v ""); reflexivity.
  - rewrite layer_env_lookup, Hf. reflexivity.
  - rewrite layer_env_lookup, Hf. reflexivity.
  - intros e'. destruct (Config._load_config_file e'); first [exact I | reflexivity].
Qed.

(** X18, on a file that sets two paths and gives a null, and an
    environment that sets the database path and an empty variable. *)
Lemma config_sources_in_order_witness :
  exists config,
    Config.get_config Settings.example None = (Dyn.Return config, Some config)
    /\ Json.dict_lookup "projects_dir" config = Some (JStr "/srv/projects")
    /\ Json.dict_lookup "db_path" config = Some (JStr "/data/sessions.db")
    /\ Json.dict_lookup "topics_dir" config = Some (JStr "/home/u/.claude/session-topics")
    /\ Json.dict_lookup "colour" config = None.
Proof.
  destruct (config_sources_in_order Settings.example Settings.file_config)
    as (config & Hget & Hkeys & H1 & H2 & H3 & _).
  - reflexivity.
  - refine (bool_decide_unpack _ _). vm_compute. exact I.
  - exists config. split; [exact Hget|]. split; [exact H1|]. split; [exact H2|].
    split; [exact H3|].
    destruct (Json.dict_lookup "colour" config) eqn:L; [|reflexivity].
    exfalso.
    pose proof (dict_lookup_present _ _ _ L) as Hin.
    rewrite Hkeys in Hin. clear -Hin.
    repeat (apply elem_of_cons in Hin; destruct Hin as [Hin|Hin]; [discriminate|]).
    apply elem_of_nil in Hin. exact Hin.
Defined.

(* ===================================================================== *)
(** ** The tool and agent counters of the parser *)
(* ===================================================================== *)

Section Counters.

Import Parser Dyn.

Lemma bump_total (k : json) (d : list (json * Z)) :
  total_count (bump k d) = (total_count d + 1)%Z.
Proof.
  induction d as [|[k' n] d IH]; simpl; [reflexivity|].
  destruct (key_eq k k'); simpl; [lia | rewrite IH; lia].
Qed.

Lemma tool_block_totals (item : json) (ta ta' : list (json * Z) * list (json * Z)) :
  tool_block item ta = Some ta' ->
  total_count (fst ta') = (total_count (fst ta) + if is_tool_use item then 1 else 0)%Z
  /\ total_count (snd ta') = (total_count (snd ta) + if is_agent_call item then 1 else 0)%Z.
Proof.
  unfold tool_block, is_tool_use, is_agent_call.
  destruct item as [| | | | | |d]; try (intros H; inversion H; subst; split; lia).
  destruct (str_eq (default JNull (Json.dict_lookup "type" d)) "tool_use");
    [|intros H; inversion H; subst; split; simpl; lia].
  unfold count_up.
  destruct (hashable (default (JStr "") (Json.dict_lookup "name" d))); [|discriminate].
  cbn [mbind option_bind andb].
  destruct (str_eq (default (JStr "") (Json.dict_lookup "name" d)) "Task").
  - destruct (default (JObj []) (Json.dict_lookup "input" d)) as [| | | | | |input];
      try discriminate.
    cbn [get mbind option_bind].
    destruct (truthy (default (JStr "") (Json.dict_lookup "subagent_type" input))).
    + destruct (hashable _); [|discriminate]. cbn [mbind option_bind].
      intros H. inversion H; subst. simpl. rewrite !bump_total. split; reflexivity.
    + intros H. inversion H; subst. simpl. rewrite bump_total. split; lia.
  - intros H. inversion H; subst. simpl. rewrite bump_total. split; lia.
Qed.

Lemma tool_blocks_totals (items : list json) (ta ta' : list (json * Z) * list (json * Z)) :
  tool_blocks items ta = Some ta' ->
  total_count (fst ta')
  = (total_count (fst ta) + Z.of_nat (length (List.filter is_tool_use items)))%Z
  /\ total_count (snd ta')
     = (total_count (snd ta) + Z.of_nat (length (List.filter is_agent_call items)))%Z.
Proof.
  revert ta. induction items as [|item r IH]; intros ta H.
  - inversion H; subst. simpl. split; lia.
  - cbn [tool_blocks] in H. destruct (tool_block item ta) as [ta1|] eqn:E; [|discriminate].
    cbn [mbind option_bind] in H.
    destruct (IH _ H) as [H1 H2]. destruct (tool_block_totals _ _ _ E) as [H3 H4].
    rewrite H1, H2, H3, H4. cbn [List.filter].
    destruct (is_tool_use item), (is_agent_call item); cbn [length]; split; lia.
Qed.

Lemma custom_title_usage (entry : json) (a a' : locals) :
  custom_title entry a = Some a' -> usage a' = usage a.
Proof.
  unfold custom_title. destruct (get entry "customTitle" (JStr "")) as [v|]; [|discriminate].
  simpl. destruct v; try discriminate.
  destruct (Py.startswith ">>>" s); [destruct (1 <? _)|];
    intros H; inversion H; reflexivity.
Qed.

Lemma compaction_usage (entry : json) (a a' : locals) :
  compaction entry a = Some a' -> usage a' = usage a.
Proof.
  unfold compaction. destruct (summary_candidate entry) as [c|]; [|discriminate].
  simpl. intros H. inversion H. reflexivity.
Qed.

Lemma extract_model_usage (ty entry : json) (a a' : locals) :
  extract_model ty entry a = Some a' -> usage a' = usage a.
Proof.
  unfold extract_model. destruct (_ && _).
  - destruct (get entry "message" (JObj [])) as [m|]; [|discriminate]. simpl.
    destruct (get m "model" (JStr "")) as [v|]; [|discriminate]. simpl.
    intros H. inversion H. reflexivity.
  - intros H. inversion H. reflexivity.
Qed.

Lemma extract_user_message_usage (ty entry : json) (a a' : locals) :
  extract_user_message ty entry a = Some a' -> usage a' = usage a.
Proof.
  unfold extract_user_message. destruct (str_eq ty "user"); [|intros H; inversion H; reflexivity].
  destruct (get entry "message" (JObj [])) as [m|]; [|discriminate]. simpl.
  destruct (get m "content" (JStr "")) as [v|]; [|discriminate]. simpl.
  destruct (match v with JArr items => _ | _ => Some v end) as [c|]; [|discriminate].
  simpl. destruct (truthy c); [|intros H; inversion H; reflexivity].
  destruct (py_len c) as [n|]; [|discriminate]. simpl.
  destruct (10 <? n)%Z; intros H; inversion H; reflexivity.
Qed.

Lemma parse_entry_usage (line : string) (entry : json) (a a' : locals) :
  Json.loads line = Some entry ->
  parse_entry entry a = Some a' ->
  total_count (tools a')
  = (total_count (tools a)
     + Z.of_nat (length (List.filter is_tool_use (assistant_blocks line))))%Z
  /\ total_count (agents a')
     = (total_count (agents a)
        + Z.of_nat (length (List.filter is_agent_call (assistant_blocks line))))%Z.
Proof.
  intros L H. unfold parse_entry in H.
  destruct (get entry "type" JNull) as [ty|] eqn:G; [|discriminate]. simpl in H.
  destruct (get_dict _ _ _ _ G) as (d & -> & Hty).
  change (get (JObj d) "timestamp" JNull)
    with (Some (default JNull (Json.dict_lookup "timestamp" d))) in H.
  cbn [mbind option_bind] in H.
  set (a0 := track_timestamps _ a) in H.
  destruct (if str_eq ty "custom-title" then custom_title (JObj d) a0 else Some a0)
    as [a1|] eqn:E1; [|discriminate]. cbn [mbind option_bind] in H.
  destruct (if str_eq ty "summary" then compaction (JObj d) a1 else Some a1)
    as [a2|] eqn:E2; [|discriminate]. cbn [mbind option_bind] in H.
  destruct (extract_model ty (JObj d) (count_exchange ty a2)) as [a3|] eqn:E3;
    [|discriminate]. cbn [mbind option_bind] in H.
  destruct (extract_user_message ty (JObj d) a3) as [a4|] eqn:E4; [|discriminate].
  cbn [mbind option_bind] in H.
  assert (H0 : usage a0 = usage a).
  { subst a0. unfold track_timestamps. destruct (truthy _); reflexivity. }
  assert (H1 : usage a1 = usage a0).
  { destruct (str_eq ty "custom-title").
    - apply (custom_title_usage _ _ _ E1).
    - inversion E1; reflexivity. }
  assert (H2 : usage a2 = usage a1).
  { destruct (str_eq ty "summary").
    - apply (compaction_usage _ _ _ E2).
    - inversion E2; reflexivity. }
  assert (Hc : usage (count_exchange ty a2) = usage a2).
  { unfold count_exchange. destruct (_ || _); reflexivity. }
  assert (H4 : usage a4 = usage a).
  { rewrite (extract_user_message_usage _ _ _ _ E4), (extract_model_usage _ _ _ _ E3),
      Hc, H2, H1, H0. reflexivity. }
  assert (Ht : tools a4 = tools a) by exact (f_equal fst H4).
  assert (Ha : agents a4 = agents a) by exact (f_equal snd H4).
  rewrite <- Ht, <- Ha.
  unfold assistant_blocks. rewrite L, <- Hty.
  unfold extract_tools in H. destruct (str_eq ty "assistant").
  - cbn [get mbind option_bind] in H.
    destruct (default (JObj []) (Json.dict_lookup "message" d)) as [| | | | | |m] eqn:M;
      cbn [get mbind option_bind] in H; try discriminate.
    destruct (default (JArr []) (Json.dict_lookup "content" m)) as [| | | | |items|];
      try (inversion H; subst; simpl; split; lia).
    destruct (tool_blocks items (tools a4, agents a4)) as [ta|] eqn:T; [|discriminate].
    cbn [mbind option_bind] in H. inversion H; subst. simpl.
    exact (tool_blocks_totals _ _ _ T).
  - inversion H; subst. simpl. split; lia.
Qed.

Lemma parse_lines_usage (lines : list string) (a a' : locals) :
  parse_lines lines a = Some a' ->
  total_count (tools a')
  = (total_count (tools a) + count_in is_tool_use (map assistant_blocks lines))%Z
  /\ total_count (agents a')
     = (total_count (agents a) + count_in is_agent_call (map assistant_blocks lines))%Z.
Proof.
  unfold count_in. revert a. induction lines as [|line lines IH]; intros a H.
  - inversion H. simpl. split; lia.
  - cbn [parse_lines] in H. cbn [map concat]. rewrite !List.filter_app, !length_app.
    destruct (Json.loads line) as [entry|] eqn:L.
    + destruct (parse_entry entry a) as [a1|] eqn:E; [|discriminate].
      cbn [mbind option_bind] in H.
      destruct (IH _ H) as [H1 H2]. destruct (parse_entry_usage _ _ _ _ L E) as [H3 H4].
      rewrite H1, H2, H3, H4. split; lia.
    + destruct (IH _ H) as [H1 H2]. rewrite H1, H2.
      unfold assistant_blocks. rewrite L. simpl. split; lia.
Qed.

End Counters.

(** X19. In the record [_parse_session] returns, every [tool_use] block of
    the assistant records is counted once: the tool counters add up to the
    number of such blocks, and the agent counters to the number of those that
    name the tool [Task] with a non-empty [subagent_type]. *)
Theorem tool_uses_are_counted_once (cfg : config) (p : Fs.path) (f : Fs.file)
    (lines : list string) (k k' : clock) (data : session_data) :
  Fs.target p = Some f -> Fs.content f = Some lines ->
  Indexer._parse_session cfg p k = (Dyn.Return (Some data), k') ->
  total_count (d_tools data) = count_in is_tool_use (map assistant_blocks lines)
  /\ total_count (d_agents data) = count_in is_agent_call (map assistant_blocks lines).
Proof.
  intros T C P.
  destruct (parse_session_finish _ _ _ _ _ P) as (f' & lines' & a & T' & C' & L & F).
  rewrite T in T'. inversion T'; subst f'. rewrite C in C'. inversion C'; subst lines'.
  assert (Hd : d_tools data = Parser.tools a /\ d_agents data = Parser.agents a).
  { unfold Indexer.finish in F.
    destruct (Indexer.auto_title a) as [[ti td]|]; [|inversion F].
    destruct (Indexer.detect_client cfg (Fs.parent p) a) as [cl|]; [|inversion F].
    destruct (Indexer.fts_content_of (Parser.user_prompts a)) as [fts|]; [|inversion F].
    destruct (Indexer.topic_entries _ _ k) as [[tp|] k3]; [|inversion F].
    rewrite T in F. inversion F; subst. split; reflexivity. }
  destruct Hd as [-> ->].
  destruct (parse_lines_usage _ _ _ L) as [H1 H2]. rewrite H1, H2. simpl. split; lia.
Qed.

(** X19, on the valid transcript: its one assistant record holds one
    [tool_use] block, which calls no agent. *)
Lemma tool_uses_are_counted_once_witness :
  let data := default Examples.first_parse
                (match fst (Indexer._parse_session Examples.cfg
                              (Examples.at_ Examples.project "aaa" Examples.valid)
                              Examples.wall) with
                 | Dyn.Return d => d
                 | Dyn.Raise => None
                 end) in
  total_count (d_tools data) = 1%Z /\ total_count (d_agents data) = 0%Z.
Proof.
  intros data.
  destruct (tool_uses_are_counted_once Examples.cfg
              (Examples.at_ Examples.project "aaa" Examples.valid)
              Examples.valid (Examples.twelve_turns ++ [Examples.assistant_line])
              Examples.wall Examples.wall data) as (H1 & H2).
  - reflexivity.
  - reflexivity.
  - vm_compute. reflexivity.
  - rewrite H1, H2. vm_compute. split; reflexivity.
Defined.

(* ===================================================================== *)
(** ** The custom title of a session *)
(* ===================================================================== *)

Section CustomTitle.

Import Parser Dyn.

Lemma custom_title_display (entry : json) (a a' : locals) :
  custom_title entry a = Some a' ->
  exists t, get entry "customTitle" (JStr "") = Some (JStr t) /\ title_display a' = JStr t.
Proof.
  unfold custom_title. destruct (get entry "customTitle" (JStr "")) as [v|]; [|discriminate].
  simpl. destruct v; try discriminate.
  destruct (Py.startswith ">>>" s); [destruct (1 <? _)|];
    intros H; inversion H; eauto.
Qed.

Lemma compaction_display (entry : json) (a a' : locals) :
  compaction entry a = Some a' -> title_display a' = title_display a.
Proof.
  unfold compaction. destruct (summary_candidate entry) as [c|]; [|discriminate].
  simpl. intros H. inversion H. reflexivity.
Qed.

Lemma extract_model_display (ty entry : json) (a a' : locals) :
  extract_model ty entry a = Some a' -> title_display a' = title_display a.
Proof.
  unfold extract_model. destruct (_ && _).
  - destruct (get entry "message" (JObj [])) as [m|]; [|discriminate]. simpl.
    destruct (get m "model" (JStr "")) as [v|]; [|discriminate]. simpl.
    intros H. inversion H. reflexivity.
  - intros H. inversion H. reflexivity.
Qed.

Lemma extract_user_message_display (ty entry : json) (a a' : locals) :
  extract_user_message ty entry a = Some a' -> title_display a' = title_display a.
Proof.
  unfold extract_user_message. destruct (str_eq ty "user"); [|intros H; inversion H; reflexivity].
  destruct (get entry "message" (JObj [])) as [m|]; [|discriminate]. simpl.
  destruct (get m "content" (JStr "")) as [v|]; [|discriminate]. simpl.
  destruct (match v with JArr items => _ | _ => Some v end) as [c|]; [|discriminate].
  simpl. destruct (truthy c); [|intros H; inversion H; reflexivity].
  destruct (py_len c) as [n|]; [|discriminate]. simpl.
  destruct (10 <? n)%Z; intros H; inversion H; reflexivity.
Qed.

Lemma extract_tools_display (ty entry : json) (a a' : locals) :
  extract_tools ty entry a = Some a' -> title_display a' = title_display a.
Proof.
  unfold extract_tools. destruct (str_eq ty "assistant"); [|intros H; inversion H; reflexivity].
  destruct (get entry "message" (JObj [])) as [m|]; [|discriminate]. simpl.
  destruct (get m "content" (JArr [])) as [v|]; [|discriminate]. simpl.
  destruct v; try (intros H; inversion H; reflexivity).
  destruct (tool_blocks items _) as [ta|]; [|discriminate]. simpl.
  intros H. inversion H. reflexivity.
Qed.

Lemma parse_entry_display (line : string) (entry : json) (a a' : locals) :
  Json.loads line = Some entry ->
  parse_entry entry a = Some a' ->
  title_display a' = default (title_display a) (custom_title_of line)
  /\ match custom_title_of line with
     | Some v => exists t, v = JStr t
     | None => True
     end.
Proof.
  intros L H. unfold parse_entry in H.
  destruct (get entry "type" JNull) as [ty|] eqn:G; [|discriminate]. simpl in H.
  destruct (get_dict _ _ _ _ G) as (d & -> & Hty).
  change (get (JObj d) "timestamp" JNull)
    with (Some (default JNull (Json.dict_lookup "timestamp" d))) in H.
  cbn [mbind option_bind] in H.
  set (a0 := track_timestamps _ a) in H.
  destruct (if str_eq ty "custom-title" then custom_title (JObj d) a0 else Some a0)
    as [a1|] eqn:E1; [|discriminate]. cbn [mbind option_bind] in H.
  destruct (if str_eq ty "summary" then compaction (JObj d) a1 else Some a1)
    as [a2|] eqn:E2; [|discriminate]. cbn [mbind option_bind] in H.
  destruct (extract_model ty (JObj d) (count_exchange ty a2)) as [a3|] eqn:E3;
    [|discriminate]. cbn [mbind option_bind] in H.
  destruct (extract_user_message ty (JObj d) a3) as [a4|] eqn:E4; [|discriminate].
  cbn [mbind option_bind] in H.
  assert (H0 : title_display a0 = title_display a).
  { subst a0. unfold track_timestamps. destruct (truthy _); reflexivity. }
  assert (H2 : title_display a2 = title_display a1).
  { destruct (str_eq ty "summary").
    - apply (compaction_display _ _ _ E2).
    - inversion E2; reflexivity. }
  assert (Hc : title_display (count_exchange ty a2) = title_display a2).
  { unfold count_exchange. destruct (_ || _); reflexivity. }
  rewrite (extract_tools_display _ _ _ _ H), (extract_user_message_display _ _ _ _ E4),
    (extract_model_display _ _ _ _ E3), Hc, H2.
  unfold custom_title_of. rewrite L, <- Hty.
  destruct (str_eq ty "custom-title").
  - destruct (custom_title_display _ _ _ E1) as (t & Hg & Ht).
    simpl in Hg. inversion Hg as [Hg']. rewrite Hg'. simpl. rewrite Ht. eauto.
  - inversion E1; subst. simpl. auto.
Qed.

Lemma parse_lines_display (lines : list string) (a a' : locals) :
  parse_lines lines a = Some a' ->
  title_display a' = default (title_display a) (last (omap custom_title_of lines))
  /\ Forall (fun v => exists t, v = JStr t) (omap custom_title_of lines).
Proof.
  revert a. induction lines as [|line lines IH]; intros a H.
  - inversion H. split; [reflexivity | constructor].
  - cbn [parse_lines] in H. cbn [omap list_omap].
    destruct (Json.loads line) as [entry|] eqn:L.
    + destruct (parse_entry entry a) as [a1|] eqn:E; [|discriminate].
      cbn [mbind option_bind] in H.
      destruct (IH _ H) as [H1 H2]. destruct (parse_entry_display _ _ _ _ L E) as [H3 H4].
      rewrite H1, H3. destruct (custom_title_of line) as [v|].
      * split; [cbn [default from_option]; apply last_default | constructor; assumption].
      * split; [reflexivity | exact H2].
    + destruct (IH _ H) as [H1 H2].
      assert (Hn : custom_title_of line = None) by (unfold custom_title_of; rewrite L; reflexivity).
      rewrite Hn. split; assumption.
Qed.

End CustomTitle.

(** X20. The latest custom title wins: when the transcript's last record
    of type [custom-title] carries a title that is not empty, the record
    [_parse_session] returns has that title as [title_display], whatever
    summaries and prompts the transcript holds; no automatic title replaces
    it. *)
Theorem latest_custom_title_wins (cfg : config) (p : Fs.path) (f : Fs.file)
    (lines : list string) (k k' : clock) (data : session_data) (t : string) :
  Fs.target p = Some f -> Fs.content f = Some lines ->
  Indexer._parse_session cfg p k = (Dyn.Return (Some data), k') ->
  last (omap custom_title_of lines) = Some (JStr t) ->
  t <> "" ->
  d_title_display data = JStr t.
Proof.
  intros T C P Hlast Ht.
  destruct (parse_session_finish _ _ _ _ _ P) as (f' & lines' & a & T' & C' & L & F).
  rewrite T in T'. inversion T'; subst f'. rewrite C in C'. inversion C'; subst lines'.
  destruct (parse_lines_display _ _ _ L) as [Hd _]. rewrite Hlast in Hd. simpl in Hd.
  unfold Indexer.finish in F.
  assert (Ha : Indexer.auto_title a = Dyn.Return (Parser.title a, JStr t)).
  { unfold Indexer.auto_title. rewrite Hd. simpl.
    apply String.eqb_neq in Ht. rewrite Ht. reflexivity. }
  rewrite Ha in F.
  destruct (Indexer.detect_client cfg (Fs.parent p) a) as [cl|]; [|inversion F].
  destruct (Indexer.fts_content_of (Parser.user_prompts a)) as [fts|]; [|inversion F].
  destruct (Indexer.topic_entries _ _ k) as [[tp|] k3]; [|inversion F].
  rewrite T in F. inversion F; subst. reflexivity.
Qed.

(** X20, on a transcript named twice. *)
Lemma latest_custom_title_wins_witness :
  let lines := [Examples.user_line 1;
                Examples.line "{'type':'custom-title','customTitle':'First name'}";
                Examples.assistant_line;
                Examples.line "{'type':'custom-title','customTitle':'Second name'}"] in
  let f := Examples.transcript lines 500 "1700000006.5" in
  let data := default Examples.first_parse
                (match fst (Indexer._parse_session Examples.cfg
                              (Examples.at_ Examples.project "ccc" f) Examples.wall) with
                 | Dyn.Return d => d
                 | Dyn.Raise => None
                 end) in
  d_title_display data = JStr "Second name".
Proof.
  intros lines f data.
  apply (latest_custom_title_wins Examples.cfg (Examples.at_ Examples.project "ccc" f) f
           lines Examples.wall Examples.wall data "Second name").
  - reflexivity.
  - reflexivity.
  - vm_compute. reflexivity.
  - vm_compute. reflexivity.
  - discriminate.
Defined.
